(** * Backend: a shallow embedding of the content-management API

    The development follows the layout of the repository.

    - [JS]: the pieces of the ECMAScript runtime the route handlers rely
      on (truthiness, comparison with coercion, [parseInt], [trim]).
    - [Http]: the shape of a JSON answer.
    - [Mongoose]: the schema layer (casts, defaults, setters) and the
      interface of the collection store (filter, order, window).
    - [Testimonial], [Blog], [ContactSubmission], [Newsletter], [User]:
      the schemas under [models/].
    - [Disk], [Multer]: the upload directory and the upload middleware.
    - [Testimonials], [Blogs], [ContactSubmissions], [NewsletterRoutes],
      [Auth]: the route handlers under [routes/], one function per route,
      from the request and the state before to the answer and the state
      after.
    - [Documents], [Fs]: deleting from a collection and from the disk.
    - [TestimonialRoutes], [BlogRoutes], [BlogPages], [ContactRoutes],
      [NewsletterAdmin], [AuthVerify]: the other routes of the same
      routers, and the middleware that protects routes.
    - [Reference], [ReferenceMore]: one executable instance of each
      interface.

    Conventions.  A JavaScript number is represented by its exact value:
    integers by [Z], other finite values by [Q]; the embedding is exact on
    the safe-integer range (below 2^53 in absolute value), where the
    handlers' arithmetic ([page - 1], [* limit], [total / limit]) is exact
    too.  Strings are [string]; white space is the ASCII white space.  A
    collection is the list of its documents in natural order, and the
    store is reachable.  Wall-clock time, random numbers and fresh
    identifiers are inputs of the handlers. *)

From Stdlib Require Import ZArith QArith Lqa List String Ascii Bool Lia.
From Stdlib Require Import Permutation DecimalString.
From Stdlib Require Import Sorted.
From stdpp Require Import gmap strings.
Import ListNotations.

Local Open Scope string_scope.

(* ================================================================== *)
(** ** ECMAScript primitives *)
(* ================================================================== *)

Module JS.

(** The value of a JavaScript number: a finite double stands for the
    rational it denotes, next to the three special values. *)
Inductive number : Type :=
  | NaN
  | NegInf
  | Fin (q : Q)
  | PosInf.

Definition ofZ (z : Z) : number := Fin (inject_Z z).

(** [x < y] on numbers (false as soon as one side is [NaN]). *)
Definition num_lt (x y : number) : bool :=
  match x, y with
  | NaN, _ => false
  | _, NaN => false
  | NegInf, NegInf => false
  | NegInf, _ => true
  | _, NegInf => false
  | PosInf, _ => false
  | Fin _, PosInf => true
  | Fin a, Fin b => negb (Qle_bool b a)
  end.

(** The scalar values a parsed request body can hold in one property;
    [JUndefined] stands for an absent property.  Arrays and nested
    objects are not represented. *)
Inductive value : Type :=
  | JUndefined
  | JNull
  | JBool (b : bool)
  | JNum (n : number)
  | JStr (s : string).

(** The two conversions between strings and numbers are those of the
    runtime ([Number(s)] and [String(n)]); the handlers only pass them
    through, so they are kept as an interface. *)
Class Runtime : Type := {
  StringToNumber : string -> number;
  NumberToString : number -> string
}.

(** [ToBoolean]: what [if (v)] and [!v] test. *)
Definition truthy (v : value) : bool :=
  match v with
  | JUndefined | JNull => false
  | JBool b => b
  | JNum NaN => false
  | JNum (Fin q) => negb (Qeq_bool q 0)
  | JNum _ => true
  | JStr s => negb (String.eqb s "")
  end.

(** [ToNumber]. *)
Definition ToNumber `{Runtime} (v : value) : number :=
  match v with
  | JUndefined => NaN
  | JNull => ofZ 0
  | JBool b => ofZ (if b then 1 else 0)
  | JNum n => n
  | JStr s => StringToNumber s
  end.

(** [v < k] and [v > k] against a number literal [k]: the left operand
    is coerced with [ToNumber]. *)
Definition lt_lit `{Runtime} (v : value) (k : Z) : bool :=
  num_lt (ToNumber v) (ofZ k).

Definition gt_lit `{Runtime} (v : value) (k : Z) : bool :=
  num_lt (ofZ k) (ToNumber v).

(** *** [parseInt] on a string, radix omitted *)

Definition isWhiteSpace (c : ascii) : bool :=
  let n := nat_of_ascii c in
  ((9 <=? n) && (n <=? 13))%nat || (n =? 32)%nat.

Fixpoint trimStart (s : string) : string :=
  match s with
  | String c s' => if isWhiteSpace c then trimStart s' else s
  | EmptyString => EmptyString
  end.

Fixpoint rev_string (acc s : string) : string :=
  match s with
  | String c s' => rev_string (String c acc) s'
  | EmptyString => acc
  end.

Definition trimEnd (s : string) : string :=
  rev_string "" (trimStart (rev_string "" s)).

(** [String.prototype.trim]. *)
Definition trim (s : string) : string := trimEnd (trimStart s).

(** The value of a character as a digit, in any radix up to 36. *)
Definition digitValue (c : ascii) : option Z :=
  let n := Z.of_nat (nat_of_ascii c) in
  if ((48 <=? n) && (n <=? 57))%Z then Some (n - 48)%Z
  else if ((97 <=? n) && (n <=? 122))%Z then Some (n - 87)%Z
  else if ((65 <=? n) && (n <=? 90))%Z then Some (n - 55)%Z
  else None.

(** Reads the longest prefix of radix-[R] digits; [acc] is [None] until a
    first digit has been read. *)
Fixpoint parseDigits (R : Z) (s : string) (acc : option Z) : option Z :=
  match s with
  | String c s' =>
      match digitValue c with
      | Some d =>
          if (d <? R)%Z
          then parseDigits R s' (Some (R * default 0%Z acc + d)%Z)
          else acc
      | None => acc
      end
  | EmptyString => acc
  end.

(** [parseInt(s)]: [None] is [NaN].  The result is the integer the digits
    denote; it is the number the runtime returns when it is a safe integer
    ([isSafeInteger] below), and the statements about parsed parameters are
    made for safe integers. *)
Definition parseInt (s : string) : option Z :=
  let S0 := trimStart s in
  let '(sign, S1) :=
    match S0 with
    | String "-" r => ((-1)%Z, r)
    | String "+" r => (1%Z, r)
    | _ => (1%Z, S0)
    end in
  let '(R, S2) :=
    match S1 with
    | String "0" (String "x" r) => (16%Z, r)
    | String "0" (String "X" r) => (16%Z, r)
    | _ => (10%Z, S1)
    end in
  option_map (Z.mul sign) (parseDigits R S2 None).

(** [Number.isSafeInteger]: the integers every one of which is a number
    of its own, on which sums and products that stay in range are exact. *)
Definition isSafeInteger (z : Z) : bool :=
  (Z.abs z <=? 2 ^ 53 - 1)%Z.

(** A query-string parameter: absent, or the string the client sent (a
    repeated parameter, which reaches the handler as an array, is not
    represented). *)
Definition param : Type := option string.

(** [parseInt(p)] for [const { p = d } = req.query]. *)
Definition parseIntParam (d : Z) (p : param) : option Z :=
  match p with
  | None => Some d
  | Some s => parseInt s
  end.

(** [if (p)] on a query parameter. *)
Definition given (p : param) : bool :=
  match p with
  | None => false
  | Some s => negb (String.eqb s "")
  end.

(** [Math.ceil(a / b)] on integers: [None] when the quotient is not
    finite (division by zero), which [res.json] writes as [null]. *)
Definition ceilDiv (a b : Z) : option Z :=
  if (b =? 0)%Z then None else Some (- ((- a) / b))%Z.

(** Decimal rendering of an integer ([String(n)], [n + '-']). *)
Definition showZ (z : Z) : string := NilZero.string_of_int (Z.to_int z).

End JS.

(* ================================================================== *)
(** ** HTTP responses *)
(* ================================================================== *)

Module Http.

(** What a handler sends: [res.status(s).json(payload)] for a payload of
    the route's own type, or [res.status(s).json({ error })].  The fixed
    [message] of a success payload and the [details] some 500 answers add
    (the library's own text) are left out. *)
Inductive response (A : Type) : Type :=
  | Json (status : nat) (payload : A)
  | Fail (status : nat) (error : string).

Arguments Json {A} status payload.
Arguments Fail {A} status error.

Definition status {A} (r : response A) : nat :=
  match r with
  | Json s _ => s
  | Fail s _ => s
  end.

End Http.

(* ================================================================== *)
(** ** The schema layer and the collection store *)
(* ================================================================== *)

Module Mongoose.

Import JS.

(** The result of casting a request value to a schema type: [None] is a
    [CastError]; otherwise the cast value, itself [None] for [null] and
    for an absent property. *)
Definition cast (A : Type) : Type := option (option A).

Definition CastError {A} : cast A := None.
Definition Cast {A} (a : option A) : cast A := Some a.

(** [type: String]. *)
Definition castString `{Runtime} (v : value) : cast string :=
  match v with
  | JUndefined | JNull => Cast None
  | JBool b => Cast (Some (if b then "true" else "false"))
  | JNum n => Cast (Some (NumberToString n))
  | JStr s => Cast (Some s)
  end.

(** [type: Boolean]: the two sets of accepted spellings. *)
Definition castBoolean (v : value) : cast bool :=
  match v with
  | JUndefined | JNull => Cast None
  | JBool b => Cast (Some b)
  | JNum (Fin q) =>
      if Qeq_bool q 1 then Cast (Some true)
      else if Qeq_bool q 0 then Cast (Some false)
      else CastError
  | JNum _ => CastError
  | JStr s =>
      if String.eqb s "true" || String.eqb s "1" || String.eqb s "yes"
      then Cast (Some true)
      else if String.eqb s "false" || String.eqb s "0" || String.eqb s "no"
      then Cast (Some false)
      else CastError
  end.

(** [type: Number]: the empty string is [null], a string or a boolean
    goes through [Number(v)], and [NaN] is refused. *)
Definition castNumber `{Runtime} (v : value) : cast number :=
  match v with
  | JUndefined | JNull => Cast None
  | JBool b => Cast (Some (ofZ (if b then 1 else 0)))
  | JNum NaN => CastError
  | JNum n => Cast (Some n)
  | JStr s =>
      if String.eqb s "" then Cast None
      else match StringToNumber s with
           | NaN => CastError
           | n => Cast (Some n)
           end
  end.

(** The [default:] of a path applies to an absent property only. *)
Definition withDefault (d : value) (v : value) : value :=
  match v with
  | JUndefined => d
  | _ => v
  end.

(** The [trim: true] and [lowercase: true] setters. *)
Definition lowerChar (c : ascii) : ascii :=
  let n := nat_of_ascii c in
  if ((65 <=? n) && (n <=? 90))%nat then ascii_of_nat (n + 32) else c.

Fixpoint toLowerCase (s : string) : string :=
  match s with
  | String c s' => String (lowerChar c) (toLowerCase s')
  | EmptyString => EmptyString
  end.

(** [required: true] on a string path: present and not empty. *)
Definition requiredString (v : option string) : option string :=
  match v with
  | Some s => if String.eqb s "" then None else Some s
  | None => None
  end.

(** [enum: [...]]: [null] passes, a value must be listed. *)
Definition inEnum (values : list string) (v : option string) : bool :=
  match v with
  | None => true
  | Some s => existsb (String.eqb s) values
  end.

(** [sortOrder === 'desc' ? -1 : 1]. *)
Inductive direction : Type := Ascending | Descending.

Definition sortDirection (sortOrder : string) : direction :=
  if String.eqb sortOrder "desc" then Descending else Ascending.

(** [(options.page - 1) * options.limit], [NaN] as soon as one side is. *)
Definition skipOf (page limit : option Z) : option Z :=
  p ← page; l ← limit; Some ((p - 1) * l)%Z.

(** The cursor of a query.  [window skip limit docs] is what the store
    returns for [.skip(skip).limit(limit)] over an ordered result set
    ([None] on either side is [NaN] from a failed [parseInt]); the result
    is [None] when the store refuses the call.  The store fixes it on
    non-negative skips and positive limits, and never invents a
    document. *)
Class Cursor : Type := {
  window : forall D : Type, option Z -> option Z -> list D -> option (list D);
  window_page : forall (D : Type) (k n : Z) (l : list D),
    (0 <= k)%Z -> (0 < n)%Z ->
    window D (Some k) (Some n) l
    = Some (firstn (Z.to_nat n) (skipn (Z.to_nat k) l));
  window_incl : forall (D : Type) (k n : option Z) (l r : list D),
    window D k n l = Some r -> incl r l
}.

Arguments window {_} {D} _ _ _.

(** A collection of documents of type [D]: the store orders a result set
    by one field, in one direction.  Not every string is a sort key: the
    empty field name of [?sortBy=] is refused ([Invalid field "" passed to
    sort()]), and the query throws; [createdAt], which the schemas'
    timestamps add, is one. *)
Class Collection (D : Type) : Type := {
  sortKey : string -> bool;
  sortKey_createdAt : sortKey "createdAt" = true;
  sortKey_empty : sortKey "" = false;
  sortDocs : string -> direction -> list D -> list D;
  sortDocs_perm : forall f d l, Permutation (sortDocs f d l) l
}.

(** [{ $regex: pattern, $options: 'i' }] against a string field.  The
    store compiles the pattern when the query runs and refuses a string
    that is no regular expression: the query throws. *)
Class Regex : Type := {
  regexValid : string -> bool;
  regexTest : string -> string -> bool
}.

(** [{ $text: { $search: s } }] against the text index of [D]. *)
Class TextIndex (D : Type) : Type := {
  textSearch : string -> D -> bool
}.

(** Casting a route parameter to an ObjectId ([CastError] otherwise). *)
Class ObjectIds : Type := {
  validId : string -> bool
}.

(** [Model.find(q).sort({ [f]: d }).limit(n).skip(k).exec()]: filter,
    order, then cut the window; [None] when the query throws, as it does
    on a field that is no sort key. *)
Definition find {D} `{Collection D} `{Cursor}
    (q : D -> bool) (f : string) (d : direction) (k n : option Z)
    (docs : list D) : option (list D) :=
  if sortKey f then window k n (sortDocs f d (List.filter q docs))
  else None.

(** [Model.countDocuments(q)]. *)
Definition countDocuments {D} (q : D -> bool) (docs : list D) : Z :=
  Z.of_nat (length (List.filter q docs)).

(** The first document of the collection that satisfies [q]
    ([findOne], [findById]). *)
Definition findOne {D} (q : D -> bool) (docs : list D) : option D :=
  List.find q docs.

(** Replaces the first document that satisfies [q] by its image under
    [f] ([doc.save()] of a loaded document, [findByIdAndUpdate]). *)
Fixpoint updateOne {D} (q : D -> bool) (f : D -> D) (docs : list D) : list D :=
  match docs with
  | [] => []
  | d :: ds => if q d then f d :: ds else d :: updateOne q f ds
  end.

End Mongoose.

(* ================================================================== *)
(** ** models/Testimonial.js *)
(* ================================================================== *)

Module Testimonial.

Import JS Mongoose.

(** A stored testimonial.  Paths that are not [required] may hold
    [null]; [timestamps: true] adds the two dates. *)
Record t : Type := {
  _id : string;
  name : string;
  company : string;
  position : option string;
  rating : Q;
  testimonial : option string;
  image : option string;
  active : option bool;
  featured : option bool;
  projectType : option string;
  source : option string;
  verified : option bool;
  createdAt : Z;
  updatedAt : Z
}.

(** The object handed to [new Testimonial({ ... })]. *)
Record fields : Type := {
  f_name : value;
  f_company : value;
  f_position : value;
  f_rating : value;
  f_testimonial : value;
  f_image : value;
  f_active : value;
  f_featured : value;
  f_projectType : value;
  f_source : value;
  f_verified : value
}.

Definition sources : list string :=
  ["website"; "email"; "phone"; "social"; "referral"].

(** [rating]: a required number with [min: 1] and [max: 5]. *)
Definition validRating (v : option number) : option Q :=
  match v with
  | Some (Fin q) => if Qle_bool 1 q && Qle_bool q 5 then Some q else None
  | _ => None
  end.

(** [new Testimonial(f)] followed by [save()]: every path is cast, its
    setters and defaults are applied, and the validators of the schema
    run; [None] is the error [save()] throws. *)
Definition validate `{Runtime} (f : fields) (id : string) (now : Z) : option t :=
  n ← castString (f_name f);
  n ← requiredString (trim <$> n);
  c ← castString (f_company f);
  c ← requiredString (trim <$> c);
  p ← castString (f_position f);
  r ← castNumber (withDefault (JNum (ofZ 5)) (f_rating f));
  r ← validRating r;
  te ← castString (f_testimonial f);
  im ← castString (f_image f);
  a ← castBoolean (withDefault (JBool true) (f_active f));
  fe ← castBoolean (withDefault (JBool false) (f_featured f));
  pt ← castString (f_projectType f);
  so ← castString (withDefault (JStr "website") (f_source f));
  ve ← castBoolean (withDefault (JBool false) (f_verified f));
  if inEnum sources so
  then Some {| _id := id; name := n; company := c; position := trim <$> p;
               rating := r; testimonial := trim <$> te; image := im;
               active := a; featured := fe; projectType := trim <$> pt;
               source := so; verified := ve;
               createdAt := now; updatedAt := now |}
  else None.

End Testimonial.

(* ================================================================== *)
(** ** routes/testimonials.js *)
(* ================================================================== *)

Module Testimonials.

Import JS Mongoose Http.

(** The condition a filter puts on [rating]: a number ([query.rating =
    n]) or [{ $gte: n }]; [None] is the [NaN] of a failed [parseInt]. *)
Inductive ratingCondition : Type :=
  | Equals (n : option Z)
  | Gte (n : option Z).

(** The filter object the two listings build. *)
Record filter : Type := {
  q_active : option bool;
  q_featured : option bool;
  q_rating : option ratingCondition;
  q_or : option string
}.

(** The filter is cast against the schema when the query runs: a [NaN]
    for the numeric path is a [CastError]. *)
Definition castFilter (q : filter) : bool :=
  match q_rating q with
  | Some (Equals None) | Some (Gte None) => false
  | _ => true
  end.

Definition eqOptBool (x : option bool) (b : bool) : bool :=
  match x with
  | Some y => Bool.eqb y b
  | None => false
  end.

Definition ratingHolds (c : ratingCondition) (r : Q) : bool :=
  match c with
  | Equals (Some n) => Qeq_bool r (inject_Z n)
  | Gte (Some n) => Qle_bool (inject_Z n) r
  | _ => false
  end.

(** The patterns of the filter are regular expressions. *)
Definition validPatterns `{Regex} (q : filter) : bool :=
  match q_or q with
  | Some s => regexValid s
  | None => true
  end.

Definition regexOpt `{Regex} (pattern : string) (subject : option string) : bool :=
  match subject with
  | Some s => regexTest pattern s
  | None => false
  end.

(** Whether a stored testimonial satisfies a filter. *)
Definition matches `{Regex} (q : filter) (t : Testimonial.t) : bool :=
  match q_active q with
  | Some b => eqOptBool (Testimonial.active t) b
  | None => true
  end
  && match q_featured q with
     | Some b => eqOptBool (Testimonial.featured t) b
     | None => true
     end
  && match q_rating q with
     | Some c => ratingHolds c (Testimonial.rating t)
     | None => true
     end
  && match q_or q with
     | Some s => regexTest s (Testimonial.name t)
                 || regexTest s (Testimonial.company t)
                 || regexOpt s (Testimonial.testimonial t)
     | None => true
     end.

(** [x !== undefined ? x === 'true' : <omitted>]. *)
Definition boolParam (p : param) : option bool :=
  (fun s => String.eqb s "true") <$> p.

(** [req.query] of the two listings (the public one reads neither
    [page], [active] nor [search]). *)
Record listQuery : Type := {
  page : param;
  limit : param;
  active : param;
  featured : param;
  rating : param;
  search : param;
  sortBy : param;
  sortOrder : param
}.

(** The [query] object of [GET /api/testimonials/all]. *)
Definition adminFilter (q : listQuery) : filter :=
  {| q_active := boolParam (active q);
     q_featured := boolParam (featured q);
     q_rating := if given (rating q)
                 then Some (Equals (rating q ≫= parseInt))
                 else None;
     q_or := if given (search q) then search q else None |}.

(** GET /api/testimonials/all (admin).  The count the handler also asks
    for is not part of the answer. *)
Definition getAll `{Regex} `{Collection Testimonial.t} `{Cursor}
    (q : listQuery) (docs : list Testimonial.t)
    : response (list Testimonial.t) :=
  let query := adminFilter q in
  let options_page := parseIntParam 1 (page q) in
  let options_limit := parseIntParam 20 (limit q) in
  let found :=
    if castFilter query && validPatterns query
    then find (matches query)
              (default "createdAt" (sortBy q))
              (sortDirection (default "desc" (sortOrder q)))
              (skipOf options_page options_limit) options_limit docs
    else None in
  match found with
  | Some testimonials => Json 200 testimonials
  | None => Fail 500 "Failed to fetch testimonials"
  end.

(** The [query] object of [GET /api/testimonials]. *)
Definition publicFilter (q : listQuery) : filter :=
  {| q_active := Some true;
     q_featured := boolParam (featured q);
     q_rating := if given (rating q)
                 then Some (Gte (rating q ≫= parseInt))
                 else None;
     q_or := None |}.

(** GET /api/testimonials (public).  The query has no [skip]: its
    window starts at the first match. *)
Definition getPublic `{Regex} `{Collection Testimonial.t} `{Cursor}
    (q : listQuery) (docs : list Testimonial.t)
    : response (list Testimonial.t) :=
  let query := publicFilter q in
  let found :=
    if castFilter query
    then find (matches query)
              (default "createdAt" (sortBy q))
              (sortDirection (default "desc" (sortOrder q)))
              (Some 0%Z) (parseIntParam 10 (limit q)) docs
    else None in
  match found with
  | Some testimonials => Json 200 testimonials
  | None => Fail 500 "Failed to fetch testimonials"
  end.

(** [req.body] of [POST /api/testimonials]. *)
Definition body : Type := Testimonial.fields.

(** POST /api/testimonials: the answer and the collection afterwards. *)
Definition post `{Runtime} (b : body) (id : string) (now : Z)
    (docs : list Testimonial.t)
    : response Testimonial.t * list Testimonial.t :=
  let name := Testimonial.f_name b in
  let company := Testimonial.f_company b in
  let rating := Testimonial.f_rating b in
  let active := withDefault (JBool true) (Testimonial.f_active b) in
  let featured := withDefault (JBool false) (Testimonial.f_featured b) in
  let source := withDefault (JStr "website") (Testimonial.f_source b) in
  let verified := withDefault (JBool false) (Testimonial.f_verified b) in
  if negb (truthy name) || negb (truthy company) || negb (truthy rating)
  then (Fail 400 "Missing required fields: name, company, and rating are required", docs)
  else if lt_lit rating 1 || gt_lit rating 5
  then (Fail 400 "Rating must be between 1 and 5", docs)
  else
    let newTestimonial :=
      {| Testimonial.f_name := name;
         Testimonial.f_company := company;
         Testimonial.f_position := Testimonial.f_position b;
         Testimonial.f_rating := rating;
         Testimonial.f_testimonial := Testimonial.f_testimonial b;
         Testimonial.f_image := Testimonial.f_image b;
         Testimonial.f_active := active;
         Testimonial.f_featured := featured;
         Testimonial.f_projectType := Testimonial.f_projectType b;
         Testimonial.f_source := source;
         Testimonial.f_verified := verified |} in
    match Testimonial.validate newTestimonial id now with
    | Some t => (Json 201 t, (docs ++ [t])%list)
    | None => (Fail 500 "Failed to create testimonial", docs)
    end.

End Testimonials.

(* ================================================================== *)
(** ** models/Blog.js *)
(* ================================================================== *)

Module Blog.

Record t : Type := {
  _id : string;
  title : string;
  excerpt : option string;
  content : string;
  author : string;
  category : string;
  tags : list string;
  image : option string;
  thumbnail : option string;
  featured : option bool;
  status : option string;
  publishDate : option Z;
  readingTime : option string;
  seoTitle : option string;
  seoDescription : option string;
  seoKeywords : option string;
  date : option string;
  views : Z;
  likes : Z;
  createdAt : Z;
  updatedAt : Z
}.

End Blog.

(* ================================================================== *)
(** ** The disk and the upload middleware (multer, fs-extra) *)
(* ================================================================== *)

Module Disk.

(** The part of the file system under the application root: the
    directories that exist and the files with their contents. *)
Record t : Type := {
  dirs : gset string;
  files : gmap string string
}.

(** [fs.ensureDirSync(dir)]. *)
Definition ensureDirSync (dir : string) (d : t) : t :=
  {| dirs := {[ dir ]} ∪ dirs d; files := files d |}.

Definition writeFile (path content : string) (d : t) : t :=
  {| dirs := dirs d; files := <[ path := content ]> (files d) |}.

(** [fs.pathExists(path)]. *)
Definition pathExists (path : string) (d : t) : bool :=
  bool_decide (is_Some (files d !! path)) || bool_decide (path ∈ dirs d).

End Disk.

Module Multer.

(** One file part of a multipart request, as the middleware describes
    it in the [file] object it hands to [fileFilter] and to the storage
    engine: [fieldname], [originalname] and [mimetype] are the ones the
    middleware reports there, [content] is the bytes of the part. *)
Record file : Type := {
  fieldname : string;
  originalname : string;
  mimetype : string;
  content : string
}.

Definition size (f : file) : Z := Z.of_nat (String.length (content f)).

(** [req.file] once the middleware has stored the part. *)
Record stored : Type := {
  filename : string;
  path : string;
  stored_originalname : string;
  stored_size : Z
}.

(** How the middleware can fail: the error its [fileFilter] passes to the
    callback, or one of its own limits. *)
Inductive error : Type :=
  | FilterError (message : string)
  | LimitFileSize
  | LimitUnexpectedFile.

(** [path.extname] of the platform. *)
Class Path : Type := {
  extname : string -> string
}.

(** The configuration object given to [multer({ ... })]. *)
Record options : Type := {
  destination : string;
  prefix : string;
  fileSize : Z;
  fileFilter : file -> option string
}.

(** [Date.now() + '-' + Math.round(Math.random() * 1E9)]. *)
Definition uniqueSuffix (now rnd : Z) : string :=
  JS.showZ now ++ "-" ++ JS.showZ rnd.

(** [upload.single(field)] on a request with at most one file part.  The
    filter runs first; only an accepted part reaches the storage engine,
    which makes sure of the directory, picks the name and writes.  A part
    whose size reaches [limits.fileSize] is refused and removed again:
    the parser stops at the limit, so that a part of exactly that size is
    refused like a larger one. *)
Definition single `{Path} (o : options) (field : string)
    (part : option file) (now rnd : Z) (d : Disk.t)
    : (error + option stored) * Disk.t :=
  match part with
  | None => (inr None, d)
  | Some f =>
      if negb (String.eqb (fieldname f) field) then (inl LimitUnexpectedFile, d)
      else match fileFilter o f with
      | Some message => (inl (FilterError message), d)
      | None =>
          let d1 := Disk.ensureDirSync (destination o) d in
          let name := prefix o ++ uniqueSuffix now rnd ++ extname (originalname f) in
          let p := destination o ++ "/" ++ name in
          if (fileSize o <=? size f)%Z then (inl LimitFileSize, d1)
          else (inr (Some {| filename := name; path := p;
                             stored_originalname := originalname f;
                             stored_size := size f |}),
                Disk.writeFile p (content f) d1)
      end
  end.

(** A route behind [upload.single(field)].  An error of the middleware
    goes to the error handler of the application, which answers 500; the
    route's own handler does not run. *)
Definition route `{Path} {A S : Type} (o : options) (field : string)
    (handler : option stored -> S -> Http.response A * S)
    (part : option file) (now rnd : Z) (d : Disk.t) (s : S)
    : Http.response A * Disk.t * S :=
  match single o field part now rnd d with
  | (inl _, d') => (Http.Fail 500 "Something went wrong!", d', s)
  | (inr f, d') => let '(r, s') := handler f s in (r, d', s')
  end.

End Multer.

(* ================================================================== *)
(** ** routes/blogs.js *)
(* ================================================================== *)

Module Blogs.

Import JS Mongoose Http.

(** [fileFilter] of the image upload: [None] accepts the part. *)
Definition fileFilter (f : Multer.file) : option string :=
  if String.prefix "image/" (Multer.mimetype f)
  then None
  else Some "Only image files are allowed!".

(** [multer({ storage, limits, fileFilter })] of this router. *)
Definition upload : Multer.options :=
  {| Multer.destination := "uploads/blog-images";
     Multer.prefix := "blog-";
     Multer.fileSize := 10 * 1024 * 1024;
     Multer.fileFilter := fileFilter |}.

(** The filter object of the listing. *)
Record filter : Type := {
  q_status : option string;
  q_category : option string;
  q_featured : option bool;
  q_text : option string
}.

Definition eqOptString (x : option string) (s : string) : bool :=
  match x with
  | Some y => String.eqb y s
  | None => false
  end.

Definition eqOptBool (x : option bool) (b : bool) : bool :=
  match x with
  | Some y => Bool.eqb y b
  | None => false
  end.

(** Whether a stored post satisfies a filter.  The filter is cast
    against the schema when the query runs, through the setters of its
    paths: [category] is trimmed, [status] has no setter. *)
Definition matches `{TextIndex Blog.t} (q : filter) (b : Blog.t) : bool :=
  match q_status q with
  | Some s => eqOptString (Blog.status b) s
  | None => true
  end
  && match q_category q with
     | Some c => String.eqb (Blog.category b) (trim c)
     | None => true
     end
  && match q_featured q with
     | Some f => eqOptBool (Blog.featured b) f
     | None => true
     end
  && match q_text q with
     | Some s => textSearch s b
     | None => true
     end.

Record listQuery : Type := {
  page : param;
  limit : param;
  status : param;
  category : param;
  featured : param;
  search : param;
  sortBy : param;
  sortOrder : param
}.

Definition buildFilter (q : listQuery) : filter :=
  {| q_status := if given (status q) then status q else None;
     q_category := if given (category q) then category q else None;
     q_featured := (fun s => String.eqb s "true") <$> featured q;
     q_text := if given (search q) then search q else None |}.

(** The body of the listing's answer; a number that is not finite is
    written [null], here [None]. *)
Record listing : Type := {
  blogs : list Blog.t;
  totalPages : option Z;
  currentPage : option Z;
  totalBlogs : Z
}.

(** GET /api/blogs. *)
Definition get `{TextIndex Blog.t} `{Collection Blog.t} `{Cursor}
    (q : listQuery) (docs : list Blog.t) : response listing :=
  let query := buildFilter q in
  let options_page := parseIntParam 1 (page q) in
  let options_limit := parseIntParam 10 (limit q) in
  match find (matches query)
             (default "createdAt" (sortBy q))
             (sortDirection (default "desc" (sortOrder q)))
             (skipOf options_page options_limit) options_limit docs with
  | Some found =>
      let total := countDocuments (matches query) docs in
      Json 200 {| blogs := found;
                  totalPages := options_limit ≫= ceilDiv total;
                  currentPage := options_page;
                  totalBlogs := total |}
  | None => Fail 500 "Failed to fetch blogs"
  end.

End Blogs.

(* ================================================================== *)
(** ** models/ContactSubmission.js and routes/contactSubmissions.js *)
(* ================================================================== *)

Module ContactSubmission.

Record t : Type := {
  _id : string;
  name : string;
  email : string;
  phone : option string;
  subject : string;
  message : string;
  read : option bool;
  replied : option bool;
  priority : option string;
  source : option string;
  createdAt : Z;
  updatedAt : Z
}.

End ContactSubmission.

Module ContactSubmissions.

Import JS Mongoose Http.

Definition byId (id : string) (s : ContactSubmission.t) : bool :=
  String.eqb (ContactSubmission._id s) id.

(** The update document [{ replied, read: true }] applied to a stored
    submission; the schema's timestamps move [updatedAt]. *)
Definition setReplied (replied : option bool) (now : Z)
    (s : ContactSubmission.t) : ContactSubmission.t :=
  {| ContactSubmission._id := ContactSubmission._id s;
     ContactSubmission.name := ContactSubmission.name s;
     ContactSubmission.email := ContactSubmission.email s;
     ContactSubmission.phone := ContactSubmission.phone s;
     ContactSubmission.subject := ContactSubmission.subject s;
     ContactSubmission.message := ContactSubmission.message s;
     ContactSubmission.read := Some true;
     ContactSubmission.replied := replied;
     ContactSubmission.priority := ContactSubmission.priority s;
     ContactSubmission.source := ContactSubmission.source s;
     ContactSubmission.createdAt := ContactSubmission.createdAt s;
     ContactSubmission.updatedAt := now |}.

Record repliedAnswer : Type := {
  message : string;
  submission : ContactSubmission.t
}.

(** PUT /api/contact-submissions/:id/replied, with [req.body.replied].
    A [CastError], of the identifier or of the update, is answered 400
    with the same text. *)
Definition putReplied `{ObjectIds} (id : string) (body_replied : value)
    (now : Z) (docs : list ContactSubmission.t)
    : response repliedAnswer * list ContactSubmission.t :=
  let replied := withDefault (JBool true) body_replied in
  match (if validId id then castBoolean replied else CastError) with
  | None => (Fail 400 "Invalid submission ID", docs)
  | Some r =>
      match findOne (byId id) docs with
      | None => (Fail 404 "Contact submission not found", docs)
      | Some s =>
          let submission := setReplied r now s in
          (Json 200
             {| message := "Submission marked as "
                           ++ (if truthy replied then "replied" else "not replied");
                submission := submission |},
           updateOne (byId id) (setReplied r now) docs)
      end
  end.

End ContactSubmissions.

(* ================================================================== *)
(** ** models/Newsletter.js and routes/newsletter.js *)
(* ================================================================== *)

Module Newsletter.

Record preferences : Type := {
  frequency : option string;
  categories : list string
}.

Record subscriber : Type := {
  _id : string;
  email : string;
  name : option string;
  unsubscribed : option bool;
  unsubscribedAt : option Z;
  source : option string;
  prefs : preferences;
  createdAt : Z;
  updatedAt : Z
}.

Record upload : Type := {
  u_id : string;
  u_name : string;
  u_category : string;
  u_date : Z;
  filename : string;
  originalName : string;
  fileSize : option Z;
  downloadCount : Z;
  active : option bool;
  u_createdAt : Z;
  u_updatedAt : Z
}.

(** The setters of the [email] path: [trim] and [lowercase]. *)
Definition emailSetters (s : string) : string :=
  Mongoose.toLowerCase (JS.trim s).

End Newsletter.

Module NewsletterRoutes.

Import JS Mongoose Http.

(** [req.body] of the subscribe route. *)
Record subscribeBody : Type := {
  email : value;
  name : value;
  source : value
}.

(** The filter [{ email }], cast against the schema of the path. *)
Definition byEmail `{Runtime} (email : value) (s : Newsletter.subscriber) : bool :=
  match castString email with
  | Some (Some e) => String.eqb (Newsletter.email s) (Newsletter.emailSetters e)
  | _ => false
  end.

(** [existingSubscriber.unsubscribed = false;
     existingSubscriber.unsubscribedAt = null], then [save()]. *)
Definition resubscribe (now : Z) (s : Newsletter.subscriber) : Newsletter.subscriber :=
  {| Newsletter._id := Newsletter._id s;
     Newsletter.email := Newsletter.email s;
     Newsletter.name := Newsletter.name s;
     Newsletter.unsubscribed := Some false;
     Newsletter.unsubscribedAt := None;
     Newsletter.source := Newsletter.source s;
     Newsletter.prefs := Newsletter.prefs s;
     Newsletter.createdAt := Newsletter.createdAt s;
     Newsletter.updatedAt := now |}.

Definition sameId (s x : Newsletter.subscriber) : bool :=
  String.eqb (Newsletter._id x) (Newsletter._id s).

(** [new NewsletterSubscriber({ email, name, source })] and [save()]:
    [email] is required and unique. *)
Definition newSubscriber `{Runtime} (email name source : value) (id : string)
    (now : Z) (docs : list Newsletter.subscriber) : option Newsletter.subscriber :=
  e ← castString email;
  e ← requiredString (Newsletter.emailSetters <$> e);
  n ← castString name;
  so ← castString (withDefault (JStr "website") source);
  if existsb (fun x => String.eqb (Newsletter.email x) e) docs then None
  else Some {| Newsletter._id := id;
               Newsletter.email := e;
               Newsletter.name := trim <$> n;
               Newsletter.unsubscribed := Some false;
               Newsletter.unsubscribedAt := None;
               Newsletter.source := so;
               Newsletter.prefs := {| Newsletter.frequency := Some "weekly";
                                      Newsletter.categories := [] |};
               Newsletter.createdAt := now;
               Newsletter.updatedAt := now |}.

(** POST /api/newsletter/subscribers. *)
Definition postSubscribers `{Runtime} (b : subscribeBody) (id : string) (now : Z)
    (docs : list Newsletter.subscriber)
    : response Newsletter.subscriber * list Newsletter.subscriber :=
  let source := withDefault (JStr "website") (source b) in
  if negb (truthy (email b)) then (Fail 400 "Email is required", docs)
  else
    match findOne (byEmail (email b)) docs with
    | Some existingSubscriber =>
        if truthy (from_option JBool JNull (Newsletter.unsubscribed existingSubscriber))
        then
          let saved := resubscribe now existingSubscriber in
          (Json 200 saved, updateOne (sameId existingSubscriber) (fun _ => saved) docs)
        else (Fail 400 "Email is already subscribed", docs)
    | None =>
        match newSubscriber (email b) (name b) source id now docs with
        | Some subscriber => (Json 201 subscriber, (docs ++ [subscriber])%list)
        | None => (Fail 500 "Failed to add newsletter subscriber", docs)
        end
    end.

Definition uploadById (id : string) (u : Newsletter.upload) : bool :=
  String.eqb (Newsletter.u_id u) id.

(** [newsletter.downloadCount += 1], then [save()]. *)
Definition countDownload (now : Z) (u : Newsletter.upload) : Newsletter.upload :=
  {| Newsletter.u_id := Newsletter.u_id u;
     Newsletter.u_name := Newsletter.u_name u;
     Newsletter.u_category := Newsletter.u_category u;
     Newsletter.u_date := Newsletter.u_date u;
     Newsletter.filename := Newsletter.filename u;
     Newsletter.originalName := Newsletter.originalName u;
     Newsletter.fileSize := Newsletter.fileSize u;
     Newsletter.downloadCount := (Newsletter.downloadCount u + 1)%Z;
     Newsletter.active := Newsletter.active u;
     Newsletter.u_createdAt := Newsletter.u_createdAt u;
     Newsletter.u_updatedAt := now |}.

(** What [res.download(filePath, name)] sends. *)
Record attachment : Type := {
  filePath : string;
  downloadName : string
}.

(** GET /api/newsletter/uploads/:id/download: the answer and the
    collection afterwards (the disk is only read). *)
Definition getDownload `{ObjectIds} (id : string) (now : Z)
    (docs : list Newsletter.upload) (d : Disk.t)
    : response attachment * list Newsletter.upload :=
  if negb (validId id) then (Fail 400 "Invalid newsletter ID", docs)
  else
    match findOne (uploadById id) docs with
    | None => (Fail 404 "Newsletter not found", docs)
    | Some newsletter =>
        let docs' := updateOne (uploadById id) (countDownload now) docs in
        let filePath := "uploads/newsletters/" ++ Newsletter.filename newsletter in
        if negb (Disk.pathExists filePath d)
        then (Fail 404 "File not found", docs')
        else (Json 200 {| filePath := filePath;
                          downloadName := Newsletter.originalName newsletter |},
              docs')
    end.

End NewsletterRoutes.

(* ================================================================== *)
(** ** models/User.js (not among the sources) and routes/auth.js *)
(* ================================================================== *)

Module User.

(** Modelled from the spec: the User schema, of which the login route
    reads [_id], [username], [email], [role], [profile], [loginAttempts]
    and [lastLogin].  The failure counter and the lock stamp are the state
    of the account's state machine
    (Active(attempts), Locked(lock timestamp)). *)
Record t : Type := {
  _id : string;
  username : string;
  email : string;
  password : string;
  role : string;
  profile : option string;
  active : bool;
  loginAttempts : Z;
  lockedAt : option Z;
  lastLogin : option Z
}.

(** Modelled from the spec: what the User model leaves open, the lock
    duration and how a secret is checked against the stored one. *)
Class Policy : Type := {
  lockDuration : Z;
  verifySecret : string -> string -> bool
}.

(** Modelled from the spec: [user.comparePassword(secret)] of the User
    model, the check of a secret against the stored credential. *)
Definition comparePassword `{Policy} (secret : string) (u : t) : bool :=
  verifySecret secret (password u).

(** Modelled from the spec: the failure threshold of the User model;
    five consecutive failed logins lock the account. *)
Definition maxLoginAttempts : Z := 5.

(** Modelled from the spec: [user.isLocked()] of the User model; the
    account is locked while lock timestamp + lock duration > now. *)
Definition isLocked `{Policy} (now : Z) (u : t) : bool :=
  match lockedAt u with
  | Some stamp => (now <? stamp + lockDuration)%Z
  | None => false
  end.

(** The account with its failure counter and lock stamp replaced. *)
Definition withCounter (n : Z) (lock : option Z) (u : t) : t :=
  {| _id := _id u; username := username u; email := email u;
     password := password u; role := role u; profile := profile u;
     active := active u; loginAttempts := n; lockedAt := lock;
     lastLogin := lastLogin u |}.

(** Modelled from the spec: [user.incLoginAttempts()] of the User model.
    A lock whose duration has elapsed leaves the account Active with no
    attempts; the failure is then counted, and the account is locked and
    stamped when the counter reaches the threshold. *)
Definition incLoginAttempts `{Policy} (now : Z) (u : t) : t :=
  let elapsed :=
    match lockedAt u with
    | Some stamp => (stamp + lockDuration <=? now)%Z
    | None => false
    end in
  let attempts := ((if elapsed then 0 else loginAttempts u) + 1)%Z in
  if (maxLoginAttempts <=? attempts)%Z
  then withCounter attempts (Some now) u
  else withCounter attempts (if elapsed then None else lockedAt u) u.

(** Modelled from the spec: [user.resetLoginAttempts()] of the User
    model; a success resets the failure counter to 0. *)
Definition resetLoginAttempts (u : t) : t := withCounter 0 None u.

(** [user.lastLogin = new Date()], as the login route does before it
    saves the account. *)
Definition setLastLogin (now : Z) (u : t) : t :=
  {| _id := _id u; username := username u; email := email u;
     password := password u; role := role u; profile := profile u;
     active := active u; loginAttempts := loginAttempts u;
     lockedAt := lockedAt u; lastLogin := Some now |}.

End User.

Module Auth.

Import JS Mongoose Http.

(** The claims of a token and its validity window, in seconds; the
    signature is not represented. *)
Record token : Type := {
  t_id : string;
  t_username : string;
  t_role : string;
  iat : Z;
  exp : Z
}.

(** [jwt.sign({ id, username, role }, JWT_SECRET, { expiresIn: '24h' })]. *)
Definition sign (id username role : string) (now : Z) : token :=
  let issued := (now / 1000)%Z in
  {| t_id := id; t_username := username; t_role := role;
     iat := issued; exp := (issued + 24 * 3600)%Z |}.

Record principal : Type := {
  id : string;
  username : string;
  email : option string;
  role : string;
  profile : option string
}.

Record session : Type := {
  session_token : token;
  user : principal
}.

(** [username === 'admin' && password === 'admin123']. *)
Definition hardcoded (username password : string) : bool :=
  String.eqb username "admin" && String.eqb password "admin123".

Definition byUsername (username : string) (u : User.t) : bool :=
  String.eqb (User.username u) username.

Definition sameUser (u x : User.t) : bool :=
  String.eqb (User._id x) (User._id u).

Definition locked_message : string :=
  "Account temporarily locked due to too many failed login attempts".

(** POST /api/auth/login, with the identifier and the secret of the body
    taken as strings: the answer and the accounts afterwards. *)
Definition login `{User.Policy} (username password : string) (now : Z)
    (users : list User.t) : response session * list User.t :=
  if hardcoded username password
  then (Json 200 {| session_token := sign "admin-user" "admin" "admin" now;
                    user := {| id := "admin-user"; username := "admin";
                               email := None; role := "admin";
                               profile := None |} |},
        users)
  else
    match findOne (byUsername username) users with
    | None => (Fail 401 "Invalid credentials", users)
    | Some user =>
        if User.isLocked now user then (Fail 423 locked_message, users)
        else if negb (User.comparePassword password user)
        then (Fail 401 "Invalid credentials",
              updateOne (sameUser user) (User.incLoginAttempts now) users)
        else
          let users1 :=
            if (0 <? User.loginAttempts user)%Z
            then updateOne (sameUser user) User.resetLoginAttempts users
            else users in
          let users2 := updateOne (sameUser user) (User.setLastLogin now) users1 in
          (Json 200 {| session_token :=
                         sign (User._id user) (User.username user)
                              (User.role user) now;
                       user := {| id := User._id user;
                                  username := User.username user;
                                  email := Some (User.email user);
                                  role := User.role user;
                                  profile := User.profile user |} |},
           users2)
    end.

(** A sequence of login attempts, oldest first: each is the identifier,
    the secret and the time of the request. *)
Fixpoint logins `{User.Policy} (attempts : list (string * string * Z))
    (users : list User.t) : list (response session) * list User.t :=
  match attempts with
  | [] => ([], users)
  | (username, password, now) :: rest =>
      let '(r, users') := login username password now users in
      let '(rs, users'') := logins rest users' in
      (r :: rs, users'')
  end.

End Auth.

(* ================================================================== *)
(** ** A reference environment

    One instance of each interface, on which handlers can be run: a
    store that orders stably by insertion, a cursor with the store's
    reading of [limit] (0 is no limit, a negative limit counts as its
    absolute value, a negative skip is refused), patterns and searches
    read as plain case-insensitive substrings, and a runtime that is exact
    on integers. *)
(* ================================================================== *)

Module Reference.

Import JS Mongoose.

(** The window of a cursor: [skip] documents are passed over, then at
    most [|limit|] are returned, all of them when [limit] is 0. *)
Definition windowOf {D : Type} (skip limit : option Z) (l : list D)
    : option (list D) :=
  match skip, limit with
  | Some k, Some n =>
      if (k <? 0)%Z then None
      else
        let rest := skipn (Z.to_nat k) l in
        Some (if (n =? 0)%Z then rest else firstn (Z.to_nat (Z.abs n)) rest)
  | _, _ => None
  end.

#[export] Instance cursor : Cursor.
Proof.
  refine {| window := @windowOf |}.
  - intros D k n l Hk Hn. unfold windowOf.
    destruct (Z.ltb_spec k 0); [lia |].
    destruct (Z.eqb_spec n 0); [lia |].
    now rewrite Z.abs_eq by lia.
  - intros D k n l r. unfold windowOf.
    destruct k as [k |]; [| discriminate].
    destruct n as [n |]; [| discriminate].
    destruct (k <? 0)%Z; [discriminate |].
    intros [= <-] x Hx.
    apply list_elem_of_In. apply list_elem_of_In in Hx.
    destruct (n =? 0)%Z.
    + eapply elem_of_sublist; [exact Hx | apply sublist_drop].
    + eapply elem_of_sublist; [| apply sublist_drop].
      eapply elem_of_sublist; [exact Hx | apply sublist_take].
Defined.

(** Stable insertion sort for a boolean order. *)
Fixpoint insertBy {D : Type} (le : D -> D -> bool) (x : D) (l : list D) : list D :=
  match l with
  | [] => [x]
  | y :: l' => if le x y then x :: l else y :: insertBy le x l'
  end.

Definition sortWith {D : Type} (le : D -> D -> bool) (l : list D) : list D :=
  fold_right (insertBy le) [] l.

(** [le] in the requested direction. *)
Definition directed {D : Type} (d : direction) (le : D -> D -> bool)
    : D -> D -> bool :=
  match d with
  | Ascending => le
  | Descending => fun x y => le y x
  end.

(** The collection whose documents are ordered by [le f] on the field
    [f]: sorting rearranges, it neither drops nor repeats a document.
    Every field name but the empty one is a sort key here. *)
Definition orderedBy {D : Type} (le : string -> D -> D -> bool) : Collection D.
Proof.
  refine {| sortKey := fun f => negb (String.eqb f "");
            sortKey_createdAt := eq_refl;
            sortKey_empty := eq_refl;
            sortDocs := fun f d => sortWith (directed d (le f)) |}.
  intros f d l. induction l as [| x l IH]; simpl; [reflexivity |].
  transitivity (x :: sortWith (directed d (le f)) l); [| now constructor].
  generalize (sortWith (directed d (le f)) l). intros m.
  induction m as [| y m IHm]; simpl; [reflexivity |].
  destruct (directed d (le f) x y); [reflexivity |].
  transitivity (y :: x :: m); [now constructor | apply Permutation_swap].
Defined.

Definition testimonialLe (f : string) (x y : Testimonial.t) : bool :=
  if String.eqb f "createdAt"
  then (Testimonial.createdAt x <=? Testimonial.createdAt y)%Z
  else if String.eqb f "updatedAt"
  then (Testimonial.updatedAt x <=? Testimonial.updatedAt y)%Z
  else if String.eqb f "rating"
  then Qle_bool (Testimonial.rating x) (Testimonial.rating y)
  else if String.eqb f "name"
  then String.leb (Testimonial.name x) (Testimonial.name y)
  else if String.eqb f "company"
  then String.leb (Testimonial.company x) (Testimonial.company y)
  else true.

#[export] Instance testimonialCollection : Collection Testimonial.t :=
  orderedBy testimonialLe.

Definition blogLe (f : string) (x y : Blog.t) : bool :=
  if String.eqb f "createdAt"
  then (Blog.createdAt x <=? Blog.createdAt y)%Z
  else if String.eqb f "updatedAt"
  then (Blog.updatedAt x <=? Blog.updatedAt y)%Z
  else if String.eqb f "views" then (Blog.views x <=? Blog.views y)%Z
  else if String.eqb f "likes" then (Blog.likes x <=? Blog.likes y)%Z
  else if String.eqb f "title" then String.leb (Blog.title x) (Blog.title y)
  else true.

#[export] Instance blogCollection : Collection Blog.t :=
  orderedBy blogLe.

(** [needle] occurs in [hay]. *)
Fixpoint contains (needle hay : string) : bool :=
  String.prefix needle hay
  || match hay with
     | String _ hay' => contains needle hay'
     | EmptyString => false
     end.

Definition containsNoCase (needle hay : string) : bool :=
  contains (toLowerCase needle) (toLowerCase hay).

(** A letter, a digit or a space. *)
Definition isPlain (c : ascii) : bool :=
  match digitValue c with
  | Some _ => true
  | None => Ascii.eqb c " "
  end.

Fixpoint allPlain (s : string) : bool :=
  match s with
  | String c s' => isPlain c && allPlain s'
  | EmptyString => true
  end.

(** The patterns made of letters, digits and spaces, which match the
    strings they occur in, without regard to case; any other pattern is
    left out of the examples. *)
#[export] Instance regex : Regex :=
  {| regexValid := allPlain; regexTest := containsNoCase |}.

#[export] Instance blogText : TextIndex Blog.t :=
  {| textSearch := fun s b =>
       containsNoCase s (Blog.title b) || containsNoCase s (Blog.content b)
       || existsb (containsNoCase s) (Blog.tags b) |}.

Definition isHex (c : ascii) : bool :=
  match digitValue c with
  | Some d => (d <? 16)%Z
  | None => false
  end.

Fixpoint allHex (s : string) : bool :=
  match s with
  | String c s' => isHex c && allHex s'
  | EmptyString => true
  end.

(** An ObjectId in its usual writing: 24 hexadecimal digits. *)
#[export] Instance objectIds : ObjectIds :=
  {| validId := fun s => (String.length s =? 24)%nat && allHex s |}.

(** Integer literals in canonical decimal writing; any other string is
    not a number here. *)
Definition integerLiteral (s : string) : number :=
  let s' := trim s in
  if String.eqb s' "" then ofZ 0
  else match parseInt s' with
       | Some z => if String.eqb (showZ z) s' then ofZ z else NaN
       | None => NaN
       end.

Definition showNumber (n : number) : string :=
  match n with
  | NaN => "NaN"
  | NegInf => "-Infinity"
  | PosInf => "Infinity"
  | Fin q => showZ (Qnum q / Zpos (Qden q))
  end.

#[export] Instance runtime : Runtime :=
  {| StringToNumber := integerLiteral; NumberToString := showNumber |}.

(** The last segment of a path, read backwards. *)
Fixpoint untilSlash (s : string) : string :=
  match s with
  | String c s' => if Ascii.eqb c "/" then "" else String c (untilSlash s')
  | EmptyString => EmptyString
  end.

(** The prefix of [s] that ends with its first [.]. *)
Fixpoint uptoDot (s : string) : option string :=
  match s with
  | String c s' =>
      if Ascii.eqb c "." then Some (String c "")
      else String c <$> uptoDot s'
  | EmptyString => None
  end.

(** The last [.] of the name and what follows it, when the name has one
    after its first character. *)
Definition extnameOf (s : string) : string :=
  let base := untilSlash (rev_string "" s) in
  if String.eqb base ".." then ""
  else match uptoDot base with
       | Some e =>
           if (String.length e <? String.length base)%nat
           then rev_string "" e else ""
       | None => ""
       end.

#[export] Instance path : Multer.Path := {| Multer.extname := extnameOf |}.

(** A two-hour lock, and secrets compared with what is stored. *)
#[export] Instance policy : User.Policy :=
  {| User.lockDuration := 2 * 60 * 60 * 1000;
     User.verifySecret := String.eqb |}.

End Reference.

(* ================================================================== *)
(** ** Statements and sample data

    What the properties below are stated with, and the stores and
    requests their examples run on. *)
(* ================================================================== *)

Local Open Scope list_scope.

Module ListingSpec.

Import Http.



(** A testimonial for the examples. *)
Definition sample (id : string) (rating : Z) (active : bool) (created : Z)
    : Testimonial.t :=
  {| Testimonial._id := id;
     Testimonial.name := "Ada";
     Testimonial.company := "Acme";
     Testimonial.position := None;
     Testimonial.rating := inject_Z rating;
     Testimonial.testimonial := None;
     Testimonial.image := None;
     Testimonial.active := Some active;
     Testimonial.featured := Some false;
     Testimonial.projectType := None;
     Testimonial.source := Some "website";
     Testimonial.verified := Some false;
     Testimonial.createdAt := created;
     Testimonial.updatedAt := created |}.

(** A listing request with a rating, and possibly a limit. *)
Definition rated (rating : string) (limit : JS.param) : Testimonials.listQuery :=
  {| Testimonials.page := None;
     Testimonials.limit := limit;
     Testimonials.active := None;
     Testimonials.featured := None;
     Testimonials.rating := Some rating;
     Testimonials.search := None;
     Testimonials.sortBy := None;
     Testimonials.sortOrder := None |}.

Definition fourTestimonials : list Testimonial.t :=
  [sample "a" 5 true 1; sample "b" 4 false 2;
   sample "c" 4 true 3; sample "d" 3 true 4].

End ListingSpec.

Module BlogSpec.

(** A blog post for the examples, created at time [n]. *)
Definition post (n : nat) : Blog.t :=
  {| Blog._id := JS.showZ (Z.of_nat n);
     Blog.title := "Post";
     Blog.excerpt := None;
     Blog.content := "Text";
     Blog.author := "Ada";
     Blog.category := "news";
     Blog.tags := [];
     Blog.image := None;
     Blog.thumbnail := None;
     Blog.featured := Some false;
     Blog.status := Some "published";
     Blog.publishDate := None;
     Blog.readingTime := None;
     Blog.seoTitle := None;
     Blog.seoDescription := None;
     Blog.seoKeywords := None;
     Blog.date := None;
     Blog.views := 0;
     Blog.likes := 0;
     Blog.createdAt := Z.of_nat n;
     Blog.updatedAt := Z.of_nat n |}.


(** [?page=..&limit=..] and nothing else. *)
Definition paged (page limit : string) : Blogs.listQuery :=
  {| Blogs.page := Some page;
     Blogs.limit := Some limit;
     Blogs.status := None;
     Blogs.category := None;
     Blogs.featured := None;
     Blogs.search := None;
     Blogs.sortBy := None;
     Blogs.sortOrder := None |}.

End BlogSpec.

Module ContactSpec.

(** A submission for the examples: not read, not replied. *)
Definition fresh (id : string) : ContactSubmission.t :=
  {| ContactSubmission._id := id;
     ContactSubmission.name := "Ada";
     ContactSubmission.email := "ada@example.org";
     ContactSubmission.phone := None;
     ContactSubmission.subject := "Hello";
     ContactSubmission.message := "A question";
     ContactSubmission.read := Some false;
     ContactSubmission.replied := Some false;
     ContactSubmission.priority := Some "medium";
     ContactSubmission.source := Some "website";
     ContactSubmission.createdAt := 10;
     ContactSubmission.updatedAt := 10 |}.

Definition id1 : string := "64b7f0c2a1d3e4f5a6b7c8d9".
Definition id2 : string := "64b7f0c2a1d3e4f5a6b7c8da".

End ContactSpec.

Module NewsletterSpec.

(** A subscriber for the examples. *)
Definition subscriber (id email : string) (unsubscribed : bool)
    (unsubscribedAt : option Z) : Newsletter.subscriber :=
  {| Newsletter._id := id;
     Newsletter.email := email;
     Newsletter.name := None;
     Newsletter.unsubscribed := Some unsubscribed;
     Newsletter.unsubscribedAt := unsubscribedAt;
     Newsletter.source := Some "website";
     Newsletter.prefs := {| Newsletter.frequency := Some "weekly";
                            Newsletter.categories := [] |};
     Newsletter.createdAt := 10;
     Newsletter.updatedAt := 10 |}.

Definition subscribe (email : string) : NewsletterRoutes.subscribeBody :=
  {| NewsletterRoutes.email := JS.JStr email;
     NewsletterRoutes.name := JS.JUndefined;
     NewsletterRoutes.source := JS.JUndefined |}.

(** An upload for the examples. *)
Definition pdf (id filename : string) (downloads : Z) : Newsletter.upload :=
  {| Newsletter.u_id := id;
     Newsletter.u_name := "March issue";
     Newsletter.u_category := "monthly";
     Newsletter.u_date := 5;
     Newsletter.filename := filename;
     Newsletter.originalName := "march.pdf";
     Newsletter.fileSize := Some 1024%Z;
     Newsletter.downloadCount := downloads;
     Newsletter.active := Some true;
     Newsletter.u_createdAt := 10;
     Newsletter.u_updatedAt := 10 |}.

Definition emptyDisk : Disk.t := {| Disk.dirs := ∅; Disk.files := ∅ |}.

Definition twoSubscribers : list Newsletter.subscriber :=
  [subscriber "s1" "ada@example.org" false None;
   subscriber "s2" "bob@example.org" true (Some 7%Z)].

End NewsletterSpec.

Module CreateSpec.

(** A create request with a name, a company and a rating. *)
Definition request (rating : JS.value) : Testimonials.body :=
  {| Testimonial.f_name := JS.JStr "Ada";
     Testimonial.f_company := JS.JStr "Acme";
     Testimonial.f_position := JS.JUndefined;
     Testimonial.f_rating := rating;
     Testimonial.f_testimonial := JS.JStr "Great work";
     Testimonial.f_image := JS.JUndefined;
     Testimonial.f_active := JS.JUndefined;
     Testimonial.f_featured := JS.JUndefined;
     Testimonial.f_projectType := JS.JUndefined;
     Testimonial.f_source := JS.JUndefined;
     Testimonial.f_verified := JS.JUndefined |}.

End CreateSpec.

Module UploadSpec.

(** A text file sent in the [image] field. *)
Definition notes : Multer.file :=
  {| Multer.fieldname := "image";
     Multer.originalname := "notes.txt";
     Multer.mimetype := "text/plain";
     Multer.content := "hello" |}.

(** A route handler that records whether it ran. *)
Definition ran (f : option Multer.stored) (s : bool) : Http.response unit * bool :=
  (Http.Json 201 tt, true).

End UploadSpec.

Module AuthSpec.

(** An account for the examples, active with no failed attempt. *)
Definition account (id username secret : string) : User.t :=
  {| User._id := id;
     User.username := username;
     User.email := "ada@example.org";
     User.password := secret;
     User.role := "editor";
     User.profile := None;
     User.active := true;
     User.loginAttempts := 0;
     User.lockedAt := None;
     User.lastLogin := None |}.

(** The account after [n] failures in a row, none of which locked it. *)
Definition failed (n : Z) (u : User.t) : User.t := User.withCounter n None u.

End AuthSpec.

(* ================================================================== *)
(** * The other routes *)
(* ================================================================== *)

(** ** More of the store and of the disk *)

Module Documents.

(** Removes the first document that satisfies [q]
    ([findByIdAndDelete]). *)
Fixpoint deleteOne {D : Type} (q : D -> bool) (docs : list D) : list D :=
  match docs with
  | [] => []
  | d :: ds => if q d then ds else d :: deleteOne q ds
  end.

(** [if (s)] on a string path of a loaded document. *)
Definition present (s : option string) : bool :=
  match s with
  | Some x => negb (String.eqb x "")
  | None => false
  end.

(** [!b] on a boolean path of a loaded document. *)
Definition notOpt (b : option bool) : bool :=
  match b with
  | Some x => negb x
  | None => true
  end.

End Documents.

Module Fs.

Local Open Scope string_scope.

(** [k] is [p] or lies below the directory [p]. *)
Definition under (p k : string) : bool :=
  String.eqb k p || String.prefix (p ++ "/") k.

(** [fs.remove(p)]: the file [p], or the directory [p] with all it
    holds. *)
Definition remove (p : string) (d : Disk.t) : Disk.t :=
  {| Disk.dirs := filter (fun k => under p k = false) (Disk.dirs d);
     Disk.files := filter (fun kv => under p kv.1 = false) (Disk.files d) |}.

(** [path.join(__dirname, '..', p)], as a path of [Disk.t] (which are
    written from the application root). *)
Class AppRoot : Type := {
  fromRoot : string -> string
}.

End Fs.

(* ================================================================== *)
(** ** routes/testimonials.js: single testimonials *)
(* ================================================================== *)

Module TestimonialRoutes.

Import JS Mongoose Http Documents.

Local Open Scope string_scope.

(** The filter of [findById(id)]: the ObjectId is read from the
    hexadecimal digits of [id] in either case, and a stored identifier is
    written with the lower-case digits. *)
Definition byId (id : string) (t : Testimonial.t) : bool :=
  String.eqb (Testimonial._id t) (toLowerCase id).

(** The validators of the schema on a loaded document, which [save()]
    runs again: the required strings, the bounds of [rating], the values
    of [source]. *)
Definition valid (t : Testimonial.t) : bool :=
  negb (String.eqb (Testimonial.name t) "")
  && negb (String.eqb (Testimonial.company t) "")
  && Qle_bool 1 (Testimonial.rating t) && Qle_bool (Testimonial.rating t) 5
  && inEnum Testimonial.sources (Testimonial.source t).

(** The document with its two flags and its [updatedAt] replaced. *)
Definition setFlags (active featured : option bool) (now : Z)
    (t : Testimonial.t) : Testimonial.t :=
  {| Testimonial._id := Testimonial._id t;
     Testimonial.name := Testimonial.name t;
     Testimonial.company := Testimonial.company t;
     Testimonial.position := Testimonial.position t;
     Testimonial.rating := Testimonial.rating t;
     Testimonial.testimonial := Testimonial.testimonial t;
     Testimonial.image := Testimonial.image t;
     Testimonial.active := active;
     Testimonial.featured := featured;
     Testimonial.projectType := Testimonial.projectType t;
     Testimonial.source := Testimonial.source t;
     Testimonial.verified := Testimonial.verified t;
     Testimonial.createdAt := Testimonial.createdAt t;
     Testimonial.updatedAt := now |}.

(** GET /api/testimonials/:id. *)
Definition getById `{ObjectIds} (id : string) (docs : list Testimonial.t)
    : response Testimonial.t :=
  if negb (validId id) then Fail 400 "Invalid testimonial ID"
  else match findOne (byId id) docs with
       | None => Fail 404 "Testimonial not found"
       | Some testimonial => Json 200 testimonial
       end.

(** DELETE /api/testimonials/:id. *)
Definition delete `{ObjectIds} (id : string) (docs : list Testimonial.t)
    : response unit * list Testimonial.t :=
  if negb (validId id) then (Fail 400 "Invalid testimonial ID", docs)
  else match findOne (byId id) docs with
       | None => (Fail 404 "Testimonial not found", docs)
       | Some _ => (Json 200 tt, deleteOne (byId id) docs)
       end.

Record toggled : Type := {
  message : string;
  testimonial : Testimonial.t
}.

(** PUT /api/testimonials/:id/toggle-active:
    [testimonial.active = !testimonial.active], then [save()]. *)
Definition putToggleActive `{ObjectIds} (id : string) (now : Z)
    (docs : list Testimonial.t) : response toggled * list Testimonial.t :=
  if negb (validId id) then (Fail 400 "Invalid testimonial ID", docs)
  else match findOne (byId id) docs with
       | None => (Fail 404 "Testimonial not found", docs)
       | Some testimonial =>
           let active := notOpt (Testimonial.active testimonial) in
           let saved :=
             setFlags (Some active) (Testimonial.featured testimonial)
               now testimonial in
           if valid saved
           then (Json 200
                   {| message := "Testimonial "
                                 ++ (if active then "activated" else "deactivated")
                                 ++ " successfully";
                      testimonial := saved |},
                 updateOne (byId id) (fun _ => saved) docs)
           else (Fail 500 "Failed to toggle testimonial status", docs)
       end.

(** PUT /api/testimonials/:id/toggle-featured. *)
Definition putToggleFeatured `{ObjectIds} (id : string) (now : Z)
    (docs : list Testimonial.t) : response toggled * list Testimonial.t :=
  if negb (validId id) then (Fail 400 "Invalid testimonial ID", docs)
  else match findOne (byId id) docs with
       | None => (Fail 404 "Testimonial not found", docs)
       | Some testimonial =>
           let featured := notOpt (Testimonial.featured testimonial) in
           let saved :=
             setFlags (Testimonial.active testimonial) (Some featured)
               now testimonial in
           if valid saved
           then (Json 200
                   {| message := "Testimonial "
                                 ++ (if featured then "featured" else "unfeatured")
                                 ++ " successfully";
                      testimonial := saved |},
                 updateOne (byId id) (fun _ => saved) docs)
           else (Fail 500 "Failed to toggle testimonial featured status", docs)
       end.

(** The filter [{ featured: true, active: true }]. *)
Definition featuredAndActive (t : Testimonial.t) : bool :=
  Testimonials.eqOptBool (Testimonial.featured t) true
  && Testimonials.eqOptBool (Testimonial.active t) true.

(** GET /api/testimonials/featured/list, with [req.query.limit]. *)
Definition getFeatured `{Collection Testimonial.t} `{Cursor}
    (limit : param) (docs : list Testimonial.t)
    : response (list Testimonial.t) :=
  match find featuredAndActive "createdAt" Descending
          (Some 0%Z) (parseIntParam 5 limit) docs with
  | Some featuredTestimonials => Json 200 featuredTestimonials
  | None => Fail 500 "Failed to fetch featured testimonials"
  end.

(** [x.toFixed(digits)] of the runtime, on the number [x]. *)
Class Formatting : Type := {
  toFixed : nat -> Q -> string
}.

(** One group of [{ $group: { _id: '$rating', count: { $sum: 1 } } }]:
    the rating is counted in the group of its value, which is opened, in
    ascending order of the ratings, when there is none yet. *)
Fixpoint countIn (r : Q) (groups : list (Q * Z)) : list (Q * Z) :=
  match groups with
  | [] => [(r, 1%Z)]
  | (k, c) :: rest =>
      if Qeq_bool r k then (k, (c + 1)%Z) :: rest
      else if Qle_bool r k then (r, 1%Z) :: groups
      else (k, c) :: countIn r rest
  end.

Definition isActive (t : Testimonial.t) : bool :=
  Testimonials.eqOptBool (Testimonial.active t) true.

Definition isVerified (t : Testimonial.t) : bool :=
  Testimonials.eqOptBool (Testimonial.verified t) true.

(** The ratings of the active testimonials grouped by value, in
    ascending order ([$match], [$group], [$sort]). *)
Definition ratingDistributionOf (docs : list Testimonial.t) : list (Q * Z) :=
  fold_right countIn [] (map Testimonial.rating (List.filter isActive docs)).

(** [{ $avg: '$rating' }] over the active testimonials, written with one
    decimal; ['0.0'] when there is none. *)
Definition averageRatingOf `{Formatting} (docs : list Testimonial.t) : string :=
  let actives := List.filter isActive docs in
  if (length actives =? 0)%nat then "0.0"
  else toFixed 1 (fold_right Qplus 0%Q (map Testimonial.rating actives)
                  / inject_Z (Z.of_nat (length actives)))%Q.

(** The sum of the counts of a distribution. *)
Definition countsOf (groups : list (Q * Z)) : Z :=
  fold_right (fun g acc => (snd g + acc)%Z) 0%Z groups.

Record overview : Type := {
  totalTestimonials : Z;
  activeTestimonials : Z;
  featuredTestimonials : Z;
  verifiedTestimonials : Z;
  averageRating : string;
  ratingDistribution : list (Q * Z)
}.

(** GET /api/testimonials/stats/overview. *)
Definition getStats `{Formatting} (docs : list Testimonial.t) : response overview :=
  Json 200
    {| totalTestimonials := countDocuments (fun _ => true) docs;
       activeTestimonials := countDocuments isActive docs;
       featuredTestimonials := countDocuments featuredAndActive docs;
       verifiedTestimonials := countDocuments isVerified docs;
       averageRating := averageRatingOf docs;
       ratingDistribution := ratingDistributionOf docs |}.

End TestimonialRoutes.

(* ================================================================== *)
(** ** routes/blogs.js: single posts *)
(* ================================================================== *)

Module BlogRoutes.

Import JS Mongoose Http Documents.

Local Open Scope string_scope.

Definition byId (id : string) (b : Blog.t) : bool :=
  String.eqb (Blog._id b) id.

Definition statuses : list string := ["draft"; "published"; "scheduled"].

(** The validators of the schema on a loaded post, which [save()] runs
    again. *)
Definition valid (b : Blog.t) : bool :=
  negb (String.eqb (Blog.title b) "")
  && negb (String.eqb (Blog.content b) "")
  && negb (String.eqb (Blog.author b) "")
  && negb (String.eqb (Blog.category b) "")
  && inEnum statuses (Blog.status b).

(** The post with its two counters and its [updatedAt] replaced. *)
Definition setCounters (views likes now : Z) (b : Blog.t) : Blog.t :=
  {| Blog._id := Blog._id b;
     Blog.title := Blog.title b;
     Blog.excerpt := Blog.excerpt b;
     Blog.content := Blog.content b;
     Blog.author := Blog.author b;
     Blog.category := Blog.category b;
     Blog.tags := Blog.tags b;
     Blog.image := Blog.image b;
     Blog.thumbnail := Blog.thumbnail b;
     Blog.featured := Blog.featured b;
     Blog.status := Blog.status b;
     Blog.publishDate := Blog.publishDate b;
     Blog.readingTime := Blog.readingTime b;
     Blog.seoTitle := Blog.seoTitle b;
     Blog.seoDescription := Blog.seoDescription b;
     Blog.seoKeywords := Blog.seoKeywords b;
     Blog.date := Blog.date b;
     Blog.views := views;
     Blog.likes := likes;
     Blog.createdAt := Blog.createdAt b;
     Blog.updatedAt := now |}.

(** [blog.views += 1]. *)
Definition viewed (now : Z) (b : Blog.t) : Blog.t :=
  setCounters (Blog.views b + 1) (Blog.likes b) now b.


(** GET /api/blogs/:id: the post is counted as viewed and saved, then
    sent. *)
Definition getById `{ObjectIds} (id : string) (now : Z) (docs : list Blog.t)
    : response Blog.t * list Blog.t :=
  if negb (validId id) then (Fail 400 "Invalid blog ID", docs)
  else match findOne (byId id) docs with
       | None => (Fail 404 "Blog not found", docs)
       | Some blog =>
           if valid (viewed now blog)
           then (Json 200 (viewed now blog), updateOne (byId id) (viewed now) docs)
           else (Fail 500 "Failed to fetch blog", docs)
       end.



(** The image file of a post is removed when the post names one and the
    file is there. *)
Definition removeImage `{Fs.AppRoot} (image : option string) (d : Disk.t) : Disk.t :=
  match image with
  | Some img =>
      if present image
      then let imagePath := Fs.fromRoot img in
           if Disk.pathExists imagePath d then Fs.remove imagePath d else d
      else d
  | None => d
  end.

(** DELETE /api/blogs/:id. *)
Definition delete `{ObjectIds} `{Fs.AppRoot} (id : string)
    (docs : list Blog.t) (d : Disk.t)
    : response unit * list Blog.t * Disk.t :=
  if negb (validId id) then (Fail 400 "Invalid blog ID", docs, d)
  else match findOne (byId id) docs with
       | None => (Fail 404 "Blog not found", docs, d)
       | Some blog =>
           (Json 200 tt, deleteOne (byId id) docs,
            removeImage (Blog.image blog) d)
       end.

(** The filter [{ featured: true, status: 'published' }]. *)
Definition featuredAndPublished (b : Blog.t) : bool :=
  Blogs.eqOptBool (Blog.featured b) true
  && Blogs.eqOptString (Blog.status b) "published".

(** GET /api/blogs/featured/list. *)
Definition getFeatured `{Collection Blog.t} `{Cursor} (docs : list Blog.t)
    : response (list Blog.t) :=
  match find featuredAndPublished "createdAt" Descending
          (Some 0%Z) (Some 5%Z) docs with
  | Some featuredBlogs => Json 200 featuredBlogs
  | None => Fail 500 "Failed to fetch featured blogs"
  end.

End BlogRoutes.

(* ================================================================== *)
(** ** routes/contactSubmissions.js: the other routes *)
(* ================================================================== *)

Module ContactRoutes.

Import JS Mongoose Http Documents.

Local Open Scope string_scope.

(** [req.body] of the create route. *)
Record body : Type := {
  name : value;
  email : value;
  phone : value;
  subject : value;
  message : value;
  source : value;
  priority : value
}.

Definition priorities : list string := ["low"; "medium"; "high"].

(** [new ContactSubmission({ ... })] and [save()]: the casts, setters,
    defaults and validators of the schema. *)
Definition validate `{Runtime} (b : body) (id : string) (now : Z)
    : option ContactSubmission.t :=
  n ← castString (name b);
  n ← requiredString (trim <$> n);
  e ← castString (email b);
  e ← requiredString ((fun s => toLowerCase (trim s)) <$> e);
  ph ← castString (phone b);
  su ← castString (subject b);
  su ← requiredString (trim <$> su);
  me ← castString (message b);
  me ← requiredString (trim <$> me);
  pr ← castString (withDefault (JStr "medium") (priority b));
  so ← castString (withDefault (JStr "website") (source b));
  if inEnum priorities pr
  then Some {| ContactSubmission._id := id;
               ContactSubmission.name := n;
               ContactSubmission.email := e;
               ContactSubmission.phone := trim <$> ph;
               ContactSubmission.subject := su;
               ContactSubmission.message := me;
               ContactSubmission.read := Some false;
               ContactSubmission.replied := Some false;
               ContactSubmission.priority := pr;
               ContactSubmission.source := so;
               ContactSubmission.createdAt := now;
               ContactSubmission.updatedAt := now |}
  else None.

(** POST /api/contact-submissions. *)
Definition post `{Runtime} (b : body) (id : string) (now : Z)
    (docs : list ContactSubmission.t)
    : response ContactSubmission.t * list ContactSubmission.t :=
  if negb (truthy (name b)) || negb (truthy (email b))
     || negb (truthy (subject b)) || negb (truthy (message b))
  then (Fail 400 "Missing required fields: name, email, subject, and message are required",
        docs)
  else
    match validate b id now with
    | Some submission => (Json 201 submission, (docs ++ [submission])%list)
    | None => (Fail 500 "Failed to create contact submission", docs)
    end.

(** The update document [{ read }]. *)
Definition setRead (read : option bool) (now : Z)
    (s : ContactSubmission.t) : ContactSubmission.t :=
  {| ContactSubmission._id := ContactSubmission._id s;
     ContactSubmission.name := ContactSubmission.name s;
     ContactSubmission.email := ContactSubmission.email s;
     ContactSubmission.phone := ContactSubmission.phone s;
     ContactSubmission.subject := ContactSubmission.subject s;
     ContactSubmission.message := ContactSubmission.message s;
     ContactSubmission.read := read;
     ContactSubmission.replied := ContactSubmission.replied s;
     ContactSubmission.priority := ContactSubmission.priority s;
     ContactSubmission.source := ContactSubmission.source s;
     ContactSubmission.createdAt := ContactSubmission.createdAt s;
     ContactSubmission.updatedAt := now |}.

(** PUT /api/contact-submissions/:id/read, with [req.body.read]. *)
Definition putRead `{ObjectIds} (id : string) (body_read : value) (now : Z)
    (docs : list ContactSubmission.t)
    : response ContactSubmissions.repliedAnswer * list ContactSubmission.t :=
  let read := withDefault (JBool true) body_read in
  match (if validId id then castBoolean read else CastError) with
  | None => (Fail 400 "Invalid submission ID", docs)
  | Some r =>
      match findOne (ContactSubmissions.byId id) docs with
      | None => (Fail 404 "Contact submission not found", docs)
      | Some s =>
          (Json 200
             {| ContactSubmissions.message :=
                  "Submission marked as " ++ (if truthy read then "read" else "unread");
                ContactSubmissions.submission := setRead r now s |},
           updateOne (ContactSubmissions.byId id) (setRead r now) docs)
      end
  end.

(** The update document [{ priority }]. *)
Definition setPriority (priority : string) (now : Z)
    (s : ContactSubmission.t) : ContactSubmission.t :=
  {| ContactSubmission._id := ContactSubmission._id s;
     ContactSubmission.name := ContactSubmission.name s;
     ContactSubmission.email := ContactSubmission.email s;
     ContactSubmission.phone := ContactSubmission.phone s;
     ContactSubmission.subject := ContactSubmission.subject s;
     ContactSubmission.message := ContactSubmission.message s;
     ContactSubmission.read := ContactSubmission.read s;
     ContactSubmission.replied := ContactSubmission.replied s;
     ContactSubmission.priority := Some priority;
     ContactSubmission.source := ContactSubmission.source s;
     ContactSubmission.createdAt := ContactSubmission.createdAt s;
     ContactSubmission.updatedAt := now |}.

(** [['low', 'medium', 'high'].includes(priority)]: the string, when it
    is one of the three. *)
Definition listed (priority : value) : option string :=
  match priority with
  | JStr s => if existsb (String.eqb s) priorities then Some s else None
  | _ => None
  end.

(** PUT /api/contact-submissions/:id/priority, with
    [req.body.priority]. *)
Definition putPriority `{ObjectIds} (id : string) (body_priority : value)
    (now : Z) (docs : list ContactSubmission.t)
    : response ContactSubmission.t * list ContactSubmission.t :=
  match listed body_priority with
  | None => (Fail 400 "Priority must be low, medium, or high", docs)
  | Some priority =>
      if negb (validId id) then (Fail 400 "Invalid submission ID", docs)
      else match findOne (ContactSubmissions.byId id) docs with
           | None => (Fail 404 "Contact submission not found", docs)
           | Some s =>
               (Json 200 (setPriority priority now s),
                updateOne (ContactSubmissions.byId id) (setPriority priority now) docs)
           end
  end.

(** DELETE /api/contact-submissions/:id. *)
Definition delete `{ObjectIds} (id : string) (docs : list ContactSubmission.t)
    : response unit * list ContactSubmission.t :=
  if negb (validId id) then (Fail 400 "Invalid submission ID", docs)
  else match findOne (ContactSubmissions.byId id) docs with
       | None => (Fail 404 "Contact submission not found", docs)
       | Some _ => (Json 200 tt, deleteOne (ContactSubmissions.byId id) docs)
       end.

(** GET /api/contact-submissions: every submission, most recent
    first. *)
Definition getAll `{Collection ContactSubmission.t}
    (docs : list ContactSubmission.t) : response (list ContactSubmission.t) :=
  Json 200 (sortDocs "createdAt" Descending docs).

(** GET /api/contact-submissions/:id. *)
Definition getById `{ObjectIds} (id : string) (docs : list ContactSubmission.t)
    : response ContactSubmission.t :=
  if negb (validId id) then Fail 400 "Invalid submission ID"
  else match findOne (ContactSubmissions.byId id) docs with
       | None => Fail 404 "Contact submission not found"
       | Some submission => Json 200 submission
       end.

(** [new Date(new Date().setHours(0, 0, 0, 0))]: the start of the day of
    [now], in the time zone of the server. *)
Class Clock : Type := {
  startOfDay : Z -> Z
}.

(** The filter [{ read: false }]. *)
Definition isUnread (s : ContactSubmission.t) : bool :=
  Testimonials.eqOptBool (ContactSubmission.read s) false.

(** The filter [{ createdAt: { $gte: start } }]. *)
Definition createdSince (start : Z) (s : ContactSubmission.t) : bool :=
  (start <=? ContactSubmission.createdAt s)%Z.

(** The filter [{ priority: 'high', read: false }]. *)
Definition isHighUnread (s : ContactSubmission.t) : bool :=
  Blogs.eqOptString (ContactSubmission.priority s) "high" && isUnread s.

Record overview : Type := {
  totalSubmissions : Z;
  unreadSubmissions : Z;
  todaySubmissions : Z;
  highPrioritySubmissions : Z;
  readSubmissions : Z
}.

(** GET /api/contact-submissions/stats/overview, at time [now]. *)
Definition getStats `{Clock} (now : Z) (docs : list ContactSubmission.t)
    : response overview :=
  let total := countDocuments (fun _ => true) docs in
  let unread := countDocuments isUnread docs in
  Json 200
    {| totalSubmissions := total;
       unreadSubmissions := unread;
       todaySubmissions := countDocuments (createdSince (startOfDay now)) docs;
       highPrioritySubmissions := countDocuments isHighUnread docs;
       readSubmissions := (total - unread)%Z |}.

End ContactRoutes.

(* ================================================================== *)
(** ** routes/newsletter.js: the other routes *)
(* ================================================================== *)

Module NewsletterAdmin.

Import JS Mongoose Http Documents.

Local Open Scope string_scope.

Definition subscriberById (id : string) (s : Newsletter.subscriber) : bool :=
  String.eqb (Newsletter._id s) id.

(** The update document [{ unsubscribed: true, unsubscribedAt: new
    Date() }]. *)
Definition unsubscribe (now : Z) (s : Newsletter.subscriber) : Newsletter.subscriber :=
  {| Newsletter._id := Newsletter._id s;
     Newsletter.email := Newsletter.email s;
     Newsletter.name := Newsletter.name s;
     Newsletter.unsubscribed := Some true;
     Newsletter.unsubscribedAt := Some now;
     Newsletter.source := Newsletter.source s;
     Newsletter.prefs := Newsletter.prefs s;
     Newsletter.createdAt := Newsletter.createdAt s;
     Newsletter.updatedAt := now |}.

(** PUT /api/newsletter/subscribers/:id/unsubscribe. *)
Definition putUnsubscribe `{ObjectIds} (id : string) (now : Z)
    (docs : list Newsletter.subscriber)
    : response Newsletter.subscriber * list Newsletter.subscriber :=
  if negb (validId id) then (Fail 400 "Invalid subscriber ID", docs)
  else match findOne (subscriberById id) docs with
       | None => (Fail 404 "Subscriber not found", docs)
       | Some s =>
           (Json 200 (unsubscribe now s),
            updateOne (subscriberById id) (unsubscribe now) docs)
       end.

(** DELETE /api/newsletter/subscribers/:id. *)
Definition deleteSubscriber `{ObjectIds} (id : string)
    (docs : list Newsletter.subscriber)
    : response unit * list Newsletter.subscriber :=
  if negb (validId id) then (Fail 400 "Invalid subscriber ID", docs)
  else match findOne (subscriberById id) docs with
       | None => (Fail 404 "Subscriber not found", docs)
       | Some _ => (Json 200 tt, deleteOne (subscriberById id) docs)
       end.

(** A stored campaign (the NewsletterCampaign schema). *)
Record campaign : Type := {
  c_id : string;
  c_subject : string;
  c_content : string;
  sentTo : option string;
  recipientCount : Z;
  sentAt : Z;
  status : option string;
  delivered : Z
}.

(** [req.body] of the send route; [subscriberIds] is an array of
    identifiers, or absent. *)
Record sendBody : Type := {
  subject : value;
  content : value;
  sendTo : value;
  subscriberIds : option (list string)
}.

Definition isUnsubscribed (b : bool) (s : Newsletter.subscriber) : bool :=
  Testimonials.eqOptBool (Newsletter.unsubscribed s) b.

(** The recipients the route selects; [None] when an identifier of
    [subscriberIds] is not one ([CastError]). *)
Definition recipientsOf `{ObjectIds} (b : sendBody)
    (docs : list Newsletter.subscriber) : option (list Newsletter.subscriber) :=
  match sendTo b with
  | JStr s =>
      if String.eqb s "all" then Some (List.filter (isUnsubscribed false) docs)
      else if String.eqb s "selected" then
        match subscriberIds b with
        | Some ids =>
            if forallb validId ids
            then Some (List.filter
                         (fun x => existsb (String.eqb (Newsletter._id x)) ids
                                   && isUnsubscribed false x)
                         docs)
            else None
        | None => Some []
        end
      else if String.eqb s "unsubscribed"
      then Some (List.filter (isUnsubscribed true) docs)
      else Some []
  | _ => Some []
  end.

(** What the route would answer after a send. *)
Record sent : Type := {
  sent_id : string;
  sent_recipientCount : Z;
  sent_sentAt : Z
}.

(** POST /api/newsletter/send.  Once recipients are found the route
    builds [new NewsletterCampaign({ subject, content, sentTo, ... })];
    the body's property was bound as [sendTo], no [sentTo] is declared, and
    reading it throws a [ReferenceError], which the handler's [catch]
    answers. *)
Definition postSend `{ObjectIds} (b : sendBody)
    (docs : list Newsletter.subscriber) (campaigns : list campaign)
    : response sent * list campaign :=
  if negb (truthy (subject b)) || negb (truthy (content b))
  then (Fail 400 "Subject and content are required", campaigns)
  else
    match recipientsOf b docs with
    | None => (Fail 500 "Failed to send newsletter", campaigns)
    | Some recipients =>
        if (length recipients =? 0)%nat
        then (Fail 400 "No recipients found", campaigns)
        else (Fail 500 "Failed to send newsletter", campaigns)
    end.

(** [fileFilter] of the PDF upload. *)
Definition fileFilter (f : Multer.file) : option string :=
  if String.eqb (Multer.mimetype f) "application/pdf"
  then None
  else Some "Only PDF files are allowed!".

(** [multer({ storage, limits, fileFilter })] of this router. *)
Definition upload : Multer.options :=
  {| Multer.destination := "uploads/newsletters";
     Multer.prefix := "newsletter-";
     Multer.fileSize := 50 * 1024 * 1024;
     Multer.fileFilter := fileFilter |}.

(** [new Date(v)]: [None] is an invalid date. *)
Class Dates : Type := {
  newDate : value -> option Z
}.

(** [req.body] of the upload route. *)
Record uploadBody : Type := {
  name : value;
  category : value;
  date : value
}.

Definition categories : list string :=
  ["monthly"; "weekly"; "special"; "announcement"; "update"].

(** [new NewsletterUpload({ ... })] and [save()]. *)
Definition validate `{Runtime} `{Dates} (b : uploadBody) (f : Multer.stored)
    (id : string) (now : Z) : option Newsletter.upload :=
  n ← castString (name b);
  n ← requiredString (trim <$> n);
  c ← castString (category b);
  c ← requiredString c;
  d ← newDate (date b);
  fn ← requiredString (Some (Multer.filename f));
  on ← requiredString (Some (Multer.stored_originalname f));
  if inEnum categories (Some c)
  then Some {| Newsletter.u_id := id;
               Newsletter.u_name := n;
               Newsletter.u_category := c;
               Newsletter.u_date := d;
               Newsletter.filename := fn;
               Newsletter.originalName := on;
               Newsletter.fileSize := Some (Multer.stored_size f);
               Newsletter.downloadCount := 0;
               Newsletter.active := Some true;
               Newsletter.u_createdAt := now;
               Newsletter.u_updatedAt := now |}
  else None.

(** The handler of POST /api/newsletter/upload, behind the upload
    middleware. *)
Definition uploadHandler `{Runtime} `{Dates} (b : uploadBody) (id : string)
    (now : Z) (file : option Multer.stored) (docs : list Newsletter.upload)
    : response Newsletter.upload * list Newsletter.upload :=
  match file with
  | None => (Fail 400 "PDF file is required", docs)
  | Some f =>
      if negb (truthy (name b)) || negb (truthy (category b))
         || negb (truthy (date b))
      then (Fail 400 "Name, category, and date are required", docs)
      else match validate b f id now with
           | Some newsletter => (Json 201 newsletter, (docs ++ [newsletter])%list)
           | None => (Fail 500 "Failed to upload newsletter", docs)
           end
  end.

(** POST /api/newsletter/upload. *)
Definition postUpload `{Runtime} `{Dates} `{Multer.Path} (b : uploadBody)
    (part : option Multer.file) (id : string) (now rnd : Z)
    (d : Disk.t) (docs : list Newsletter.upload)
    : response Newsletter.upload * Disk.t * list Newsletter.upload :=
  Multer.route upload "pdf" (uploadHandler b id now) part now rnd d docs.

(** DELETE /api/newsletter/uploads/:id. *)
Definition deleteUpload `{ObjectIds} (id : string)
    (docs : list Newsletter.upload) (d : Disk.t)
    : response unit * list Newsletter.upload * Disk.t :=
  if negb (validId id) then (Fail 400 "Invalid newsletter ID", docs, d)
  else match findOne (NewsletterRoutes.uploadById id) docs with
       | None => (Fail 404 "Newsletter not found", docs, d)
       | Some newsletter =>
           let filePath := "uploads/newsletters/" ++ Newsletter.filename newsletter in
           (Json 200 tt, deleteOne (NewsletterRoutes.uploadById id) docs,
            if Disk.pathExists filePath d then Fs.remove filePath d else d)
       end.

Record statistics : Type := {
  totalSubscribers : Z;
  activeSubscribers : Z;
  unsubscribedCount : Z;
  totalCampaigns : Z;
  totalUploads : Z;
  subscriptionRate : value
}.

(** The filter [{ active: true }] on the uploads. *)
Definition isActiveUpload (u : Newsletter.upload) : bool :=
  Testimonials.eqOptBool (Newsletter.active u) true.

(** GET /api/newsletter/stats: the rate is a string written with two
    decimals, or the number 0 when there is no subscriber. *)
Definition getStats `{TestimonialRoutes.Formatting}
    (subscribers : list Newsletter.subscriber) (campaigns : list campaign)
    (uploads : list Newsletter.upload) : response statistics :=
  let total := countDocuments (fun _ => true) subscribers in
  let active := countDocuments (isUnsubscribed false) subscribers in
  Json 200
    {| totalSubscribers := total;
       activeSubscribers := active;
       unsubscribedCount := countDocuments (isUnsubscribed true) subscribers;
       totalCampaigns := countDocuments (fun _ => true) campaigns;
       totalUploads := countDocuments isActiveUpload uploads;
       subscriptionRate :=
         if (0 <? total)%Z
         then JStr (TestimonialRoutes.toFixed 2
                      (inject_Z active / inject_Z total * 100)%Q)
         else JNum (ofZ 0) |}.

End NewsletterAdmin.

(* ================================================================== *)
(** ** routes/blogs.js: the pages of the listing *)
(* ================================================================== *)

Module BlogPages.

Import JS Mongoose Http.

(** The same request for another page. *)
Definition withPage (q : Blogs.listQuery) (page : string) : Blogs.listQuery :=
  {| Blogs.page := Some page;
     Blogs.limit := Blogs.limit q;
     Blogs.status := Blogs.status q;
     Blogs.category := Blogs.category q;
     Blogs.featured := Blogs.featured q;
     Blogs.search := Blogs.search q;
     Blogs.sortBy := Blogs.sortBy q;
     Blogs.sortOrder := Blogs.sortOrder q |}.

(** The posts of an answer (none in an error). *)
Definition blogsOf (r : response Blogs.listing) : list Blog.t :=
  match r with
  | Json _ l => Blogs.blogs l
  | Fail _ _ => []
  end.

(** The posts that match a request, in the order it asks for. *)
Definition matching `{TextIndex Blog.t} `{Collection Blog.t}
    (q : Blogs.listQuery) (docs : list Blog.t) : list Blog.t :=
  sortDocs (default "createdAt" (Blogs.sortBy q))
    (sortDirection (default "desc" (Blogs.sortOrder q)))
    (List.filter (Blogs.matches (Blogs.buildFilter q)) docs).

End BlogPages.

(* ================================================================== *)
(** ** routes/auth.js: verifying a token *)
(* ================================================================== *)

Module AuthVerify.

Import JS Mongoose Http.

Local Open Scope string_scope.

(** What is left of [s] after the prefix [pat], when [s] starts with
    it. *)
Fixpoint stripPrefix (pat s : string) : option string :=
  match pat, s with
  | EmptyString, _ => Some s
  | String a pat', String c s' =>
      if Ascii.eqb a c then stripPrefix pat' s' else None
  | String _ _, EmptyString => None
  end.

(** [s.replace(pat, rep)], for a string pattern and a replacement
    without [$]: the first occurrence is replaced. *)
Fixpoint replace (pat rep s : string) : string :=
  match stripPrefix pat s with
  | Some rest => rep ++ rest
  | None =>
      match s with
      | String c s' => String c (replace pat rep s')
      | EmptyString => EmptyString
      end
  end.

(** [s.split(' ')]. *)
Fixpoint splitSpaces (s : string) (word : string -> string) : list string :=
  match s with
  | String c s' =>
      if Ascii.eqb c " " then word "" :: splitSpaces s' (fun w => w)
      else splitSpaces s' (fun w => word (String c w))
  | EmptyString => [word ""]
  end.

(** No character of [s] is a space. *)
Fixpoint noSpace (s : string) : bool :=
  match s with
  | String c s' => negb (Ascii.eqb c " ") && noSpace s'
  | EmptyString => true
  end.

(** The library that signs and reads tokens, with the secret of the
    application: [encode] is the compact writing of a signed token,
    [decode] reads a string back when it is a token signed with the
    secret. *)
Class Jwt : Type := {
  encode : Auth.token -> string;
  decode : string -> option Auth.token
}.

(** [jwt.verify(token, JWT_SECRET)] at time [now] (in milliseconds):
    the claims of a genuine token that has not expired. *)
Definition jwtVerify `{Jwt} (token : string) (now : Z) : option Auth.token :=
  t ← decode token;
  if (Auth.exp t <=? now / 1000)%Z then None else Some t.

(** What the route answers on success: the claims themselves for the
    hard-coded administrator, the stored account otherwise. *)
Inductive verified : Type :=
  | Claims (decoded : Auth.token)
  | Account (user : Auth.principal).

Definition userById (id : string) (u : User.t) : bool :=
  String.eqb (User._id u) id.

(** GET /api/auth/verify, with the [Authorization] header. *)
Definition verify `{Jwt} `{ObjectIds} (authorization : option string) (now : Z)
    (users : list User.t) : response verified :=
  let token := replace "Bearer " "" <$> authorization in
  match token with
  | None => Fail 401 "No token provided"
  | Some token =>
      if String.eqb token "" then Fail 401 "No token provided"
      else
        match jwtVerify token now with
        | None => Fail 401 "Invalid token"
        | Some decoded =>
            if String.eqb (Auth.t_username decoded) "admin"
            then Json 200 (Claims decoded)
            else if negb (validId (Auth.t_id decoded))
            then Fail 401 "Invalid token"
            else
              match findOne (userById (Auth.t_id decoded)) users with
              | None => Fail 401 "User not found or inactive"
              | Some user =>
                  if negb (User.active user)
                  then Fail 401 "User not found or inactive"
                  else Json 200
                         (Account {| Auth.id := User._id user;
                                     Auth.username := User.username user;
                                     Auth.email := Some (User.email user);
                                     Auth.role := User.role user;
                                     Auth.profile := User.profile user |})
              end
        end
  end.

(** The [authenticateToken] middleware: the claims it puts in
    [req.user] before calling [next()], or its own answer. *)
Definition authenticateToken `{Jwt} (authorization : option string) (now : Z)
    : response unit + Auth.token :=
  let token :=
    match authorization with
    | Some authHeader =>
        if String.eqb authHeader "" then None
        else nth_error (splitSpaces authHeader (fun w => w)) 1
    | None => None
    end in
  match token with
  | None => inl (Fail 401 "Access token required")
  | Some token =>
      if String.eqb token "" then inl (Fail 401 "Access token required")
      else match jwtVerify token now with
           | None => inl (Fail 403 "Invalid or expired token")
           | Some decoded => inr decoded
           end
  end.

End AuthVerify.

(* ================================================================== *)
(** ** More of the reference environment, and sample data *)
(* ================================================================== *)

Module ReferenceMore.

Import JS Mongoose.

Local Open Scope string_scope.



(** Dates given in epoch milliseconds, as a number or in decimal
    writing. *)
#[export] Instance dates : NewsletterAdmin.Dates :=
  {| NewsletterAdmin.newDate := fun v =>
       match v with
       | JNum (Fin q) => Some (Qnum q / Zpos (Qden q))%Z
       | JStr s => parseInt s
       | _ => None
       end |}.

Fixpoint splitDots (s : string) (word : string -> string) : list string :=
  match s with
  | String c s' =>
      if Ascii.eqb c "." then word "" :: splitDots s' (fun w => w)
      else splitDots s' (fun w => word (String c w))
  | EmptyString => [word ""]
  end.

(** A codec that writes the claims one after the other, for claims
    without [.]; the secret is left out. *)
#[export] Instance jwt : AuthVerify.Jwt :=
  {| AuthVerify.encode := fun t =>
       Auth.t_id t ++ "." ++ Auth.t_username t ++ "." ++ Auth.t_role t
       ++ "." ++ showZ (Auth.iat t) ++ "." ++ showZ (Auth.exp t);
     AuthVerify.decode := fun s =>
       match splitDots s (fun w => w) with
       | [i; u; r; a; e] =>
           a' ← parseInt a; e' ← parseInt e;
           Some {| Auth.t_id := i; Auth.t_username := u; Auth.t_role := r;
                   Auth.iat := a'; Auth.exp := e' |}
       | _ => None
       end |}.

(** Days that start at midnight, universal time. *)
#[export] Instance utc : ContactRoutes.Clock :=
  {| ContactRoutes.startOfDay := fun now => (now - now mod 86400000)%Z |}.

Definition submissionLe (f : string) (x y : ContactSubmission.t) : bool :=
  if String.eqb f "createdAt"
  then (ContactSubmission.createdAt x <=? ContactSubmission.createdAt y)%Z
  else if String.eqb f "updatedAt"
  then (ContactSubmission.updatedAt x <=? ContactSubmission.updatedAt y)%Z
  else true.

#[export] Instance submissionCollection : Collection ContactSubmission.t :=
  Reference.orderedBy submissionLe.

(** [digits] decimal digits of the natural number [n], padded with
    zeros on the left. *)
Fixpoint padded (digits : nat) (n : Z) : string :=
  match digits with
  | O => ""
  | S d => padded d (n / 10) ++ showZ (n mod 10)
  end.

(** Fixed-point writing, rounding halves up, of a number that is not
    negative. *)
#[export] Instance formatting : TestimonialRoutes.Formatting :=
  {| TestimonialRoutes.toFixed := fun digits q =>
       let scale := (10 ^ Z.of_nat digits)%Z in
       let n := ((2 * Qnum q * scale + Zpos (Qden q)) / (2 * Zpos (Qden q)))%Z in
       match digits with
       | O => showZ n
       | _ => showZ (n / scale) ++ "." ++ padded digits (n mod scale)
       end |}.

End ReferenceMore.

Module MoreSamples.

Local Open Scope string_scope.

Definition id1 : string := ContactSpec.id1.
Definition id2 : string := ContactSpec.id2.


(** A disk with one blog image and one newsletter. *)
Definition disk : Disk.t :=
  {| Disk.dirs := {[ "uploads"; "uploads/blog-images"; "uploads/newsletters" ]};
     Disk.files := {[ "uploads/blog-images/blog-1-2.png" := "PNG";
                      "uploads/newsletters/newsletter-1-2.pdf" := "PDF" ]} |}.

(** A contact request. *)
Definition enquiry (name email : JS.value) : ContactRoutes.body :=
  {| ContactRoutes.name := name;
     ContactRoutes.email := email;
     ContactRoutes.phone := JS.JUndefined;
     ContactRoutes.subject := JS.JStr "Hello";
     ContactRoutes.message := JS.JStr "A question";
     ContactRoutes.source := JS.JUndefined;
     ContactRoutes.priority := JS.JUndefined |}.

(** A request to send to every subscriber. *)
Definition toAll : NewsletterAdmin.sendBody :=
  {| NewsletterAdmin.subject := JS.JStr "March";
     NewsletterAdmin.content := JS.JStr "News of March";
     NewsletterAdmin.sendTo := JS.JStr "all";
     NewsletterAdmin.subscriberIds := None |}.

(** A PDF sent without a name. *)
Definition march : Multer.file :=
  {| Multer.fieldname := "pdf";
     Multer.originalname := "march.pdf";
     Multer.mimetype := "application/pdf";
     Multer.content := "%PDF-1.7" |}.

Definition unnamed : NewsletterAdmin.uploadBody :=
  {| NewsletterAdmin.name := JS.JUndefined;
     NewsletterAdmin.category := JS.JStr "monthly";
     NewsletterAdmin.date := JS.JStr "1709251200000" |}.

(** A picture sent in the [image] field. *)
Definition photo : Multer.file :=
  {| Multer.fieldname := "image";
     Multer.originalname := "team.png";
     Multer.mimetype := "image/png";
     Multer.content := "PNG" |}.

(** A file that is no PDF, sent in the [pdf] field. *)
Definition memo : Multer.file :=
  {| Multer.fieldname := "pdf";
     Multer.originalname := "memo.txt";
     Multer.mimetype := "text/plain";
     Multer.content := "hello" |}.

(** Two testimonials, the second one inactive. *)
Definition praise : Testimonial.t := ListingSpec.sample id2 4 false 2.

Definition twoTestimonials : list Testimonial.t :=
  [ListingSpec.sample id1 5 true 1; praise].

(** The identifier of [praise], written with capital digits. *)
Definition capitalId2 : string := "64B7F0C2A1D3E4F5A6B7C8DA".

(** A testimonial with the two flags given. *)
Definition flagged (id : string) (rating created : Z) (active featured : bool)
    : Testimonial.t :=
  TestimonialRoutes.setFlags (Some active) (Some featured) created
    (ListingSpec.sample id rating true created).

(** Five testimonials: three are featured and active, one is featured
    and inactive, one is active and not featured. *)
Definition showcase : list Testimonial.t :=
  [flagged id1 5 1 true true;
   flagged id2 4 2 true false;
   flagged "64b7f0c2a1d3e4f5a6b7c8db" 4 3 true true;
   flagged "64b7f0c2a1d3e4f5a6b7c8dc" 5 4 false true;
   flagged "64b7f0c2a1d3e4f5a6b7c8dd" 3 5 true true].



(** Two subscribers, the first one subscribed. *)
Definition reader : Newsletter.subscriber :=
  NewsletterSpec.subscriber id1 "ada@example.org" false None.

Definition twoReaders : list Newsletter.subscriber :=
  [reader; NewsletterSpec.subscriber id2 "bob@example.org" true (Some 7%Z)].

(** The newsletter that is on the disk. *)
Definition issue : Newsletter.upload :=
  NewsletterSpec.pdf id1 "newsletter-1-2.pdf" 3.

(** The claims of an administrator, valid until second 90000. *)
Definition adminClaims : Auth.token :=
  {| Auth.t_id := "admin-user";
     Auth.t_username := "admin";
     Auth.t_role := "admin";
     Auth.iat := 3600;
     Auth.exp := 90000 |}.

(** An account with a valid identifier. *)
Definition editor (active : bool) : User.t :=
  {| User._id := ContactSpec.id1;
     User.username := "ada";
     User.email := "ada@example.org";
     User.password := "s3cret";
     User.role := "editor";
     User.profile := None;
     User.active := active;
     User.loginAttempts := 0;
     User.lockedAt := None;
     User.lastLogin := None |}.

End MoreSamples.

(* ================================================================== *)
(** * Properties *)
(* ================================================================== *)

(** ** The primitives on small inputs *)

Example parseInt_reads_prefix :
  map JS.parseInt ["10"; " 42abc"; "-7"; "0x1F"; "3.9"; "abc"; ""; "0x"]
  = [Some 10%Z; Some 42%Z; Some (-7)%Z; Some 31%Z; Some 3%Z; None; None; None].
Proof. reflexivity. Qed.

Example ceilDiv_rounds_up :
  (JS.ceilDiv 25 10, JS.ceilDiv 20 10, JS.ceilDiv 0 10, JS.ceilDiv 7 0)
  = (Some 3%Z, Some 2%Z, Some 0%Z, None).
Proof. reflexivity. Qed.

Example trim_both_ends : JS.trim "  a b  " = "a b".
Proof. reflexivity. Qed.

Example fileFilter_by_prefix :
  map (fun m => Blogs.fileFilter
                  {| Multer.fieldname := "image"; Multer.originalname := "x";
                     Multer.mimetype := m; Multer.content := "" |})
      ["image/png"; "text/plain"; "image"; "application/image/png"]
  = [None; Some "Only image files are allowed!";
     Some "Only image files are allowed!"; Some "Only image files are allowed!"].
Proof. reflexivity. Qed.

Example uniqueSuffix_text :
  Multer.uniqueSuffix 1700000000000 123456789 = "1700000000000-123456789".
Proof. reflexivity. Qed.

(** ** Queries and updates on a collection *)

Section Collections.

Import Mongoose.

Context {D : Type}.

Lemma findOne_split (q : D -> bool) (docs : list D) (s : D) :
  findOne q docs = Some s ->
  exists l1 l2, docs = l1 ++ s :: l2
                /\ Forall (fun x => q x = false) l1 /\ q s = true.
Proof.
  unfold findOne. induction docs as [| d ds IH]; simpl; [discriminate |].
  destruct (q d) eqn:Hq.
  - intros [= <-]. exists [], ds. auto.
  - intros Hf. destruct (IH Hf) as (l1 & l2 & -> & Hl1 & Hs).
    exists (d :: l1), l2. auto.
Qed.

Lemma findOne_middle (q : D -> bool) (l1 l2 : list D) (s : D) :
  Forall (fun x => q x = false) l1 -> q s = true ->
  findOne q (l1 ++ s :: l2) = Some s.
Proof.
  unfold findOne. induction 1 as [| x l Hx _ IH]; simpl; intros Hs.
  - now rewrite Hs.
  - rewrite Hx. now apply IH.
Qed.

Lemma updateOne_middle (q : D -> bool) (f : D -> D) (l1 l2 : list D) (s : D) :
  Forall (fun x => q x = false) l1 -> q s = true ->
  updateOne q f (l1 ++ s :: l2) = l1 ++ f s :: l2.
Proof.
  induction 1 as [| x l Hx _ IH]; simpl; intros Hs.
  - now rewrite Hs.
  - rewrite Hx. now rewrite IH.
Qed.

(** With a primary key, the document found is the only one that carries
    its key. *)
Lemma key_unique (key : D -> string) (l1 l2 : list D) (s : D) :
  List.NoDup (map key (l1 ++ s :: l2)) ->
  Forall (fun x => String.eqb (key x) (key s) = false) l1.
Proof.
  rewrite map_app. simpl. intros Hnd.
  apply List.Forall_forall. intros x Hx.
  apply String.eqb_neq. intros Heq.
  apply NoDup_remove_2 in Hnd. apply Hnd.
  apply in_or_app. left. rewrite <- Heq. now apply in_map.
Qed.

Context `{Collection D} `{Cursor}.

(** Whatever the window, a query returns documents of the collection that
    satisfy its filter. *)
Lemma find_sound (q : D -> bool) f d k n (docs r : list D) :
  find q f d k n docs = Some r ->
  Forall (fun x => In x docs /\ q x = true) r.
Proof.
  unfold find. destruct (sortKey f); [| discriminate].
  intros Hw. apply List.Forall_forall. intros x Hx.
  apply (window_incl _ _ _ _ _ Hw) in Hx.
  apply (Permutation_in _ (sortDocs_perm f d _)) in Hx.
  now apply filter_In in Hx.
Qed.

(** On a sort key, a page and a limit in range the store answers the
    window [(page - 1) * limit, limit) of the ordered matches. *)
Lemma find_page (q : D -> bool) f d (p l : Z) (docs : list D) :
  sortKey f = true -> (1 <= p)%Z -> (1 <= l)%Z ->
  find q f d (skipOf (Some p) (Some l)) (Some l) docs
  = Some (firstn (Z.to_nat l)
            (skipn (Z.to_nat ((p - 1) * l)) (sortDocs f d (List.filter q docs)))).
Proof.
  intros Hf Hp Hl. unfold find, skipOf. rewrite Hf. simpl.
  apply window_page; nia.
Qed.



End Collections.


(* ================================================================== *)
(** ** Testimonial listings *)
(* ================================================================== *)


Section TestimonialListings.

Import JS Mongoose Http Testimonials ListingSpec.

Context {rx : Regex} {coll : Collection Testimonial.t} {cur : Cursor}.



Lemma publicFilter_active (q : listQuery) (t : Testimonial.t) :
  matches (publicFilter q) t = true -> Testimonial.active t = Some true.
Proof.
  unfold matches, publicFilter. simpl. intros Hm.
  repeat (apply andb_prop in Hm; destruct Hm as [Hm _]).
  destruct (Testimonial.active t) as [[|] |]; simpl in Hm; congruence.
Qed.


Lemma getPublic_found (q : listQuery) (docs ts : list Testimonial.t) :
  getPublic q docs = Json 200 ts ->
  Forall (fun t => In t docs /\ matches (publicFilter q) t = true) ts.
Proof.
  unfold getPublic. destruct (castFilter (publicFilter q)); [| discriminate].
  destruct (find _ _ _ _ _ docs) as [r |] eqn:Hf; [| discriminate].
  intros [= <-]. exact (find_sound _ _ _ _ _ _ _ Hf).
Qed.

(** C2.  Whatever parameters the caller of the public listing supplies
    (featured, rating, sort, limit), every testimonial in the answer is a
    stored testimonial whose [active] is [true]; a testimonial with
    [active] false never appears. *)
Theorem public_listing_only_active (q : listQuery) (docs ts : list Testimonial.t) :
  getPublic q docs = Json 200 ts ->
  Forall (fun t => In t docs /\ Testimonial.active t = Some true) ts
  /\ forall t, Testimonial.active t = Some false -> ~ In t ts.
Proof.
  intros Hr. apply getPublic_found in Hr.
  assert (Hall : Forall (fun t => In t docs /\ Testimonial.active t = Some true) ts).
  { eapply List.Forall_impl; [| exact Hr].
    intros t [Hin Hm]. split; [exact Hin |].
    now apply (publicFilter_active q). }
  split; [exact Hall |].
  intros t Hfalse Hin.
  rewrite List.Forall_forall in Hall. destruct (Hall t Hin) as [_ Htrue].
  congruence.
Qed.


End TestimonialListings.

Section TestimonialListingExamples.

Import JS Mongoose Http Testimonials ListingSpec Reference.


(** The public listing asked for rating 4, most recent first, on a store
    with an inactive testimonial of rating 4. *)
Lemma public_listing_only_active_witness :
  Forall (fun t => In t fourTestimonials /\ Testimonial.active t = Some true)
    [sample "c" 4 true 3; sample "a" 5 true 1]
  /\ forall t, Testimonial.active t = Some false ->
                ~ In t [sample "c" 4 true 3; sample "a" 5 true 1].
Proof.
  apply (public_listing_only_active (rated "4" None) fourTestimonials).
  vm_compute. reflexivity.
Defined.



End TestimonialListingExamples.

(* ================================================================== *)
(** ** Blog listing *)
(* ================================================================== *)


Section BlogListing.

Import JS Mongoose Http Blogs.

Context {txt : TextIndex Blog.t} {coll : Collection Blog.t} {cur : Cursor}.

Lemma ceilDiv_ceiling (total l : Z) :
  (1 <= l)%Z ->
  exists tp, ceilDiv total l = Some tp /\ ((tp - 1) * l < total <= tp * l)%Z.
Proof.
  intros Hl. unfold ceilDiv.
  destruct (Z.eqb_spec l 0); [lia |].
  eexists; split; [reflexivity |].
  pose proof (Z.mul_div_le (- total) l ltac:(lia)).
  pose proof (Z.mul_succ_div_gt (- total) l ltac:(lia)).
  nia.
Qed.


End BlogListing.

Section BlogListingExample.

Import JS Mongoose Http Blogs BlogSpec Reference.



End BlogListingExample.

(* ================================================================== *)
(** ** Contact submissions: the mark-replied update *)
(* ================================================================== *)


Section MarkReplied.

Import JS Mongoose Http ContactSubmissions.

Context {ids : ObjectIds}.

(** The answer of the route on a stored submission, for a body whose
    [replied] casts to [r]. *)
Lemma putReplied_found (id : string) (v : value) (r : option bool) (now : Z)
    (docs : list ContactSubmission.t) (s : ContactSubmission.t) :
  validId id = true ->
  castBoolean (withDefault (JBool true) v) = Cast r ->
  findOne (byId id) docs = Some s ->
  exists l1 l2,
    docs = l1 ++ s :: l2
    /\ putReplied id v now docs
       = (Json 200
            {| message :=
                 ("Submission marked as "
                  ++ (if truthy (withDefault (JBool true) v)
                      then "replied" else "not replied"))%string;
               submission := setReplied r now s |},
          l1 ++ setReplied r now s :: l2)
    /\ findOne (byId id) (l1 ++ setReplied r now s :: l2)
       = Some (setReplied r now s).
Proof.
  intros Hid Hcast Hfind.
  destruct (findOne_split _ _ _ Hfind) as (l1 & l2 & Hdocs & Hl1 & Hs).
  exists l1, l2. split; [exact Hdocs |]. split.
  - unfold putReplied. rewrite Hid, Hcast. unfold Cast. rewrite Hfind.
    f_equal. rewrite Hdocs. now apply updateOne_middle.
  - apply findOne_middle; [exact Hl1 | exact Hs].
Qed.

Lemma castBoolean_true_truthy (v : value) :
  castBoolean v = Cast (Some true) -> truthy v = true.
Proof.
  destruct v as [| | b | [| | q |] | s]; simpl; try discriminate.
  - now intros [= ->].
  - destruct (Qeq_bool q 1) eqn:H1.
    + intros _. apply Qeq_bool_iff in H1.
      destruct (Qeq_bool q 0) eqn:H0; [| reflexivity].
      apply Qeq_bool_iff in H0. rewrite H0 in H1. discriminate H1.
    + destruct (Qeq_bool q 0); discriminate.
  - destruct (String.eqb_spec s ""); [subst; discriminate | reflexivity].
Qed.

(** C4.  For a stored submission, the mark-replied update with
    [replied] true (the value [true], an accepted spelling of it, or no
    value at all) answers 200 and replaces the submission, in one update,
    by a record whose [replied] and [read] are both [true]. *)
Theorem mark_replied_marks_read (id : string) (v : value) (now : Z)
    (docs : list ContactSubmission.t) (s : ContactSubmission.t) :
  validId id = true ->
  findOne (byId id) docs = Some s ->
  castBoolean (withDefault (JBool true) v) = Cast (Some true) ->
  exists l1 l2 s',
    docs = l1 ++ s :: l2
    /\ putReplied id v now docs
       = (Json 200 {| message := "Submission marked as replied";
                      submission := s' |},
          l1 ++ s' :: l2)
    /\ findOne (byId id) (l1 ++ s' :: l2) = Some s'
    /\ ContactSubmission.replied s' = Some true
    /\ ContactSubmission.read s' = Some true.
Proof.
  intros Hid Hfind Hcast.
  destruct (putReplied_found id v (Some true) now docs s Hid Hcast Hfind)
    as (l1 & l2 & Hdocs & Hput & Hafter).
  exists l1, l2, (setReplied (Some true) now s).
  rewrite (castBoolean_true_truthy _ Hcast) in Hput.
  repeat split; assumption.
Qed.


End MarkReplied.

Section MarkRepliedExamples.

Import JS Mongoose Http ContactSubmissions ContactSpec Reference.

(** [{ replied: true }] on the second of two unread submissions. *)
Lemma mark_replied_marks_read_witness :
  exists l1 l2 s',
    [fresh id1; fresh id2] = l1 ++ fresh id2 :: l2
    /\ putReplied id2 (JBool true) 20 [fresh id1; fresh id2]
       = (Json 200 {| message := "Submission marked as replied";
                      submission := s' |},
          l1 ++ s' :: l2)
    /\ findOne (byId id2) (l1 ++ s' :: l2) = Some s'
    /\ ContactSubmission.replied s' = Some true
    /\ ContactSubmission.read s' = Some true.
Proof.
  exact (mark_replied_marks_read (ids := objectIds) id2 (JBool true) 20
           [fresh id1; fresh id2] (fresh id2) eq_refl eq_refl eq_refl).
Defined.


End MarkRepliedExamples.

(* ================================================================== *)
(** ** Newsletter: subscribing an email that is already stored *)
(* ================================================================== *)


Section Subscribe.

Import JS Mongoose Http NewsletterRoutes.

Context {rt : Runtime}.

(** C5.  A subscribe request whose (non-empty) email is found in the
    store: when the subscriber found has [unsubscribed = false] the request
    is refused with 400 "Email is already subscribed" and the store is
    left as it was; when it has [unsubscribed = true] the request
    succeeds and the stored record, replaced in place, has
    [unsubscribed = false] and no [unsubscribedAt]. *)
Theorem subscribe_existing_email (b : subscribeBody) (e id : string) (now : Z)
    (docs : list Newsletter.subscriber) (s : Newsletter.subscriber) :
  email b = JStr e -> e <> "" ->
  findOne (byEmail (email b)) docs = Some s ->
  (Newsletter.unsubscribed s = Some false ->
   postSubscribers b id now docs = (Fail 400 "Email is already subscribed", docs))
  /\ (Newsletter.unsubscribed s = Some true ->
      List.NoDup (map Newsletter._id docs) ->
      exists l1 l2 s',
        docs = l1 ++ s :: l2
        /\ postSubscribers b id now docs = (Json 200 s', l1 ++ s' :: l2)
        /\ findOne (byEmail (email b)) (l1 ++ s' :: l2) = Some s'
        /\ Newsletter.email s' = Newsletter.email s
        /\ Newsletter.unsubscribed s' = Some false
        /\ Newsletter.unsubscribedAt s' = None).
Proof.
  intros He Hne Hfind.
  assert (Htruthy : truthy (email b) = true).
  { rewrite He. simpl. now destruct (String.eqb_spec e ""). }
  split.
  - intros Hsub. unfold postSubscribers.
    rewrite Htruthy, Hfind, Hsub. reflexivity.
  - intros Hsub Hnodup.
    destruct (findOne_split _ _ _ Hfind) as (l1 & l2 & Hdocs & Hl1 & Hs).
    exists l1, l2, (resubscribe now s).
    split; [exact Hdocs |]. split; [| split; [| repeat split]].
    + unfold postSubscribers. rewrite Htruthy, Hfind, Hsub. simpl.
      f_equal. rewrite Hdocs.
      apply (updateOne_middle (sameId s) (fun _ => resubscribe now s) l1 l2 s).
      * rewrite Hdocs in Hnodup.
        exact (key_unique Newsletter._id l1 l2 s Hnodup).
      * unfold sameId. apply String.eqb_refl.
    + apply findOne_middle; [exact Hl1 | exact Hs].
Qed.

End Subscribe.

Section SubscribeExamples.

Import JS Mongoose Http NewsletterRoutes NewsletterSpec Reference.


(** An active subscriber subscribes again; a subscriber who had left
    subscribes again. *)
Lemma subscribe_existing_email_witness :
  postSubscribers (subscribe "Ada@Example.org") "s3" 20 twoSubscribers
  = (Fail 400 "Email is already subscribed", twoSubscribers)
  /\ exists l1 l2 s',
       twoSubscribers = l1 ++ subscriber "s2" "bob@example.org" true (Some 7%Z) :: l2
       /\ postSubscribers (subscribe "bob@example.org") "s3" 20 twoSubscribers
          = (Json 200 s', l1 ++ s' :: l2)
       /\ findOne (byEmail (JStr "bob@example.org")) (l1 ++ s' :: l2) = Some s'
       /\ Newsletter.email s' = "bob@example.org"
       /\ Newsletter.unsubscribed s' = Some false
       /\ Newsletter.unsubscribedAt s' = None.
Proof.
  split.
  - apply (proj1 (subscribe_existing_email (rt := runtime)
                    (subscribe "Ada@Example.org") "Ada@Example.org" "s3" 20
                    twoSubscribers (subscriber "s1" "ada@example.org" false None)
                    eq_refl ltac:(discriminate) eq_refl)).
    reflexivity.
  - apply (proj2 (subscribe_existing_email (rt := runtime)
                    (subscribe "bob@example.org") "bob@example.org" "s3" 20
                    twoSubscribers (subscriber "s2" "bob@example.org" true (Some 7%Z))
                    eq_refl ltac:(discriminate) eq_refl)).
    + reflexivity.
    + repeat constructor; simpl; intuition discriminate.
Defined.

End SubscribeExamples.

(* ================================================================== *)
(** ** Testimonials: the rating of a created testimonial *)
(* ================================================================== *)


Section CreateTestimonial.

Import JS Mongoose Http Testimonials.

Context {rt : Runtime}.

Lemma validRating_range (v : option number) (q : Q) :
  Testimonial.validRating v = Some q -> (1 <= q <= 5)%Q.
Proof.
  destruct v as [[| | x |] |]; simpl; try discriminate.
  destruct (Qle_bool 1 x) eqn:H1, (Qle_bool x 5) eqn:H5; simpl; try discriminate.
  intros [= <-]. split; now apply Qle_bool_iff.
Qed.

Lemma validate_rating (f : Testimonial.fields) (id : string) (now : Z)
    (t : Testimonial.t) :
  Testimonial.validate f id now = Some t -> (1 <= Testimonial.rating t <= 5)%Q.
Proof.
  unfold Testimonial.validate. intros Hv.
  repeat match type of Hv with
         | (mbind _ ?x) = Some _ =>
             let E := fresh "E" in
             destruct x eqn:E; cbn [mbind option_bind] in Hv; [| discriminate]
         end.
  destruct (inEnum _ _); [| discriminate].
  injection Hv as <-. cbn [Testimonial.rating].
  eapply validRating_range; eassumption.
Qed.

(** C6.  A create request whose rating lies outside [1, 5] (below 1 or
    above 5 as the route compares it; 0 and 6 in particular) is refused
    with status 400 and stores nothing; and every testimonial a create
    request stores has its rating in [1, 5]. *)
Theorem create_rating_in_range (b : body) (id : string) (now : Z)
    (docs : list Testimonial.t) :
  (lt_lit (Testimonial.f_rating b) 1 = true
   \/ gt_lit (Testimonial.f_rating b) 5 = true ->
   exists text, post b id now docs = (Fail 400 text, docs))
  /\ (Testimonial.f_rating b = JNum (ofZ 0)
      \/ Testimonial.f_rating b = JNum (ofZ 6) ->
      exists text, post b id now docs = (Fail 400 text, docs))
  /\ (forall s t docs',
        post b id now docs = (Json s t, docs') ->
        s = 201%nat /\ docs' = docs ++ [t]
        /\ (1 <= Testimonial.rating t <= 5)%Q).
Proof.
  assert (Hout : lt_lit (Testimonial.f_rating b) 1 = true
                 \/ gt_lit (Testimonial.f_rating b) 5 = true ->
                 exists text, post b id now docs = (Fail 400 text, docs)).
  { intros Hr. unfold post.
    destruct (negb (truthy (Testimonial.f_name b))
              || negb (truthy (Testimonial.f_company b))
              || negb (truthy (Testimonial.f_rating b))); [eauto |].
    assert (Hor : lt_lit (Testimonial.f_rating b) 1
                  || gt_lit (Testimonial.f_rating b) 5 = true)
      by (destruct Hr as [-> | ->]; [reflexivity | apply orb_true_r]).
    rewrite Hor. eauto. }
  split; [exact Hout |]. split.
  - intros [Hr | Hr]; apply Hout; rewrite Hr; [left | right]; reflexivity.
  - intros s t docs'. unfold post.
    destruct (negb (truthy (Testimonial.f_name b))
              || negb (truthy (Testimonial.f_company b))
              || negb (truthy (Testimonial.f_rating b))); [discriminate |].
    destruct (lt_lit (Testimonial.f_rating b) 1
              || gt_lit (Testimonial.f_rating b) 5); [discriminate |].
    destruct (Testimonial.validate _ id now) as [t' |] eqn:Hv; [| discriminate].
    intros [= <- <- <-]. repeat split; try reflexivity;
      apply (validate_rating _ _ _ _ Hv).
Qed.

End CreateTestimonial.

Section CreateTestimonialExamples.

Import JS Mongoose Http Testimonials CreateSpec Reference.

(** Ratings 0 and 6 are refused; rating 4 is stored. *)
Lemma create_rating_in_range_witness :
  (exists text, post (request (JNum (ofZ 0))) "t1" 20 [] = (Fail 400 text, []))
  /\ (exists text, post (request (JNum (ofZ 6))) "t1" 20 [] = (Fail 400 text, []))
  /\ exists t, post (request (JNum (ofZ 4))) "t1" 20 [] = (Json 201 t, [t])
               /\ (1 <= Testimonial.rating t <= 5)%Q.
Proof.
  split; [| split].
  - apply (proj1 (proj2 (create_rating_in_range (rt := runtime)
                           (request (JNum (ofZ 0))) "t1" 20 []))).
    left. reflexivity.
  - apply (proj1 (proj2 (create_rating_in_range (rt := runtime)
                           (request (JNum (ofZ 6))) "t1" 20 []))).
    right. reflexivity.
  - eexists. split; [vm_compute; reflexivity |].
    eapply (proj2 (proj2 (create_rating_in_range (rt := runtime)
                            (request (JNum (ofZ 4))) "t1" 20 []))).
    vm_compute. reflexivity.
Defined.

End CreateTestimonialExamples.

(* ================================================================== *)
(** ** Newsletter: the download counter *)
(* ================================================================== *)

Section Download.

Import JS Mongoose Http NewsletterRoutes.

Context {ids : ObjectIds}.

(** C7 (what the code does).  A download request for a stored upload
    whose file is not on the disk is answered 404 "File not found", and
    the stored record has nevertheless been saved with its
    [downloadCount] raised by one: the counter is incremented before the
    file is looked for. *)
Theorem download_missing_file_counted (id : string) (now : Z)
    (docs : list Newsletter.upload) (d : Disk.t) (u : Newsletter.upload) :
  validId id = true ->
  findOne (uploadById id) docs = Some u ->
  Disk.pathExists ("uploads/newsletters/" ++ Newsletter.filename u)%string d = false ->
  exists l1 l2 u',
    docs = l1 ++ u :: l2
    /\ getDownload id now docs d = (Fail 404 "File not found", l1 ++ u' :: l2)
    /\ findOne (uploadById id) (l1 ++ u' :: l2) = Some u'
    /\ Newsletter.downloadCount u' = (Newsletter.downloadCount u + 1)%Z.
Proof.
  intros Hid Hfind Hmissing.
  destruct (findOne_split _ _ _ Hfind) as (l1 & l2 & Hdocs & Hl1 & Hu).
  exists l1, l2, (countDownload now u).
  split; [exact Hdocs |]. split; [| split; [| reflexivity]].
  - unfold getDownload. rewrite Hid, Hfind. cbn [negb]. rewrite Hmissing.
    cbn [negb]. f_equal. rewrite Hdocs. now apply updateOne_middle.
  - apply findOne_middle; [exact Hl1 | exact Hu].
Qed.

End Download.

Section DownloadExample.

Import JS Mongoose Http NewsletterRoutes NewsletterSpec Reference.

(** An upload downloaded 3 times whose file is gone: the request fails
    and the counter is 4 afterwards. *)
Lemma download_missing_file_counted_witness :
  exists l1 l2 u',
    [pdf ContactSpec.id1 "newsletter-1-2.pdf" 3]
    = l1 ++ pdf ContactSpec.id1 "newsletter-1-2.pdf" 3 :: l2
    /\ getDownload ContactSpec.id1 20
         [pdf ContactSpec.id1 "newsletter-1-2.pdf" 3] emptyDisk
       = (Fail 404 "File not found", l1 ++ u' :: l2)
    /\ findOne (uploadById ContactSpec.id1) (l1 ++ u' :: l2) = Some u'
    /\ Newsletter.downloadCount u' = (3 + 1)%Z.
Proof.
  exact (download_missing_file_counted (ids := objectIds) ContactSpec.id1 20
           [pdf ContactSpec.id1 "newsletter-1-2.pdf" 3] emptyDisk
           (pdf ContactSpec.id1 "newsletter-1-2.pdf" 3)
           eq_refl eq_refl eq_refl).
Defined.

End DownloadExample.

(* ================================================================== *)
(** ** Blog images: the upload filter *)
(* ================================================================== *)

Section ImageUpload.

Import JS Mongoose Http Blogs.

Context {pth : Multer.Path}.

(** C8.  An upload to a blog-image route of a file whose media type does
    not start with [image/] fails and leaves the disk as it was, whatever
    the field the file comes in; coming in the [image] field it fails with
    the error of the file filter, "Only image files are allowed!", the
    route answers with an error, and its handler does not run. *)
Theorem non_image_upload_rejected (f : Multer.file) (now rnd : Z) (d : Disk.t) :
  String.prefix "image/" (Multer.mimetype f) = false ->
  (exists e, Multer.single upload "image" (Some f) now rnd d = (inl e, d))
  /\ (Multer.fieldname f = "image" ->
      Multer.single upload "image" (Some f) now rnd d
      = (inl (Multer.FilterError "Only image files are allowed!"), d)
      /\ forall (A S : Type)
           (handler : option Multer.stored -> S -> response A * S) (s : S),
           Multer.route upload "image" handler (Some f) now rnd d s
           = (Fail 500 "Something went wrong!", d, s)).
Proof.
  intros Htype.
  assert (Hfilter : fileFilter f = Some "Only image files are allowed!")
    by (unfold fileFilter; now rewrite Htype).
  split.
  - unfold Multer.single.
    destruct (negb (String.eqb (Multer.fieldname f) "image")); [eauto |].
    cbn [Multer.fileFilter upload]. rewrite Hfilter. eauto.
  - intros Hfield.
    assert (Hsingle : Multer.single upload "image" (Some f) now rnd d
                      = (inl (Multer.FilterError "Only image files are allowed!"), d)).
    { unfold Multer.single. rewrite Hfield, String.eqb_refl. cbn [negb].
      cbn [Multer.fileFilter upload]. now rewrite Hfilter. }
    split; [exact Hsingle |].
    intros A S handler s. unfold Multer.route. now rewrite Hsingle.
Qed.

End ImageUpload.


Section ImageUploadExample.

Import JS Mongoose Http Blogs UploadSpec NewsletterSpec Reference.

(** A [text/plain] file sent to the blog-image route: the error of the
    filter, an untouched disk, and a handler that did not run. *)
Lemma non_image_upload_rejected_witness :
  Multer.single upload "image" (Some notes) 1700000000000 42 emptyDisk
  = (inl (Multer.FilterError "Only image files are allowed!"), emptyDisk)
  /\ Multer.route upload "image" ran (Some notes) 1700000000000 42 emptyDisk false
     = (Fail 500 "Something went wrong!", emptyDisk, false).
Proof.
  destruct (proj2 (non_image_upload_rejected (pth := path) notes
                     1700000000000 42 emptyDisk eq_refl) eq_refl)
    as [Hsingle Hroute].
  split; [exact Hsingle | exact (Hroute unit bool ran false)].
Defined.

End ImageUploadExample.

(* ================================================================== *)
(** ** Login: locked accounts *)
(* ================================================================== *)


Section Login.

Import JS Mongoose Http Auth AuthSpec.

Context {pol : User.Policy}.

Lemma hardcoded_other (username password : string) :
  username <> "admin" -> hardcoded username password = false.
Proof.
  intros Hne. unfold hardcoded.
  now destruct (String.eqb_spec username "admin").
Qed.

(** A locked account is refused before its secret is looked at. *)
Lemma login_locked (username password : string) (now : Z)
    (users : list User.t) (u : User.t) :
  hardcoded username password = false ->
  findOne (byUsername username) users = Some u ->
  User.isLocked now u = true ->
  login username password now users = (Fail 423 locked_message, users).
Proof.
  intros Hh Hfind Hlocked. unfold login. now rewrite Hh, Hfind, Hlocked.
Qed.

(** A failed attempt on an account that is not locked, placed in the
    store. *)
Lemma login_failed (username password : string) (now : Z)
    (l1 l2 : list User.t) (u : User.t) :
  hardcoded username password = false ->
  List.NoDup (map User._id (l1 ++ u :: l2)) ->
  Forall (fun x => byUsername username x = false) l1 ->
  byUsername username u = true ->
  User.isLocked now u = false ->
  User.comparePassword password u = false ->
  login username password now (l1 ++ u :: l2)
  = (Fail 401 "Invalid credentials", l1 ++ User.incLoginAttempts now u :: l2).
Proof.
  intros Hh Hnd Hl1 Hu Hunlocked Hwrong. unfold login.
  rewrite Hh, (findOne_middle _ l1 l2 u Hl1 Hu), Hunlocked, Hwrong.
  cbn [negb]. f_equal. apply updateOne_middle.
  - exact (key_unique User._id l1 l2 u Hnd).
  - unfold sameUser. apply String.eqb_refl.
Qed.


Lemma failed_zero (u : User.t) :
  User.loginAttempts u = 0%Z -> User.lockedAt u = None -> failed 0 u = u.
Proof.
  destruct u. simpl. intros -> ->. reflexivity.
Qed.

Lemma failed_once_more (n now : Z) (u : User.t) :
  (0 <= n < 4)%Z ->
  User.incLoginAttempts now (failed n u) = failed (n + 1) u.
Proof.
  intros Hn. unfold User.incLoginAttempts, failed. cbn.
  unfold User.maxLoginAttempts.
  destruct (Z.leb_spec 5 (n + 1)); [lia | reflexivity].
Qed.

Lemma failed_fifth (now : Z) (u : User.t) :
  User.incLoginAttempts now (failed 4 u) = User.withCounter 5 (Some now) u.
Proof. reflexivity. Qed.

(** One more failure on an account that has failed [n] times. *)
Lemma login_failed_step (username password : string) (now n : Z)
    (l1 l2 : list User.t) (u : User.t) :
  username <> "admin" ->
  List.NoDup (map User._id (l1 ++ u :: l2)) ->
  Forall (fun x => byUsername username x = false) l1 ->
  byUsername username u = true ->
  User.comparePassword password u = false ->
  login username password now (l1 ++ failed n u :: l2)
  = (Fail 401 "Invalid credentials",
     l1 ++ User.incLoginAttempts now (failed n u) :: l2).
Proof.
  intros Hne Hnd Hl1 Hu Hwrong.
  apply login_failed; auto using hardcoded_other.
  rewrite map_app in *. exact Hnd.
Qed.

(** C9.  A login attempt that is not the hard-coded pair, on a stored
    account that is locked at the time of the request, is answered 423
    whether or not the secret is right, and changes nothing.  Five failed
    logins in a row on an account with no failed attempt lock it at the
    time of the fifth; a sixth attempt, with the right secret, made before
    the lock duration has elapsed is answered 423 as well. *)
Theorem locked_account_refused (username : string) (users : list User.t)
    (u : User.t) :
  findOne (byUsername username) users = Some u ->
  (forall password now,
      hardcoded username password = false ->
      User.isLocked now u = true ->
      login username password now users = (Fail 423 locked_message, users))
  /\ (forall p1 p2 p3 p4 p5 secret t1 t2 t3 t4 t5 t6,
        username <> "admin" ->
        List.NoDup (map User._id users) ->
        User.loginAttempts u = 0%Z -> User.lockedAt u = None ->
        Forall (fun p => User.comparePassword p u = false) [p1; p2; p3; p4; p5] ->
        User.comparePassword secret u = true ->
        (t6 < t5 + User.lockDuration)%Z ->
        exists users' u',
          logins [(username, p1, t1); (username, p2, t2); (username, p3, t3);
                  (username, p4, t4); (username, p5, t5);
                  (username, secret, t6)] users
          = ([Fail 401 "Invalid credentials"; Fail 401 "Invalid credentials";
              Fail 401 "Invalid credentials"; Fail 401 "Invalid credentials";
              Fail 401 "Invalid credentials"; Fail 423 locked_message],
             users')
          /\ findOne (byUsername username) users' = Some u'
          /\ User.lockedAt u' = Some t5
          /\ User.isLocked t6 u' = true).
Proof.
  intros Hfind. split.
  - intros password now Hh Hlocked. now apply login_locked with (u := u).
  - intros p1 p2 p3 p4 p5 secret t1 t2 t3 t4 t5 t6
      Hne Hnd Hzero Hnone Hwrong Hright Hwindow.
    destruct (findOne_split _ _ _ Hfind) as (l1 & l2 & -> & Hl1 & Hu).
    repeat match goal with
           | Hf : Forall _ (_ :: _) |- _ => inversion_clear Hf
           end.
    assert (Hlocked : User.isLocked t6 (User.withCounter 5 (Some t5) u) = true).
    { unfold User.isLocked. cbn. now apply Z.ltb_lt. }
    assert (Hname : byUsername username (User.withCounter 5 (Some t5) u) = true)
      by exact Hu.
    exists (l1 ++ User.withCounter 5 (Some t5) u :: l2),
           (User.withCounter 5 (Some t5) u).
    split; [| split; [| split]].
    + rewrite <- (failed_zero u Hzero Hnone) at 1.
      cbn [logins].
      rewrite (login_failed_step username p1 t1 0 l1 l2 u) by assumption.
      rewrite (failed_once_more 0 t1 u) by lia.
      rewrite (login_failed_step username p2 t2 _ l1 l2 u) by assumption.
      rewrite (failed_once_more _ t2 u) by lia.
      rewrite (login_failed_step username p3 t3 _ l1 l2 u) by assumption.
      rewrite (failed_once_more _ t3 u) by lia.
      rewrite (login_failed_step username p4 t4 _ l1 l2 u) by assumption.
      rewrite (failed_once_more _ t4 u) by lia.
      change (0 + 1 + 1 + 1 + 1)%Z with 4%Z.
      rewrite (login_failed_step username p5 t5 4 l1 l2 u) by assumption.
      rewrite failed_fifth.
      rewrite (login_locked username secret t6 _ (User.withCounter 5 (Some t5) u)
                 (hardcoded_other _ _ Hne)
                 (findOne_middle _ l1 l2 _ Hl1 Hname) Hlocked).
      reflexivity.
    + now apply findOne_middle.
    + reflexivity.
    + exact Hlocked.
Qed.

End Login.

Section LoginExample.

Import JS Mongoose Http Auth AuthSpec Reference.

(** Five wrong secrets one second apart, then the right one a minute
    later, against a two-hour lock. *)
Lemma locked_account_refused_witness :
  exists users' u',
    logins [("ada", "guess1", 1000%Z); ("ada", "guess2", 2000%Z);
            ("ada", "guess3", 3000%Z); ("ada", "guess4", 4000%Z);
            ("ada", "guess5", 5000%Z); ("ada", "s3cret", 65000%Z)]
      [account "u1" "bob" "hunter2"; account "u2" "ada" "s3cret"]
    = ([Fail 401 "Invalid credentials"; Fail 401 "Invalid credentials";
        Fail 401 "Invalid credentials"; Fail 401 "Invalid credentials";
        Fail 401 "Invalid credentials"; Fail 423 locked_message],
       users')
    /\ findOne (byUsername "ada") users' = Some u'
    /\ User.lockedAt u' = Some 5000%Z
    /\ User.isLocked 65000 u' = true.
Proof.
  apply (proj2 (locked_account_refused (pol := policy) "ada"
                  [account "u1" "bob" "hunter2"; account "u2" "ada" "s3cret"]
                  (account "u2" "ada" "s3cret") eq_refl)
           "guess1" "guess2" "guess3" "guess4" "guess5" "s3cret"
           1000%Z 2000%Z 3000%Z 4000%Z 5000%Z 65000%Z).
  - discriminate.
  - repeat constructor; simpl; intuition discriminate.
  - reflexivity.
  - reflexivity.
  - repeat constructor.
  - reflexivity.
  - reflexivity.
Defined.

End LoginExample.

(* ================================================================== *)
(** * Properties of the other routes *)
(* ================================================================== *)

(** ** Deleting from a collection *)

Section Deleting.

Import Mongoose Documents.

Context {D : Type}.

Lemma deleteOne_middle (q : D -> bool) (l1 l2 : list D) (s : D) :
  Forall (fun x => q x = false) l1 -> q s = true ->
  deleteOne q (l1 ++ s :: l2) = l1 ++ l2.
Proof.
  induction 1 as [| x l Hx _ IH]; simpl; intros Hs.
  - now rewrite Hs.
  - rewrite Hx. now rewrite IH.
Qed.

Lemma findOne_none (q : D -> bool) (docs : list D) :
  Forall (fun x => q x = false) docs -> findOne q docs = None.
Proof.
  unfold findOne. induction 1 as [| x l Hx _ IH]; simpl; [reflexivity |].
  now rewrite Hx.
Qed.

(** With a primary key, no document keeps the key of a deleted one. *)
Lemma key_gone (key : D -> string) (l1 l2 : list D) (s : D) :
  List.NoDup (map key (l1 ++ s :: l2)) ->
  Forall (fun x => String.eqb (key x) (key s) = false) (l1 ++ l2).
Proof.
  rewrite map_app. simpl. intros Hnd.
  apply List.Forall_forall. intros x Hx.
  apply String.eqb_neq. intros Heq.
  apply NoDup_remove_2 in Hnd. apply Hnd.
  rewrite <- map_app, <- Heq. now apply in_map.
Qed.

(** Documents with another key are found as before. *)
Lemma findOne_skip (q : D -> bool) (l1 l2 : list D) (s : D) :
  q s = false -> findOne q (l1 ++ s :: l2) = findOne q (l1 ++ l2).
Proof.
  intros Hs. unfold findOne.
  induction l1 as [| x l IH]; simpl.
  - now rewrite Hs.
  - destruct (q x); [reflexivity | exact IH].
Qed.

Lemma findOne_replace (q : D -> bool) (l1 l2 : list D) (s s' : D) :
  q s = false -> q s' = false ->
  findOne q (l1 ++ s' :: l2) = findOne q (l1 ++ s :: l2).
Proof.
  intros Hs Hs'. now rewrite !findOne_skip.
Qed.

End Deleting.

(* ================================================================== *)
(** ** Testimonials: toggles and deletion *)
(* ================================================================== *)

Section TestimonialToggles.

Import JS Mongoose Http Documents TestimonialRoutes.

Context {ids : ObjectIds}.

Lemma toggleActive_at (id : string) (now : Z) (l1 l2 : list Testimonial.t)
    (t : Testimonial.t) :
  validId id = true ->
  Forall (fun x => byId id x = false) l1 -> byId id t = true ->
  valid t = true ->
  let saved := setFlags (Some (notOpt (Testimonial.active t)))
                 (Testimonial.featured t) now t in
  putToggleActive id now (l1 ++ t :: l2)
  = (Json 200 {| message :=
                   ("Testimonial "
                    ++ (if notOpt (Testimonial.active t)
                        then "activated" else "deactivated")
                    ++ " successfully")%string;
                 testimonial := saved |},
     l1 ++ saved :: l2).
Proof.
  intros Hid Hl1 Ht Hvalid saved. unfold putToggleActive.
  rewrite Hid, (findOne_middle _ l1 l2 t Hl1 Ht). cbn [negb].
  change (valid (setFlags (Some (notOpt (Testimonial.active t)))
                   (Testimonial.featured t) now t)) with (valid t).
  rewrite Hvalid. f_equal.
  apply (updateOne_middle (byId id) (fun _ => saved) l1 l2 t Hl1 Ht).
Qed.

Lemma toggleFeatured_at (id : string) (now : Z) (l1 l2 : list Testimonial.t)
    (t : Testimonial.t) :
  validId id = true ->
  Forall (fun x => byId id x = false) l1 -> byId id t = true ->
  valid t = true ->
  let saved := setFlags (Testimonial.active t)
                 (Some (notOpt (Testimonial.featured t))) now t in
  putToggleFeatured id now (l1 ++ t :: l2)
  = (Json 200 {| message :=
                   ("Testimonial "
                    ++ (if notOpt (Testimonial.featured t)
                        then "featured" else "unfeatured")
                    ++ " successfully")%string;
                 testimonial := saved |},
     l1 ++ saved :: l2).
Proof.
  intros Hid Hl1 Ht Hvalid saved. unfold putToggleFeatured.
  rewrite Hid, (findOne_middle _ l1 l2 t Hl1 Ht). cbn [negb].
  change (valid (setFlags (Testimonial.active t)
                   (Some (notOpt (Testimonial.featured t))) now t)) with (valid t).
  rewrite Hvalid. f_equal.
  apply (updateOne_middle (byId id) (fun _ => saved) l1 l2 t Hl1 Ht).
Qed.

(** X1.  Toggling [active] on a stored testimonial that passes its
    schema flips the flag and answers 200; toggling a second time puts
    the flag back, so that the stored record differs from the original by
    its [updatedAt] only.  The record is replaced in place and the other
    testimonials are untouched. *)
Theorem toggle_active_twice (id : string) (n1 n2 : Z)
    (docs : list Testimonial.t) (t : Testimonial.t) (b : bool) :
  validId id = true ->
  findOne (byId id) docs = Some t ->
  valid t = true ->
  Testimonial.active t = Some b ->
  exists l1 l2,
    docs = l1 ++ t :: l2
    /\ putToggleActive id n1 docs
       = (Json 200
            {| message := ("Testimonial "
                           ++ (if negb b then "activated" else "deactivated")
                           ++ " successfully")%string;
               testimonial := setFlags (Some (negb b)) (Testimonial.featured t) n1 t |},
          l1 ++ setFlags (Some (negb b)) (Testimonial.featured t) n1 t :: l2)
    /\ snd (putToggleActive id n2 (snd (putToggleActive id n1 docs)))
       = l1 ++ setFlags (Some b) (Testimonial.featured t) n2 t :: l2.
Proof.
  intros Hid Hfind Hvalid Hactive.
  destruct (findOne_split _ _ _ Hfind) as (l1 & l2 & -> & Hl1 & Ht).
  exists l1, l2. split; [reflexivity |].
  pose proof (toggleActive_at id n1 l1 l2 t Hid Hl1 Ht Hvalid) as H1.
  cbn zeta in H1. rewrite Hactive in H1. cbn [notOpt] in H1.
  split; [exact H1 |].
  rewrite H1. cbn [snd].
  rewrite (toggleActive_at id n2 l1 l2
             (setFlags (Some (negb b)) (Testimonial.featured t) n1 t)
             Hid Hl1 Ht Hvalid).
  cbn [snd setFlags Testimonial.active Testimonial.featured notOpt].
  now rewrite negb_involutive.
Qed.

(** X2.  The two toggles are independent: toggling [active] leaves
    [featured] as it was and the other way round, and toggling one then
    the other leaves the same store as toggling them in the other
    order. *)
Theorem toggles_commute (id : string) (n1 n2 : Z)
    (docs : list Testimonial.t) (t : Testimonial.t) :
  validId id = true ->
  findOne (byId id) docs = Some t ->
  valid t = true ->
  exists l1 l2,
    docs = l1 ++ t :: l2
    /\ snd (putToggleActive id n1 docs)
       = l1 ++ setFlags (Some (notOpt (Testimonial.active t)))
                 (Testimonial.featured t) n1 t :: l2
    /\ snd (putToggleFeatured id n1 docs)
       = l1 ++ setFlags (Testimonial.active t)
                 (Some (notOpt (Testimonial.featured t))) n1 t :: l2
    /\ snd (putToggleFeatured id n2 (snd (putToggleActive id n1 docs)))
       = snd (putToggleActive id n2 (snd (putToggleFeatured id n1 docs)))
    /\ snd (putToggleFeatured id n2 (snd (putToggleActive id n1 docs)))
       = l1 ++ setFlags (Some (notOpt (Testimonial.active t)))
                 (Some (notOpt (Testimonial.featured t))) n2 t :: l2.
Proof.
  intros Hid Hfind Hvalid.
  destruct (findOne_split _ _ _ Hfind) as (l1 & l2 & -> & Hl1 & Ht).
  exists l1, l2. split; [reflexivity |].
  rewrite (toggleActive_at id n1 l1 l2 t Hid Hl1 Ht Hvalid).
  rewrite (toggleFeatured_at id n1 l1 l2 t Hid Hl1 Ht Hvalid).
  cbn [snd].
  rewrite (toggleFeatured_at id n2 l1 l2
             (setFlags (Some (notOpt (Testimonial.active t)))
                (Testimonial.featured t) n1 t) Hid Hl1 Ht Hvalid).
  rewrite (toggleActive_at id n2 l1 l2
             (setFlags (Testimonial.active t)
                (Some (notOpt (Testimonial.featured t))) n1 t) Hid Hl1 Ht Hvalid).
  cbn [snd]. repeat split; reflexivity.
Qed.

(** X3.  Deleting a stored testimonial answers 200 and removes that
    record and no other; with identifiers that are unique, the same
    identifier, written with its digits in either case, is then answered
    404 by the read route, which answered it before, and by a second
    delete, and a parameter that reads as another identifier is answered
    as before.  Deleting an identifier that no stored testimonial carries
    answers 404 and changes nothing. *)
Theorem delete_testimonial (id : string) (docs : list Testimonial.t) :
  validId id = true ->
  (forall t,
      findOne (byId id) docs = Some t ->
      List.NoDup (map Testimonial._id docs) ->
      exists l1 l2,
        docs = l1 ++ t :: l2
        /\ Testimonial._id t = toLowerCase id
        /\ delete id docs = (Json 200 tt, l1 ++ l2)
        /\ delete id (l1 ++ l2) = (Fail 404 "Testimonial not found", l1 ++ l2)
        /\ (forall id',
              validId id' = true -> toLowerCase id' = toLowerCase id ->
              getById id' docs = Json 200 t
              /\ getById id' (l1 ++ l2) = Fail 404 "Testimonial not found")
        /\ forall id',
             toLowerCase id' <> toLowerCase id ->
             getById id' (l1 ++ l2) = getById id' docs)
  /\ (findOne (byId id) docs = None ->
      delete id docs = (Fail 404 "Testimonial not found", docs)).
Proof.
  intros Hid. split.
  - intros t Hfind Hnd.
    destruct (findOne_split _ _ _ Hfind) as (l1 & l2 & -> & Hl1 & Ht).
    assert (Hkey : Testimonial._id t = toLowerCase id)
      by (now apply String.eqb_eq).
    assert (Hgone : findOne (byId id) (l1 ++ l2) = None).
    { apply findOne_none. unfold byId. rewrite <- Hkey.
      exact (key_gone Testimonial._id l1 l2 t Hnd). }
    exists l1, l2. split; [reflexivity |]. split; [exact Hkey |].
    split; [| split; [| split]].
    + unfold delete. rewrite Hid, Hfind. cbn [negb]. f_equal.
      now apply deleteOne_middle.
    + unfold delete. now rewrite Hid, Hgone.
    + intros id' Hid' Hsame.
      assert (Hby : byId id' = byId id)
        by (unfold byId; now rewrite Hsame).
      unfold getById. now rewrite Hid', Hby, Hfind, Hgone.
    + intros id' Hne. unfold getById.
      rewrite (findOne_skip (byId id') l1 l2 t); [reflexivity |].
      unfold byId. rewrite Hkey. apply String.eqb_neq. congruence.
  - intros Hnone. unfold delete. now rewrite Hid, Hnone.
Qed.

End TestimonialToggles.

(* ================================================================== *)
(** ** Blog posts: counters, deletion, featured list *)
(* ================================================================== *)

Section BlogCounters.

Import JS Mongoose Http Documents BlogRoutes.

Context {ids : ObjectIds}.







End BlogCounters.

Section BlogDeletion.

Import JS Mongoose Http Documents BlogRoutes.

Context {ids : ObjectIds} {root : Fs.AppRoot}.

Lemma remove_files (p k : string) (d : Disk.t) :
  Disk.files (Fs.remove p d) !! k
  = if Fs.under p k then None else Disk.files d !! k.
Proof.
  unfold Fs.remove. cbn [Disk.files].
  destruct (Fs.under p k) eqn:Hu.
  - apply map_lookup_filter_None. right. intros x _. cbn. congruence.
  - destruct (Disk.files d !! k) as [x |] eqn:Hk.
    + apply map_lookup_filter_Some. split; [exact Hk | exact Hu].
    + apply map_lookup_filter_None. now left.
Qed.


End BlogDeletion.

Section FeaturedLists.

Import JS Mongoose Http Documents.

Context {tcoll : Collection Testimonial.t} {bcoll : Collection Blog.t}
        {cur : Cursor}.

(** X7.  The featured list of the blog is the first five, most recent
    first, of the posts that are featured and published: it never holds
    more than five posts, nor a post that is not featured or not
    published. *)
Theorem featured_blogs (docs : list Blog.t) :
  BlogRoutes.getFeatured docs
  = Json 200
      (firstn 5 (sortDocs "createdAt" Descending
                   (List.filter BlogRoutes.featuredAndPublished docs)))
  /\ forall bs,
       BlogRoutes.getFeatured docs = Json 200 bs ->
       (length bs <= 5)%nat
       /\ Forall (fun b => In b docs
                           /\ Blog.featured b = Some true
                           /\ Blog.status b = Some "published") bs.
Proof.
  assert (Hrun : BlogRoutes.getFeatured docs
                 = Json 200
                     (firstn 5 (sortDocs "createdAt" Descending
                                  (List.filter BlogRoutes.featuredAndPublished docs)))).
  { unfold BlogRoutes.getFeatured, find. rewrite sortKey_createdAt.
    now rewrite (window_page _ 0 5 _ ltac:(lia) ltac:(lia)). }
  split; [exact Hrun |].
  intros bs Hbs. rewrite Hrun in Hbs. injection Hbs as <-. split.
  - rewrite length_firstn. lia.
  - apply List.Forall_forall. intros x Hx.
    apply list_elem_of_In in Hx.
    eapply elem_of_sublist in Hx; [| apply sublist_take].
    apply list_elem_of_In in Hx.
    apply (Permutation_in _ (sortDocs_perm _ _ _)) in Hx.
    apply filter_In in Hx. destruct Hx as [Hin Hm].
    unfold BlogRoutes.featuredAndPublished in Hm.
    apply andb_prop in Hm. destruct Hm as [Hf Hs].
    split; [exact Hin |]. split.
    + destruct (Blog.featured x) as [[|] |]; simpl in Hf; congruence.
    + destruct (Blog.status x) as [s |]; simpl in Hs; [| discriminate].
      apply String.eqb_eq in Hs. now subst.
Qed.

(** X8.  The featured list of testimonials only holds testimonials that
    are both featured and active, whatever limit the caller gives; for a
    limit that reads as a safe integer [l >= 1] (5 when none is given) it
    is the first [l] of them, most recent first. *)
Theorem featured_testimonials (limit : param) (docs : list Testimonial.t) :
  (forall ts,
      TestimonialRoutes.getFeatured limit docs = Json 200 ts ->
      Forall (fun t => In t docs
                       /\ Testimonial.featured t = Some true
                       /\ Testimonial.active t = Some true) ts)
  /\ forall l,
       parseIntParam 5 limit = Some l -> (1 <= l)%Z ->
       isSafeInteger l = true ->
       TestimonialRoutes.getFeatured limit docs
       = Json 200
           (firstn (Z.to_nat l)
              (sortDocs "createdAt" Descending
                 (List.filter TestimonialRoutes.featuredAndActive docs))).
Proof.
  split.
  - intros ts. unfold TestimonialRoutes.getFeatured.
    destruct (find _ _ _ _ _ docs) as [r |] eqn:Hf; [| discriminate].
    intros [= <-]. apply find_sound in Hf.
    eapply List.Forall_impl; [| exact Hf].
    intros t [Hin Hm]. split; [exact Hin |].
    unfold TestimonialRoutes.featuredAndActive in Hm.
    apply andb_prop in Hm. destruct Hm as [Hfe Hac].
    destruct (Testimonial.featured t) as [[|] |],
             (Testimonial.active t) as [[|] |]; simpl in *; auto; discriminate.
  - intros l Hl Hl1 _. unfold TestimonialRoutes.getFeatured, find.
    rewrite Hl, sortKey_createdAt.
    now rewrite (window_page _ 0 l _ ltac:(lia) ltac:(lia)).
Qed.

End FeaturedLists.

(* ================================================================== *)
(** ** Contact submissions: creation, read flag, priority *)
(* ================================================================== *)

Section ContactCreate.

Import JS Mongoose Http Documents ContactRoutes.

Context {rt : Runtime}.

Lemma requiredString_nonempty (v : option string) (s : string) :
  requiredString v = Some s -> v = Some s /\ s <> "".
Proof.
  destruct v as [x |]; simpl; [| discriminate].
  destruct (String.eqb_spec x ""); [discriminate |].
  intros [= <-]. auto.
Qed.

(** X9.  A create request in which name, email, subject or message is
    missing or empty is answered 400 and stores nothing.  Every
    submission the route stores is appended to the collection, answered
    201, unread and not replied, with non-empty name, email, subject and
    message, and a priority that, when it has one, is low, medium or high;
    an email given as a string is stored trimmed and in lower case. *)
Theorem create_submission (b : body) (id : string) (now : Z)
    (docs : list ContactSubmission.t) :
  (truthy (name b) = false \/ truthy (email b) = false
   \/ truthy (subject b) = false \/ truthy (message b) = false ->
   exists text, post b id now docs = (Fail 400 text, docs))
  /\ forall st s docs',
       post b id now docs = (Json st s, docs') ->
       st = 201%nat /\ docs' = docs ++ [s]
       /\ ContactSubmission.read s = Some false
       /\ ContactSubmission.replied s = Some false
       /\ ContactSubmission.name s <> ""
       /\ ContactSubmission.email s <> ""
       /\ ContactSubmission.subject s <> ""
       /\ ContactSubmission.message s <> ""
       /\ (forall p, ContactSubmission.priority s = Some p -> In p priorities)
       /\ forall e, email b = JStr e ->
                    ContactSubmission.email s = toLowerCase (trim e).
Proof.
  split.
  - intros Hmiss. unfold post.
    assert (Hor : negb (truthy (name b)) || negb (truthy (email b))
                  || negb (truthy (subject b)) || negb (truthy (message b)) = true).
    { destruct Hmiss as [-> | [-> | [-> | ->]]]; cbn [negb];
        rewrite ?orb_true_r; reflexivity. }
    rewrite Hor. eauto.
  - intros st s docs'. unfold post.
    destruct (negb (truthy (name b)) || negb (truthy (email b))
              || negb (truthy (subject b)) || negb (truthy (message b)));
      [discriminate |].
    destruct (validate b id now) as [s' |] eqn:Hv; [| discriminate].
    intros [= <- <- <-]. split; [reflexivity |]. split; [reflexivity |].
    unfold validate in Hv.
    repeat match type of Hv with
           | (mbind _ ?x) = Some _ =>
               let E := fresh "E" in
               destruct x eqn:E; cbn [mbind option_bind] in Hv; [| discriminate]
           end.
    destruct (inEnum priorities _) eqn:Henum; [| discriminate].
    injection Hv as <-.
    cbn [ContactSubmission.read ContactSubmission.replied ContactSubmission.name
         ContactSubmission.email ContactSubmission.subject
         ContactSubmission.message ContactSubmission.priority].
    repeat match goal with
           | H : requiredString _ = Some _ |- _ =>
               apply requiredString_nonempty in H; destruct H
           end.
    repeat split; try assumption.
    + intros p Hp. rewrite Hp in Henum.
      cbn [inEnum] in Henum. apply existsb_exists in Henum.
      destruct Henum as (x & Hin & Heq). apply String.eqb_eq in Heq.
      now subst.
    + intros e He.
      match goal with
      | H : castString (email b) = Some _ |- _ => rewrite He in H; cbn in H;
                                                  injection H as <-
      end.
      match goal with
      | H : _ <$> Some e = Some _ |- _ => cbn in H; now injection H as <-
      end.
Qed.

End ContactCreate.

Section ContactFlags.

Import JS Mongoose Http Documents ContactRoutes.

Context {ids : ObjectIds}.

Lemma putRead_at (id : string) (v : value) (r : option bool) (now : Z)
    (l1 l2 : list ContactSubmission.t) (s : ContactSubmission.t) :
  validId id = true ->
  castBoolean (withDefault (JBool true) v) = Cast r ->
  Forall (fun x => ContactSubmissions.byId id x = false) l1 ->
  ContactSubmissions.byId id s = true ->
  putRead id v now (l1 ++ s :: l2)
  = (Json 200
       {| ContactSubmissions.message :=
            ("Submission marked as "
             ++ (if truthy (withDefault (JBool true) v) then "read" else "unread"))%string;
          ContactSubmissions.submission := setRead r now s |},
     l1 ++ setRead r now s :: l2).
Proof.
  intros Hid Hcast Hl1 Hs. unfold putRead.
  rewrite Hid, Hcast. unfold Cast.
  rewrite (findOne_middle _ l1 l2 s Hl1 Hs). f_equal.
  now apply updateOne_middle.
Qed.

(** X10.  The read route sets [read] to what the body says ([true] when
    it says nothing) and never touches [replied].  In particular, after a
    submission has been marked replied, which marks it read, a request
    with [read: false] stores it as replied and unread: the route does not
    keep "replied implies read". *)
Theorem replied_then_unread (id : string) (n1 n2 : Z)
    (docs : list ContactSubmission.t) (s : ContactSubmission.t) :
  validId id = true ->
  findOne (ContactSubmissions.byId id) docs = Some s ->
  exists l1 l2,
    docs = l1 ++ s :: l2
    /\ (forall v r,
          castBoolean (withDefault (JBool true) v) = Cast r ->
          exists text,
            putRead id v n1 docs
            = (Json 200 {| ContactSubmissions.message := text;
                           ContactSubmissions.submission := setRead r n1 s |},
               l1 ++ setRead r n1 s :: l2)
            /\ ContactSubmission.read (setRead r n1 s) = r
            /\ ContactSubmission.replied (setRead r n1 s)
               = ContactSubmission.replied s)
    /\ exists s',
         putRead id (JBool false) n2
           (snd (ContactSubmissions.putReplied id (JBool true) n1 docs))
         = (Json 200 {| ContactSubmissions.message := "Submission marked as unread";
                        ContactSubmissions.submission := s' |},
            l1 ++ s' :: l2)
         /\ ContactSubmission.replied s' = Some true
         /\ ContactSubmission.read s' = Some false.
Proof.
  intros Hid Hfind.
  destruct (findOne_split _ _ _ Hfind) as (l1 & l2 & -> & Hl1 & Hs).
  exists l1, l2. split; [reflexivity |]. split.
  - intros v r Hcast. eexists. split; [| split; reflexivity].
    now apply putRead_at.
  - assert (Hreplied :
        ContactSubmissions.putReplied id (JBool true) n1 (l1 ++ s :: l2)
        = (Json 200
             {| ContactSubmissions.message := "Submission marked as replied";
                ContactSubmissions.submission :=
                  ContactSubmissions.setReplied (Some true) n1 s |},
           l1 ++ ContactSubmissions.setReplied (Some true) n1 s :: l2)).
    { unfold ContactSubmissions.putReplied. rewrite Hid. cbn [withDefault castBoolean].
      unfold Cast. rewrite Hfind. f_equal. now apply updateOne_middle. }
    rewrite Hreplied. cbn [snd].
    exists (setRead (Some false) n2 (ContactSubmissions.setReplied (Some true) n1 s)).
    split; [| split; reflexivity].
    now apply (putRead_at id (JBool false) (Some false) n2 l1 l2
                 (ContactSubmissions.setReplied (Some true) n1 s)).
Qed.

Lemma listed_in (v : value) (p : string) :
  listed v = Some p <-> v = JStr p /\ In p priorities.
Proof.
  unfold listed. split.
  - destruct v as [| | | | s]; try discriminate.
    destruct (existsb (String.eqb s) priorities) eqn:He; [| discriminate].
    intros [= <-]. split; [reflexivity |].
    apply existsb_exists in He. destruct He as (x & Hin & Heq).
    apply String.eqb_eq in Heq. now subst.
  - intros [-> Hin].
    assert (He : existsb (String.eqb p) priorities = true).
    { apply existsb_exists. exists p. split; [exact Hin | apply String.eqb_refl]. }
    now rewrite He.
Qed.

(** X11.  The priority route accepts exactly the three strings low,
    medium and high: any other value is answered 400 and changes nothing;
    an accepted priority on a stored submission is stored, and the
    submission's [read] and [replied] stay as they were. *)
Theorem set_priority (id : string) (v : value) (now : Z)
    (docs : list ContactSubmission.t) :
  ((forall p, v = JStr p -> ~ In p priorities) ->
   putPriority id v now docs
   = (Fail 400 "Priority must be low, medium, or high", docs))
  /\ (forall st s docs',
        putPriority id v now docs = (Json st s, docs') ->
        exists p, v = JStr p /\ In p priorities
                  /\ ContactSubmission.priority s = Some p)
  /\ forall p s,
       v = JStr p -> In p priorities ->
       validId id = true ->
       findOne (ContactSubmissions.byId id) docs = Some s ->
       exists l1 l2,
         docs = l1 ++ s :: l2
         /\ putPriority id v now docs
            = (Json 200 (setPriority p now s), l1 ++ setPriority p now s :: l2)
         /\ ContactSubmission.read (setPriority p now s) = ContactSubmission.read s
         /\ ContactSubmission.replied (setPriority p now s)
            = ContactSubmission.replied s.
Proof.
  split; [| split].
  - intros Hnot. unfold putPriority.
    destruct (listed v) as [p |] eqn:Hl; [| reflexivity].
    apply listed_in in Hl. destruct Hl as [-> Hin].
    now destruct (Hnot p eq_refl).
  - intros st s docs'. unfold putPriority.
    destruct (listed v) as [p |] eqn:Hl; [| discriminate].
    apply listed_in in Hl. destruct Hl as [-> Hin].
    destruct (negb (validId id)); [discriminate |].
    destruct (findOne _ docs); [| discriminate].
    intros [= <- <- <-]. exists p. auto.
  - intros p s -> Hin Hid Hfind.
    destruct (findOne_split _ _ _ Hfind) as (l1 & l2 & -> & Hl1 & Hs).
    exists l1, l2. split; [reflexivity |].
    split; [| split; reflexivity].
    unfold putPriority.
    rewrite (proj2 (listed_in (JStr p) p) (conj eq_refl Hin)), Hid, Hfind.
    cbn [negb]. f_equal. now apply updateOne_middle.
Qed.

End ContactFlags.

(* ================================================================== *)
(** ** Newsletter: subscribers, sending, uploads *)
(* ================================================================== *)

Section Unsubscribe.

Import JS Mongoose Http Documents NewsletterRoutes NewsletterAdmin.

Context {ids : ObjectIds} {rt : Runtime}.

(** X12.  Unsubscribing a stored subscriber answers 200 and stores it
    unsubscribed, stamped with the time of the request.  Subscribing its
    email again afterwards succeeds, clears the stamp, and leaves the
    subscriber stored as subscribed at the same place of the collection,
    with the email, the name and the preferences it had. *)
Theorem unsubscribe_then_subscribe (b : subscribeBody) (e fresh : string)
    (n1 n2 : Z) (docs : list Newsletter.subscriber) (s : Newsletter.subscriber) :
  email b = JStr e -> e <> "" ->
  findOne (byEmail (email b)) docs = Some s ->
  List.NoDup (map Newsletter._id docs) ->
  validId (Newsletter._id s) = true ->
  exists l1 l2,
    docs = l1 ++ s :: l2
    /\ putUnsubscribe (Newsletter._id s) n1 docs
       = (Json 200 (unsubscribe n1 s), l1 ++ unsubscribe n1 s :: l2)
    /\ Newsletter.unsubscribed (unsubscribe n1 s) = Some true
    /\ Newsletter.unsubscribedAt (unsubscribe n1 s) = Some n1
    /\ postSubscribers b fresh n2
         (snd (putUnsubscribe (Newsletter._id s) n1 docs))
       = (Json 200 (resubscribe n2 s), l1 ++ resubscribe n2 s :: l2)
    /\ Newsletter.unsubscribed (resubscribe n2 s) = Some false
    /\ Newsletter.unsubscribedAt (resubscribe n2 s) = None.
Proof.
  intros He Hne Hfind Hnd Hid.
  destruct (findOne_split _ _ _ Hfind) as (l1 & l2 & -> & Hl1 & Hs).
  pose proof (key_unique Newsletter._id l1 l2 s Hnd) as Hkeys.
  assert (Hself : subscriberById (Newsletter._id s) s = true)
    by apply String.eqb_refl.
  assert (Hun : putUnsubscribe (Newsletter._id s) n1 (l1 ++ s :: l2)
                = (Json 200 (unsubscribe n1 s), l1 ++ unsubscribe n1 s :: l2)).
  { unfold putUnsubscribe.
    rewrite Hid,
      (findOne_middle (subscriberById (Newsletter._id s)) l1 l2 s Hkeys Hself).
    cbn [negb]. f_equal.
    exact (updateOne_middle (subscriberById (Newsletter._id s))
             (unsubscribe n1) l1 l2 s Hkeys Hself). }
  exists l1, l2. split; [reflexivity |]. split; [exact Hun |].
  split; [reflexivity |]. split; [reflexivity |].
  split; [| split; reflexivity].
  rewrite Hun. cbn [snd]. unfold postSubscribers.
  assert (Htruthy : truthy (email b) = true).
  { rewrite He. simpl. now destruct (String.eqb_spec e ""). }
  rewrite Htruthy.
  rewrite (findOne_middle (byEmail (email b)) l1 l2 (unsubscribe n1 s) Hl1 Hs).
  cbn [negb unsubscribe Newsletter.unsubscribed from_option truthy].
  f_equal.
  apply (updateOne_middle (sameId (unsubscribe n1 s))
           (fun _ => resubscribe n2 (unsubscribe n1 s)) l1 l2 (unsubscribe n1 s)).
  - exact Hkeys.
  - apply String.eqb_refl.
Qed.

End Unsubscribe.

Section Sending.

Import JS Mongoose Http Documents NewsletterAdmin.

Context {ids : ObjectIds}.

(** X13.  The send route never succeeds and never stores a campaign:
    every request is answered 400 or 500 and leaves the campaigns as they
    were.  A request with a subject, a content and at least one recipient
    reaches the construction of the campaign, which reads the undeclared
    name [sentTo], and is answered 500; so is, for instance, every request
    to send to all when some subscriber is subscribed. *)
Theorem send_never_succeeds (b : sendBody)
    (docs : list Newsletter.subscriber) (campaigns : list campaign) :
  (exists st text,
      postSend b docs campaigns = (Fail st text, campaigns)
      /\ (st = 400%nat \/ st = 500%nat))
  /\ (forall r x,
        truthy (subject b) = true -> truthy (content b) = true ->
        recipientsOf b docs = Some (x :: r) ->
        postSend b docs campaigns = (Fail 500 "Failed to send newsletter", campaigns))
  /\ (forall s,
        truthy (subject b) = true -> truthy (content b) = true ->
        sendTo b = JStr "all" ->
        In s docs -> Newsletter.unsubscribed s = Some false ->
        postSend b docs campaigns = (Fail 500 "Failed to send newsletter", campaigns)).
Proof.
  assert (Hsome : forall r x,
             truthy (subject b) = true -> truthy (content b) = true ->
             recipientsOf b docs = Some (x :: r) ->
             postSend b docs campaigns
             = (Fail 500 "Failed to send newsletter", campaigns)).
  { intros r x Hs Hc Hr. unfold postSend. now rewrite Hs, Hc, Hr. }
  split; [| split; [exact Hsome |]].
  - unfold postSend.
    destruct (negb (truthy (subject b)) || negb (truthy (content b))); [eauto |].
    destruct (recipientsOf b docs) as [r |]; [| eauto].
    destruct (length r =? 0)%nat; eauto.
  - intros s Hs Hc Hall Hin Hsub.
    assert (Hmem : In s (List.filter (isUnsubscribed false) docs)).
    { apply filter_In. split; [exact Hin |].
      unfold isUnsubscribed. now rewrite Hsub. }
    destruct (List.filter (isUnsubscribed false) docs) as [| x r] eqn:Hf;
      [destruct Hmem |].
    apply (Hsome r x Hs Hc). unfold recipientsOf. now rewrite Hall, <- Hf.
Qed.

End Sending.

Section Uploads.

Import JS Mongoose Http Documents NewsletterRoutes NewsletterAdmin.

Context {ids : ObjectIds} {rt : Runtime} {dates : Dates} {pth : Multer.Path}.

Lemma single_stores (o : Multer.options) (field : string) (f : Multer.file)
    (now rnd : Z) (d : Disk.t) :
  Multer.fieldname f = field ->
  Multer.fileFilter o f = None ->
  (Multer.size f < Multer.fileSize o)%Z ->
  let name := (Multer.prefix o ++ Multer.uniqueSuffix now rnd
               ++ Multer.extname (Multer.originalname f))%string in
  let p := (Multer.destination o ++ "/" ++ name)%string in
  Multer.single o field (Some f) now rnd d
  = (inr (Some {| Multer.filename := name; Multer.path := p;
                  Multer.stored_originalname := Multer.originalname f;
                  Multer.stored_size := Multer.size f |}),
     Disk.writeFile p (Multer.content f)
       (Disk.ensureDirSync (Multer.destination o) d)).
Proof.
  intros Hfield Hfilter Hsize name p. unfold Multer.single.
  rewrite Hfield, String.eqb_refl, Hfilter. cbn [negb].
  destruct (Z.leb_spec (Multer.fileSize o) (Multer.size f)); [lia |].
  reflexivity.
Qed.

(** X14.  A PDF smaller than the limit of 50 MiB, sent to the upload
    route, is written to the disk before the route looks at the rest of
    the request: when the name, the category or the date is missing the
    request is answered 400 and no record is stored, yet the file is on
    the disk afterwards, under [uploads/newsletters], with the content
    that was sent. *)
Theorem upload_missing_fields_keeps_file (b : uploadBody) (f : Multer.file)
    (id : string) (now rnd : Z) (d : Disk.t) (docs : list Newsletter.upload) :
  Multer.fieldname f = "pdf" ->
  Multer.mimetype f = "application/pdf" ->
  (Multer.size f < 50 * 1024 * 1024)%Z ->
  truthy (name b) = false \/ truthy (category b) = false
  \/ truthy (date b) = false ->
  let p := ("uploads/newsletters/newsletter-" ++ Multer.uniqueSuffix now rnd
            ++ Multer.extname (Multer.originalname f))%string in
  exists d',
    postUpload b (Some f) id now rnd d docs
    = (Fail 400 "Name, category, and date are required", d', docs)
    /\ Disk.files d' !! p = Some (Multer.content f)
    /\ Disk.pathExists p d' = true.
Proof.
  intros Hfield Htype Hsize Hmiss p.
  assert (Hfilter : Multer.fileFilter upload f = None).
  { cbn [Multer.fileFilter upload]. unfold fileFilter. now rewrite Htype. }
  pose proof (single_stores upload "pdf" f now rnd d Hfield Hfilter Hsize) as Hs.
  cbn zeta in Hs. cbn [Multer.prefix Multer.destination upload] in Hs.
  eexists. split; [| split].
  - unfold postUpload, Multer.route. rewrite Hs. cbn [uploadHandler].
    assert (Hor : negb (truthy (name b)) || negb (truthy (category b))
                  || negb (truthy (date b)) = true).
    { destruct Hmiss as [-> | [-> | ->]]; cbn [negb];
        rewrite ?orb_true_r; reflexivity. }
    rewrite Hor. reflexivity.
  - unfold Disk.writeFile. cbn [Disk.files]. apply lookup_insert_eq.
  - unfold Disk.pathExists, Disk.writeFile. cbn [Disk.files].
    rewrite lookup_insert_eq. reflexivity.
Qed.

(** X15.  The upload route only accepts the media type
    [application/pdf], written exactly so: a file of any other type is
    refused with "Only PDF files are allowed!", nothing is written, and
    the handler does not run. *)
Theorem non_pdf_upload_rejected (b : uploadBody) (f : Multer.file)
    (id : string) (now rnd : Z) (d : Disk.t) (docs : list Newsletter.upload) :
  Multer.fieldname f = "pdf" ->
  Multer.mimetype f <> "application/pdf" ->
  Multer.single upload "pdf" (Some f) now rnd d
  = (inl (Multer.FilterError "Only PDF files are allowed!"), d)
  /\ postUpload b (Some f) id now rnd d docs
     = (Fail 500 "Something went wrong!", d, docs).
Proof.
  intros Hfield Htype.
  assert (Hs : Multer.single upload "pdf" (Some f) now rnd d
               = (inl (Multer.FilterError "Only PDF files are allowed!"), d)).
  { unfold Multer.single. rewrite Hfield, String.eqb_refl. cbn [negb].
    cbn [Multer.fileFilter upload]. unfold fileFilter.
    now destruct (String.eqb_spec (Multer.mimetype f) "application/pdf"). }
  split; [exact Hs |].
  unfold postUpload, Multer.route. now rewrite Hs.
Qed.

(** X16.  Deleting a stored upload answers 200, removes the record and
    removes its file when the file is there (a missing file is no error
    and leaves the disk as it was); with unique identifiers a download of
    the same identifier is then answered 404 "Newsletter not found" and
    counts nothing. *)
Theorem delete_upload (id : string) (now : Z)
    (docs : list Newsletter.upload) (d : Disk.t) (u : Newsletter.upload) :
  validId id = true ->
  findOne (uploadById id) docs = Some u ->
  List.NoDup (map Newsletter.u_id docs) ->
  let p := ("uploads/newsletters/" ++ Newsletter.filename u)%string in
  exists l1 l2 d',
    docs = l1 ++ u :: l2
    /\ deleteUpload id docs d = (Json 200 tt, l1 ++ l2, d')
    /\ (Disk.pathExists p d = false -> d' = d)
    /\ (Disk.pathExists p d = true ->
        Disk.files d' !! p = None
        /\ forall k, Fs.under p k = false ->
                     Disk.files d' !! k = Disk.files d !! k)
    /\ getDownload id now (l1 ++ l2) d'
       = (Fail 404 "Newsletter not found", l1 ++ l2).
Proof.
  intros Hid Hfind Hnd p.
  destruct (findOne_split _ _ _ Hfind) as (l1 & l2 & -> & Hl1 & Hu).
  assert (Hkey : Newsletter.u_id u = id) by now apply String.eqb_eq.
  exists l1, l2. eexists. split; [reflexivity |].
  split; [| split; [| split]].
  - unfold deleteUpload. rewrite Hid, Hfind. cbn [negb].
    rewrite (deleteOne_middle _ l1 l2 u Hl1 Hu). reflexivity.
  - fold p. now intros ->.
  - fold p. intros ->. split.
    + rewrite remove_files. unfold Fs.under. now rewrite String.eqb_refl.
    + intros k Hk. rewrite remove_files. now rewrite Hk.
  - unfold getDownload. rewrite Hid. cbn [negb].
    rewrite findOne_none; [reflexivity |].
    subst id. exact (key_gone Newsletter.u_id l1 l2 u Hnd).
Qed.

End Uploads.

(* ================================================================== *)
(** ** Blog images: what an accepted upload leaves on the disk *)
(* ================================================================== *)

Section ImageStored.

Import JS Mongoose Http Blogs.

Context {pth : Multer.Path}.

(** X17.  An image sent in the [image] field and smaller than the limit
    of 10 MiB is stored under [uploads/blog-images] as
    [blog-<time>-<random><ext>] with the content that was sent; the
    directory exists afterwards and no other file is touched.  An image
    that reaches the limit, one of exactly 10 MiB included, is refused
    with the size error and leaves the files as they were. *)
Theorem image_upload_stored (f : Multer.file) (now rnd : Z) (d : Disk.t) :
  Multer.fieldname f = "image" ->
  String.prefix "image/" (Multer.mimetype f) = true ->
  let name := ("blog-" ++ Multer.uniqueSuffix now rnd
               ++ Multer.extname (Multer.originalname f))%string in
  let p := ("uploads/blog-images/" ++ name)%string in
  ((Multer.size f < 10 * 1024 * 1024)%Z ->
   exists d',
     Multer.single upload "image" (Some f) now rnd d
     = (inr (Some {| Multer.filename := name; Multer.path := p;
                     Multer.stored_originalname := Multer.originalname f;
                     Multer.stored_size := Multer.size f |}), d')
     /\ Disk.files d' !! p = Some (Multer.content f)
     /\ "uploads/blog-images" ∈ Disk.dirs d'
     /\ forall k, k <> p -> Disk.files d' !! k = Disk.files d !! k)
  /\ ((10 * 1024 * 1024 <= Multer.size f)%Z ->
      exists d',
        Multer.single upload "image" (Some f) now rnd d = (inl Multer.LimitFileSize, d')
        /\ Disk.files d' = Disk.files d).
Proof.
  intros Hfield Htype name p.
  assert (Hfilter : Multer.fileFilter upload f = None).
  { cbn [Multer.fileFilter upload]. unfold fileFilter. now rewrite Htype. }
  split.
  - intros Hsize. eexists. split; [| split; [| split]].
    + exact (single_stores upload "image" f now rnd d Hfield Hfilter Hsize).
    + cbn [Disk.writeFile Disk.files]. apply lookup_insert_eq.
    + cbn [Disk.writeFile Disk.ensureDirSync Disk.dirs Multer.destination upload].
      set_solver.
    + intros k Hk. cbn [Disk.writeFile Disk.ensureDirSync Disk.files].
      apply lookup_insert_ne. intros Heq. apply Hk. now rewrite <- Heq.
  - intros Hsize. exists (Disk.ensureDirSync "uploads/blog-images" d).
    split; [| reflexivity].
    unfold Multer.single. rewrite Hfield, String.eqb_refl, Hfilter. cbn [negb].
    cbn [Multer.fileSize upload].
    destruct (Z.leb_spec (10 * 1024 * 1024) (Multer.size f)); [reflexivity | lia].
Qed.

End ImageStored.

(* ================================================================== *)
(** ** Blog listing: the pages together *)
(* ================================================================== *)

Section Pages.

Import JS Mongoose Http Blogs BlogPages.

Context {txt : TextIndex Blog.t} {coll : Collection Blog.t} {cur : Cursor}.

Lemma chunks_concat {A : Type} (l n : nat) (m : list A) :
  (0 < l)%nat -> (length m <= n * l)%nat ->
  concat (map (fun i => firstn l (skipn (i * l) m)) (seq 0 n)) = m.
Proof.
  intros Hl. revert m. induction n as [| n IH]; intros m Hm.
  - destruct m; [reflexivity | simpl in Hm; lia].
  - cbn [seq map concat]. rewrite <- seq_shift, map_map.
    cbn [Nat.mul Nat.add skipn].
    rewrite (map_ext _ (fun i => firstn l (skipn (i * l) (skipn l m)))).
    + rewrite IH; [apply firstn_skipn |].
      rewrite length_skipn. lia.
    + intros i. rewrite skipn_skipn. do 2 f_equal. lia.
Qed.

Lemma get_page (q : listQuery) (s : string) (i : nat) (l : Z) (docs : list Blog.t) :
  sortKey (default "createdAt" (sortBy q)) = true ->
  parseIntParam 10 (limit q) = Some l -> (1 <= l)%Z ->
  parseInt s = Some (Z.of_nat (S i)) ->
  blogsOf (get (withPage q s) docs)
  = firstn (Z.to_nat l) (skipn (i * Z.to_nat l) (matching q docs)).
Proof.
  intros Hkey Hl Hl1 Hs. unfold get.
  cbn [withPage page limit sortBy sortOrder parseIntParam].
  rewrite Hs, Hl.
  rewrite (find_page _ _ _ (Z.of_nat (S i)) l docs Hkey ltac:(lia) Hl1).
  cbn [blogsOf blogs]. unfold matching. do 2 f_equal. nia.
Qed.

Lemma pages_from (q : listQuery) (l : Z) (docs : list Blog.t)
    (pages : list string) (a n : nat) :
  sortKey (default "createdAt" (sortBy q)) = true ->
  parseIntParam 10 (limit q) = Some l -> (1 <= l)%Z ->
  map parseInt pages = map (fun i => Some (Z.of_nat (S i))) (seq a n) ->
  map (fun s => blogsOf (get (withPage q s) docs)) pages
  = map (fun i => firstn (Z.to_nat l) (skipn (i * Z.to_nat l) (matching q docs)))
        (seq a n).
Proof.
  intros Hkey Hl Hl1. revert a n.
  induction pages as [| s pages IH]; intros a [| n]; simpl; try discriminate;
    [reflexivity |].
  intros [= Hs Hrest]. f_equal.
  - now apply get_page.
  - now apply IH.
Qed.

(** X18.  When the store accepts the sort field of the request, for a
    limit [l >= 1] and a collection of fewer than [2^53] posts, the pages
    1 to [totalPages] of a blog listing, one after the other, are exactly
    the matching posts in the order asked for, each once; a page after the
    last one is empty.  (The products of a page number and the limit are
    safe integers.) *)
Theorem pages_cover (q : listQuery) (l : Z) (docs : list Blog.t)
    (pages : list string) (n : nat) :
  sortKey (default "createdAt" (sortBy q)) = true ->
  parseIntParam 10 (limit q) = Some l -> (1 <= l)%Z ->
  isSafeInteger (Z.of_nat (length docs)) = true ->
  isSafeInteger (Z.of_nat n * l) = true ->
  ceilDiv (Z.of_nat (length (matching q docs))) l = Some (Z.of_nat n) ->
  map parseInt pages = map (fun i => Some (Z.of_nat (S i))) (seq 0 n) ->
  concat (map (fun s => blogsOf (get (withPage q s) docs)) pages)
  = matching q docs
  /\ forall s i, parseInt s = Some (Z.of_nat (S i)) -> (n <= i)%nat ->
                 isSafeInteger (Z.of_nat (S i) * l) = true ->
                 blogsOf (get (withPage q s) docs) = [].
Proof.
  intros Hkey Hl Hl1 _ _ Hceil Hpages.
  destruct (ceilDiv_ceiling (Z.of_nat (length (matching q docs))) l Hl1)
    as (tp & Htp & Hbounds).
  rewrite Hceil in Htp. injection Htp as <-.
  assert (Hfit : (length (matching q docs) <= n * Z.to_nat l)%nat) by nia.
  split.
  - rewrite (pages_from q l docs pages 0 n Hkey Hl Hl1 Hpages).
    apply chunks_concat; [lia | exact Hfit].
  - intros s i Hs Hi _. rewrite (get_page q s i l docs Hkey Hl Hl1 Hs).
    rewrite skipn_all2; [now destruct (Z.to_nat l) | nia].
Qed.

End Pages.

(* ================================================================== *)
(** ** Tokens: from login to verification *)
(* ================================================================== *)

Section Tokens.

Import JS Mongoose Http Auth AuthVerify.

Context {pol : User.Policy} {codec : Jwt} {ids : ObjectIds}.

Lemma replace_bearer (x : string) :
  replace "Bearer " "" ("Bearer " ++ x)%string = x.
Proof. reflexivity. Qed.

Lemma splitSpaces_word (s : string) (word : string -> string) :
  noSpace s = true -> splitSpaces s word = [word s].
Proof.
  revert word. induction s as [| c s IH]; intros word; simpl; [reflexivity |].
  destruct (Ascii.eqb c " "); [discriminate |].
  simpl. intros Hs. now rewrite IH.
Qed.

(** X19.  A stored account that is not locked logs in with its secret
    and gets a token that carries its identifier, name and role and
    expires 24 hours later.  Sent back as [Bearer <token>] before that
    time, the token is verified and the answer describes the account as it
    is stored then, provided it is still stored and active; from the
    expiry on it is answered 401 "Invalid token". *)
Theorem login_then_verify (username password : string) (now : Z)
    (users : list User.t) (u : User.t) :
  username <> "admin" ->
  findOne (byUsername username) users = Some u ->
  User.isLocked now u = false ->
  User.comparePassword password u = true ->
  let t := sign (User._id u) (User.username u) (User.role u) now in
  (exists users' p,
      login username password now users
      = (Json 200 {| session_token := t; user := p |}, users'))
  /\ exp t = (now / 1000 + 24 * 3600)%Z
  /\ (decode (encode t) = Some t -> encode t <> "" ->
      forall later users' u',
        (later / 1000 < now / 1000 + 24 * 3600)%Z ->
        validId (User._id u) = true ->
        findOne (userById (User._id u)) users' = Some u' ->
        User.active u' = true ->
        verify (Some ("Bearer " ++ encode t)%string) later users'
        = Json 200 (Account {| id := User._id u';
                               username := User.username u';
                               email := Some (User.email u');
                               role := User.role u';
                               profile := User.profile u' |}))
  /\ (decode (encode t) = Some t -> encode t <> "" ->
      forall later users',
        (now / 1000 + 24 * 3600 <= later / 1000)%Z ->
        verify (Some ("Bearer " ++ encode t)%string) later users'
        = Fail 401 "Invalid token").
Proof.
  intros Hne Hfind Hunlocked Hright t.
  assert (Hname : User.username u = username).
  { destruct (findOne_split _ _ _ Hfind) as (_ & _ & _ & _ & Hu).
    now apply String.eqb_eq. }
  split; [| split; [reflexivity | split]].
  - unfold login.
    rewrite (hardcoded_other username password Hne), Hfind, Hunlocked, Hright.
    cbn [negb]. eauto.
  - intros Hcodec Hnonempty later users' u' Hfresh Hid Hfound Hactive.
    unfold verify. cbn [fmap option_fmap option_map]. rewrite replace_bearer.
    destruct (String.eqb_spec (encode t) ""); [contradiction |].
    unfold jwtVerify. rewrite Hcodec. cbn [mbind option_bind].
    change (exp t) with (now / 1000 + 24 * 3600)%Z.
    destruct (Z.leb_spec (now / 1000 + 24 * 3600) (later / 1000)); [lia |].
    change (t_username t) with (User.username u). rewrite Hname.
    destruct (String.eqb_spec username "admin"); [contradiction |].
    change (t_id t) with (User._id u).
    now rewrite Hid, Hfound, Hactive.
  - intros Hcodec Hnonempty later users' Hlate.
    unfold verify. cbn [fmap option_fmap option_map]. rewrite replace_bearer.
    destruct (String.eqb_spec (encode t) ""); [contradiction |].
    unfold jwtVerify. rewrite Hcodec. cbn [mbind option_bind].
    change (exp t) with (now / 1000 + 24 * 3600)%Z.
    destruct (Z.leb_spec (now / 1000 + 24 * 3600) (later / 1000));
      [reflexivity | lia].
Qed.

(** X20.  A genuine, unexpired token whose [username] claim is [admin]
    is verified from its claims alone: the answer is the claims, whatever
    accounts are stored, so also when no account with that identifier is
    stored or when it is inactive.  Without an [Authorization] header the
    answer is 401 "No token provided". *)
Theorem verify_admin_claims (bearer : string) (t : Auth.token) (now : Z)
    (users : list User.t) :
  bearer <> "" ->
  decode bearer = Some t ->
  (now / 1000 < exp t)%Z ->
  t_username t = "admin" ->
  verify (Some ("Bearer " ++ bearer)%string) now users = Json 200 (Claims t)
  /\ verify (Some ("Bearer " ++ bearer)%string) now [] = Json 200 (Claims t)
  /\ verify None now users = Fail 401 "No token provided".
Proof.
  intros Hne Hdec Hfresh Hadmin.
  assert (Hany : forall us,
             verify (Some ("Bearer " ++ bearer)%string) now us = Json 200 (Claims t)).
  { intros us. unfold verify. cbn [fmap option_fmap option_map].
    rewrite replace_bearer.
    destruct (String.eqb_spec bearer ""); [contradiction |].
    unfold jwtVerify. rewrite Hdec. cbn [mbind option_bind].
    destruct (Z.leb_spec (exp t) (now / 1000)); [lia |].
    now rewrite Hadmin. }
  split; [apply Hany | split; [apply Hany | reflexivity]].
Qed.

(** X21.  The middleware that protects routes reads the second word of
    the [Authorization] header.  For a header [Bearer <token>], with a
    token that is not empty and holds no space, the request goes on
    exactly when the token is genuine and has not expired, with the claims
    handed on, and is answered 403 otherwise.  A request with no header,
    or with a header of one word, is answered 401. *)
Theorem middleware_accepts (bearer : string) (now : Z) :
  bearer <> "" -> noSpace bearer = true ->
  authenticateToken (Some ("Bearer " ++ bearer)%string) now
  = match jwtVerify bearer now with
    | Some decoded => inr decoded
    | None => inl (Fail 403 "Invalid or expired token")
    end
  /\ authenticateToken None now = inl (Fail 401 "Access token required")
  /\ authenticateToken (Some bearer) now = inl (Fail 401 "Access token required").
Proof.
  intros Hne Hwords. split; [| split].
  - unfold authenticateToken.
    change (("Bearer " ++ bearer)%string =? "")%string with false.
    cbv iota.
    change (splitSpaces ("Bearer " ++ bearer)%string (fun w => w))
      with ("Bearer" :: splitSpaces bearer (fun w => w)).
    rewrite (splitSpaces_word bearer (fun w => w) Hwords). cbn [nth_error].
    now destruct (String.eqb_spec bearer "").
  - reflexivity.
  - unfold authenticateToken.
    destruct (String.eqb_spec bearer ""); [contradiction |].
    now rewrite (splitSpaces_word bearer (fun w => w) Hwords).
Qed.

End Tokens.

(* ================================================================== *)
(** ** Testimonials: the statistics *)
(* ================================================================== *)

Section Statistics.

Import JS Mongoose Http Documents TestimonialRoutes.

Context {fmt : Formatting}.

Lemma filter_length_le {A : Type} (p q : A -> bool) (l : list A) :
  (forall x, p x = true -> q x = true) ->
  (length (List.filter p l) <= length (List.filter q l))%nat.
Proof.
  intros Hpq. induction l as [| x l IH]; simpl; [lia |].
  destruct (p x) eqn:Hp.
  - rewrite (Hpq x Hp). simpl. lia.
  - destruct (q x); simpl; lia.
Qed.

Lemma countIn_counts (r : Q) (groups : list (Q * Z)) :
  countsOf (countIn r groups) = (countsOf groups + 1)%Z.
Proof.
  induction groups as [| [k c] rest IH]; [reflexivity |].
  cbn [countIn].
  destruct (Qeq_bool r k); [cbn [countsOf fold_right snd]; lia |].
  destruct (Qle_bool r k); [cbn [countsOf fold_right snd]; lia |].
  change (countsOf ((k, c) :: countIn r rest))
    with (c + countsOf (countIn r rest))%Z.
  change (countsOf ((k, c) :: rest)) with (c + countsOf rest)%Z.
  rewrite IH. lia.
Qed.

Lemma countIn_positive (r : Q) (groups : list (Q * Z)) :
  Forall (fun g => (1 <= snd g)%Z) groups ->
  Forall (fun g => (1 <= snd g)%Z) (countIn r groups).
Proof.
  induction groups as [| [k c] rest IH]; intros Hall.
  - constructor; [cbn; lia | constructor].
  - inversion Hall as [| ? ? Hc Hrest]; subst. cbn [countIn].
    destruct (Qeq_bool r k); [constructor; [cbn in *; lia | exact Hrest] |].
    destruct (Qle_bool r k).
    + constructor; [cbn; lia | exact Hall].
    + constructor; [exact Hc | exact (IH Hrest)].
Qed.

Lemma countIn_head (a : Q * Z) (r : Q) (groups : list (Q * Z)) :
  (fst a < r)%Q ->
  HdRel (fun x y => (fst x < fst y)%Q) a groups ->
  HdRel (fun x y => (fst x < fst y)%Q) a (countIn r groups).
Proof.
  intros Har Hhd. destruct groups as [| [k c] rest]; cbn [countIn].
  - constructor. exact Har.
  - inversion Hhd as [| ? ? Hak]; subst.
    destruct (Qeq_bool r k); [constructor; exact Hak |].
    destruct (Qle_bool r k); constructor; [exact Har | exact Hak].
Qed.

Lemma countIn_sorted (r : Q) (groups : list (Q * Z)) :
  Sorted (fun x y => (fst x < fst y)%Q) groups ->
  Sorted (fun x y => (fst x < fst y)%Q) (countIn r groups).
Proof.
  induction groups as [| [k c] rest IH]; intros Hs; cbn [countIn].
  - repeat constructor.
  - inversion Hs as [| ? ? Hrest Hhd]; subst.
    destruct (Qeq_bool r k) eqn:Heq.
    + constructor; [exact Hrest |].
      destruct rest as [| [k' c'] rest']; constructor.
      inversion Hhd; subst. assumption.
    + destruct (Qle_bool r k) eqn:Hle.
      * constructor; [exact Hs |]. constructor. cbn [fst].
        apply Qle_bool_iff in Hle.
        apply Qle_lteq in Hle. destruct Hle as [Hlt | Hqeq]; [exact Hlt |].
        apply Qeq_bool_iff in Hqeq. congruence.
      * constructor; [exact (IH Hrest) |].
        apply countIn_head; [| exact Hhd]. cbn [fst].
        apply Qnot_le_lt. intros Hle'. apply Qle_bool_iff in Hle'. congruence.
Qed.

Lemma distribution_counts (rs : list Q) :
  countsOf (fold_right countIn [] rs) = Z.of_nat (length rs)
  /\ Forall (fun g => (1 <= snd g)%Z) (fold_right countIn [] rs)
  /\ Sorted (fun x y => (fst x < fst y)%Q) (fold_right countIn [] rs).
Proof.
  induction rs as [| r rs (IHc & IHp & IHs)];
    [split; [reflexivity | split; constructor] |].
  cbn [fold_right length]. split; [| split].
  - rewrite countIn_counts, IHc. lia.
  - now apply countIn_positive.
  - now apply countIn_sorted.
Qed.

(** X22.  The statistics are consistent with one another on every store:
    the featured-and-active count is at most the active count, which is at
    most the total, as is the verified count; the counts of the rating
    distribution add up to the active count, none of them is zero and
    its ratings are strictly increasing; and the average is written
    ['0.0'], with an empty distribution, when no testimonial is active. *)
Theorem stats_consistent (docs : list Testimonial.t) :
  exists o,
    getStats docs = Json 200 o
    /\ (0 <= featuredTestimonials o <= activeTestimonials o)%Z
    /\ (activeTestimonials o <= totalTestimonials o)%Z
    /\ (0 <= verifiedTestimonials o <= totalTestimonials o)%Z
    /\ totalTestimonials o = Z.of_nat (length docs)
    /\ countsOf (ratingDistribution o) = activeTestimonials o
    /\ Forall (fun g => (1 <= snd g)%Z) (ratingDistribution o)
    /\ Sorted (fun x y => (fst x < fst y)%Q) (ratingDistribution o)
    /\ (activeTestimonials o = 0%Z -> averageRating o = "0.0"
                                      /\ ratingDistribution o = []).
Proof.
  eexists. split; [reflexivity |].
  cbn [featuredTestimonials activeTestimonials totalTestimonials
       verifiedTestimonials averageRating ratingDistribution].
  unfold countDocuments.
  assert (Hall : List.filter (fun _ : Testimonial.t => true) docs = docs).
  { induction docs as [| x l IH]; simpl; [reflexivity | now rewrite IH]. }
  rewrite Hall.
  pose proof (filter_length_le featuredAndActive isActive docs) as Hfa.
  pose proof (filter_length_le isActive (fun _ => true) docs) as Hat.
  pose proof (filter_length_le isVerified (fun _ => true) docs) as Hvt.
  rewrite Hall in Hat, Hvt.
  assert (Hsub : forall x, featuredAndActive x = true -> isActive x = true).
  { intros x Hx. unfold featuredAndActive in Hx. now apply andb_prop in Hx. }
  specialize (Hfa Hsub). specialize (Hat (fun _ _ => eq_refl)).
  specialize (Hvt (fun _ _ => eq_refl)).
  repeat split; try lia.
  - unfold ratingDistributionOf.
    rewrite (proj1 (distribution_counts _)). now rewrite length_map.
  - unfold ratingDistributionOf. apply distribution_counts.
  - unfold ratingDistributionOf. apply distribution_counts.
  - unfold averageRatingOf.
    destruct (List.filter isActive docs); [reflexivity | simpl in *; lia].
  - unfold ratingDistributionOf.
    destruct (List.filter isActive docs); [reflexivity | simpl in *; lia].
Qed.

End Statistics.

(* ================================================================== *)
(** ** Counting documents *)
(* ================================================================== *)

Section Counting.

Import Mongoose.

Context {D : Type}.

Lemma count_all (docs : list D) :
  countDocuments (fun _ => true) docs = Z.of_nat (length docs).
Proof.
  unfold countDocuments. f_equal. f_equal.
  induction docs as [| d ds IH]; simpl; [reflexivity | now rewrite IH].
Qed.

Lemma count_nil (q : D -> bool) : countDocuments q [] = 0%Z.
Proof. reflexivity. Qed.

Lemma count_app (q : D -> bool) (l1 l2 : list D) :
  countDocuments q (l1 ++ l2)
  = (countDocuments q l1 + countDocuments q l2)%Z.
Proof.
  unfold countDocuments. rewrite List.filter_app, length_app. lia.
Qed.

Lemma count_cons (q : D -> bool) (d : D) (docs : list D) :
  countDocuments q (d :: docs)
  = ((if q d then 1 else 0) + countDocuments q docs)%Z.
Proof.
  unfold countDocuments. simpl. destruct (q d); simpl; lia.
Qed.

Lemma count_bounds (q : D -> bool) (docs : list D) :
  (0 <= countDocuments q docs <= Z.of_nat (length docs))%Z.
Proof.
  induction docs as [| d ds IH]; [unfold countDocuments; simpl; lia |].
  rewrite count_cons. cbn [length]. destruct (q d); lia.
Qed.

Lemma count_le (p q : D -> bool) (docs : list D) :
  (forall d, p d = true -> q d = true) ->
  (countDocuments p docs <= countDocuments q docs)%Z.
Proof.
  intros Hpq. induction docs as [| d ds IH]; [reflexivity |].
  rewrite !count_cons. specialize (Hpq d).
  destruct (p d), (q d); first [lia | discriminate (Hpq eq_refl)].
Qed.

Lemma count_disjoint (p q : D -> bool) (docs : list D) :
  (forall d, p d = true -> q d = false) ->
  (countDocuments p docs + countDocuments q docs <= Z.of_nat (length docs))%Z.
Proof.
  intros Hpq. induction docs as [| d ds IH]; [reflexivity |].
  rewrite !count_cons. cbn [length]. specialize (Hpq d).
  destruct (p d), (q d); first [lia | discriminate (Hpq eq_refl)].
Qed.

Lemma count_rest (q : D -> bool) (docs : list D) :
  (countDocuments (fun d => negb (q d)) docs
   = Z.of_nat (length docs) - countDocuments q docs)%Z.
Proof.
  induction docs as [| d ds IH]; [reflexivity |].
  rewrite !count_cons, IH. cbn [length]. destruct (q d); simpl; lia.
Qed.

Lemma count_middle (q : D -> bool) (l1 l2 : list D) (d : D) :
  countDocuments q (l1 ++ d :: l2)
  = ((if q d then 1 else 0) + countDocuments q (l1 ++ l2))%Z.
Proof.
  rewrite !count_app, count_cons. lia.
Qed.

End Counting.

(* ================================================================== *)
(** ** routes/contactSubmissions.js: statistics, reading, deleting *)
(* ================================================================== *)

Section ContactStatistics.

Import JS Mongoose Http Documents ContactRoutes.

Context {rt : Runtime} {clock : Clock}.

(** X23.  The statistics of the contact submissions are consistent on
    every store: the high-priority count is at most the unread count,
    which is at most the total, as is the count of today; the read count
    is the total minus the unread count, so that it counts every
    submission whose [read] is not [false].  A submission created by the
    create route raises the total and the unread count by one, leaves the
    read count as it was, and is counted in today's when it was created
    after the start of the day. *)
Theorem contact_stats_consistent (now : Z) (docs : list ContactSubmission.t) :
  exists o,
    getStats now docs = Json 200 o
    /\ totalSubmissions o = Z.of_nat (length docs)
    /\ (0 <= highPrioritySubmissions o <= unreadSubmissions o)%Z
    /\ (unreadSubmissions o <= totalSubmissions o)%Z
    /\ (0 <= todaySubmissions o <= totalSubmissions o)%Z
    /\ (readSubmissions o + unreadSubmissions o = totalSubmissions o)%Z
    /\ readSubmissions o = countDocuments (fun s => negb (isUnread s)) docs
    /\ forall b id created st s docs',
         post b id created docs = (Json st s, docs') ->
         exists o',
           getStats now docs' = Json 200 o'
           /\ totalSubmissions o' = (totalSubmissions o + 1)%Z
           /\ unreadSubmissions o' = (unreadSubmissions o + 1)%Z
           /\ readSubmissions o' = readSubmissions o
           /\ ((startOfDay now <= created)%Z ->
               todaySubmissions o' = (todaySubmissions o + 1)%Z).
Proof.
  eexists. split; [reflexivity |].
  cbn [totalSubmissions unreadSubmissions todaySubmissions
       highPrioritySubmissions readSubmissions].
  rewrite count_all.
  pose proof (count_bounds isUnread docs) as Hu.
  pose proof (count_bounds isHighUnread docs) as Hh.
  pose proof (count_bounds (createdSince (startOfDay now)) docs) as Ht.
  assert (Hhu : (countDocuments isHighUnread docs
                 <= countDocuments isUnread docs)%Z).
  { apply count_le. intros d Hd. unfold isHighUnread in Hd.
    now apply andb_true_iff in Hd. }
  split; [reflexivity |]. split; [lia |]. split; [lia |]. split; [lia |].
  split; [lia |]. split; [rewrite count_rest; reflexivity |].
  - intros b id created st s docs' Hpost.
    unfold post in Hpost.
    destruct (negb (truthy (name b)) || negb (truthy (email b))
              || negb (truthy (subject b)) || negb (truthy (message b)));
      [discriminate |].
    destruct (validate b id created) as [s0 |] eqn:Hv; [| discriminate].
    injection Hpost as <- <- <-.
    assert (Hread : ContactSubmission.read s0 = Some false
                    /\ ContactSubmission.createdAt s0 = created).
    { unfold validate in Hv.
      repeat match type of Hv with
             | context [mbind _ ?m] => destruct m; cbn [mbind option_bind] in Hv;
                                       [| discriminate]
             end.
      destruct (inEnum _ _); [| discriminate].
      injection Hv as <-. split; reflexivity. }
    destruct Hread as [Hread Hcreated].
    eexists. split; [reflexivity |].
    cbn [totalSubmissions unreadSubmissions todaySubmissions
         highPrioritySubmissions readSubmissions].
    assert (Hunread : isUnread s0 = true)
      by (unfold isUnread; now rewrite Hread).
    assert (Hsince : forall start,
               createdSince start s0 = (start <=? created)%Z)
      by (intros start; unfold createdSince; now rewrite Hcreated).
    rewrite !count_app, !count_cons, !count_nil, !count_all, Hunread, Hsince.
    split; [lia |]. split; [lia |]. split; [lia |].
    intros Hle. apply Z.leb_le in Hle. rewrite Hle. lia.
Qed.

End ContactStatistics.

Section ContactDeletion.

Import JS Mongoose Http Documents ContactRoutes.

Context {ids : ObjectIds} {coll : Collection ContactSubmission.t}.

(** X24.  Deleting a stored submission answers 200 and removes that
    record and no other; with unique identifiers the submission, which the
    read route answered before, is then answered 404, and the list route,
    which always answers with all the stored submissions, no longer shows
    it. *)
Theorem delete_submission (id : string) (docs : list ContactSubmission.t)
    (s : ContactSubmission.t) :
  validId id = true ->
  findOne (ContactSubmissions.byId id) docs = Some s ->
  List.NoDup (map ContactSubmission._id docs) ->
  exists l1 l2,
    docs = l1 ++ s :: l2
    /\ getById id docs = Json 200 s
    /\ (exists all, getAll docs = Json 200 all /\ Permutation all docs /\ In s all)
    /\ delete id docs = (Json 200 tt, l1 ++ l2)
    /\ getById id (l1 ++ l2) = Fail 404 "Contact submission not found"
    /\ exists rest,
         getAll (l1 ++ l2) = Json 200 rest
         /\ Permutation rest (l1 ++ l2) /\ ~ In s rest.
Proof.
  intros Hid Hfind Hnd.
  destruct (findOne_split _ _ _ Hfind) as (l1 & l2 & -> & Hl1 & Hs).
  assert (Hkey : ContactSubmission._id s = id) by now apply String.eqb_eq.
  pose proof (key_gone ContactSubmission._id l1 l2 s Hnd) as Hgone.
  rewrite Hkey in Hgone.
  exists l1, l2. split; [reflexivity |].
  split; [unfold getById; now rewrite Hid, Hfind |].
  split.
  { eexists. split; [reflexivity |]. split; [apply sortDocs_perm |].
    apply (Permutation_in _ (Permutation_sym (sortDocs_perm _ _ _))).
    apply in_or_app. right. now left. }
  split.
  { unfold delete. rewrite Hid, Hfind. cbn [negb]. f_equal.
    now apply deleteOne_middle. }
  split.
  { unfold getById. rewrite Hid. cbn [negb].
    now rewrite (findOne_none (ContactSubmissions.byId id) (l1 ++ l2) Hgone). }
  eexists. split; [reflexivity |]. split; [apply sortDocs_perm |].
  intros Hin. apply (Permutation_in _ (sortDocs_perm _ _ _)) in Hin.
  rewrite List.Forall_forall in Hgone. specialize (Hgone s Hin).
  unfold ContactSubmissions.byId in Hs. congruence.
Qed.

End ContactDeletion.

(* ================================================================== *)
(** ** routes/newsletter.js: statistics, deleting a subscriber *)
(* ================================================================== *)

Section NewsletterStatistics.

Import JS Mongoose Http Documents NewsletterAdmin.

Context {ids : ObjectIds} {fmt : TestimonialRoutes.Formatting}.

(** X25.  The statistics of the newsletter are consistent on every
    store: subscribed and unsubscribed subscribers together are at most
    the total; the rate is the number 0 exactly when there is no
    subscriber, and a string otherwise.  Unsubscribing a stored subscriber
    that is subscribed lowers the subscribed count by one, raises the
    unsubscribed count by one and leaves the total as it was. *)
Theorem newsletter_stats_consistent (subscribers : list Newsletter.subscriber)
    (campaigns : list campaign) (uploads : list Newsletter.upload) :
  exists o,
    getStats subscribers campaigns uploads = Json 200 o
    /\ totalSubscribers o = Z.of_nat (length subscribers)
    /\ (0 <= activeSubscribers o)%Z /\ (0 <= unsubscribedCount o)%Z
    /\ (activeSubscribers o + unsubscribedCount o <= totalSubscribers o)%Z
    /\ totalCampaigns o = Z.of_nat (length campaigns)
    /\ (0 <= totalUploads o <= Z.of_nat (length uploads))%Z
    /\ (subscribers = [] <-> subscriptionRate o = JNum (ofZ 0))
    /\ (subscribers <> [] -> exists text, subscriptionRate o = JStr text)
    /\ forall id now s,
         validId id = true ->
         findOne (subscriberById id) subscribers = Some s ->
         Newsletter.unsubscribed s = Some false ->
         exists o',
           getStats (snd (putUnsubscribe id now subscribers)) campaigns uploads
           = Json 200 o'
           /\ totalSubscribers o' = totalSubscribers o
           /\ activeSubscribers o' = (activeSubscribers o - 1)%Z
           /\ unsubscribedCount o' = (unsubscribedCount o + 1)%Z.
Proof.
  eexists. split; [reflexivity |].
  cbn [totalSubscribers activeSubscribers unsubscribedCount totalCampaigns
       totalUploads subscriptionRate].
  rewrite !count_all.
  pose proof (count_bounds (isUnsubscribed false) subscribers) as Ha.
  pose proof (count_bounds (isUnsubscribed true) subscribers) as Hu.
  pose proof (count_bounds isActiveUpload uploads) as Hup.
  assert (Hdis : (countDocuments (isUnsubscribed false) subscribers
                  + countDocuments (isUnsubscribed true) subscribers
                  <= Z.of_nat (length subscribers))%Z).
  { apply count_disjoint. intros d. unfold isUnsubscribed.
    destruct (Newsletter.unsubscribed d) as [[|] |]; simpl; congruence. }
  split; [reflexivity |]. split; [lia |]. split; [lia |]. split; [lia |].
  split; [reflexivity |]. split; [lia |].
  split; [| split].
  - destruct subscribers as [| x xs]; cbn [length].
    + split; reflexivity.
    + destruct (0 <? Z.of_nat (S (length xs)))%Z eqn:Hpos.
      * split; discriminate.
      * apply Z.ltb_ge in Hpos. lia.
  - intros Hne. destruct subscribers as [| x xs]; [congruence |].
    cbn [length].
    destruct (0 <? Z.of_nat (S (length xs)))%Z eqn:Hpos.
    + eexists. reflexivity.
    + apply Z.ltb_ge in Hpos. lia.
  - intros id now s Hid Hfind Hsub.
    destruct (findOne_split _ _ _ Hfind) as (l1 & l2 & -> & Hl1 & Hs).
    unfold putUnsubscribe. rewrite Hid, Hfind. cbn [negb snd].
    rewrite (updateOne_middle (subscriberById id) (unsubscribe now) l1 l2 s Hl1 Hs).
    eexists. split; [reflexivity |].
    cbn [totalSubscribers activeSubscribers unsubscribedCount].
    rewrite !count_all, !count_middle, !length_app. cbn [length].
    unfold isUnsubscribed at 1 3 5 7.
    cbn [unsubscribe Newsletter.unsubscribed]. rewrite Hsub.
    cbn [Testimonials.eqOptBool Bool.eqb].
    repeat split; lia.
Qed.

End NewsletterStatistics.

Section SubscriberDeletion.

Import JS Mongoose Http Documents NewsletterRoutes NewsletterAdmin.

Context {ids : ObjectIds} {rt : Runtime}.

(** X26.  Deleting a stored subscriber removes the record, so that,
    with unique identifiers and unique emails, subscribing the same email
    afterwards is answered 201 and appends a new subscriber: subscribed,
    with the identifier and the dates of the new request and the default
    preferences, whatever the deleted subscriber had. *)
Theorem delete_then_subscribe (b : subscribeBody) (e fresh : string) (now : Z)
    (docs : list Newsletter.subscriber) (s : Newsletter.subscriber) :
  email b = JStr e -> e <> "" ->
  findOne (byEmail (email b)) docs = Some s ->
  Newsletter.email s <> "" ->
  List.NoDup (map Newsletter._id docs) ->
  List.NoDup (map Newsletter.email docs) ->
  validId (Newsletter._id s) = true ->
  exists l1 l2 s',
    docs = l1 ++ s :: l2
    /\ deleteSubscriber (Newsletter._id s) docs = (Json 200 tt, l1 ++ l2)
    /\ postSubscribers b fresh now (l1 ++ l2)
       = (Json 201 s', (l1 ++ l2) ++ [s'])
    /\ Newsletter._id s' = fresh
    /\ Newsletter.email s' = Newsletter.email s
    /\ Newsletter.unsubscribed s' = Some false
    /\ Newsletter.unsubscribedAt s' = None
    /\ Newsletter.createdAt s' = now
    /\ Newsletter.prefs s' = {| Newsletter.frequency := Some "weekly";
                                Newsletter.categories := [] |}.
Proof.
  intros He Hne Hfind Hmail Hnd Hnde Hid.
  destruct (findOne_split _ _ _ Hfind) as (l1 & l2 & -> & Hl1 & Hs).
  pose proof (key_unique Newsletter._id l1 l2 s Hnd) as Hkeys.
  pose proof (key_gone Newsletter.email l1 l2 s Hnde) as Hgone.
  assert (Hself : subscriberById (Newsletter._id s) s = true)
    by apply String.eqb_refl.
  assert (Hstored : Newsletter.email s = Newsletter.emailSetters e).
  { unfold byEmail in Hs. rewrite He in Hs. cbn [castString] in Hs.
    now apply String.eqb_eq in Hs. }
  assert (Htruthy : truthy (email b) = true).
  { rewrite He. simpl. now destruct (String.eqb_spec e ""). }
  assert (Hnone : findOne (byEmail (email b)) (l1 ++ l2) = None).
  { apply findOne_none. revert Hgone. apply List.Forall_impl.
    intros x Hx. unfold byEmail. rewrite He.
    change (String.eqb (Newsletter.email x) (Newsletter.emailSetters e) = false).
    now rewrite <- Hstored. }
  assert (Hnew : exists s',
             newSubscriber (email b) (NewsletterRoutes.name b)
               (withDefault (JStr "website") (NewsletterRoutes.source b))
               fresh now (l1 ++ l2) = Some s'
             /\ Newsletter._id s' = fresh
             /\ Newsletter.email s' = Newsletter.email s
             /\ Newsletter.unsubscribed s' = Some false
             /\ Newsletter.unsubscribedAt s' = None
             /\ Newsletter.createdAt s' = now
             /\ Newsletter.prefs s' = {| Newsletter.frequency := Some "weekly";
                                         Newsletter.categories := [] |}).
  { unfold newSubscriber. rewrite He.
    change (castString (JStr e)) with (Cast (Some e)).
    assert (Hreq : requiredString (Newsletter.emailSetters <$> Some e)
                   = Some (Newsletter.email s)).
    { cbn [fmap option_fmap option_map]. rewrite <- Hstored.
      unfold requiredString.
      now destruct (String.eqb_spec (Newsletter.email s) ""). }
    assert (Hfree' : existsb (fun x => String.eqb (Newsletter.email x)
                                         (Newsletter.email s)) (l1 ++ l2)
                     = false).
    { clear - Hgone. induction Hgone as [| x l Hx _ IH]; [reflexivity |].
      cbn [existsb]. now rewrite Hx, IH. }
    destruct (castString (NewsletterRoutes.name b)) as [n |] eqn:Hn;
      [| destruct (NewsletterRoutes.name b); discriminate].
    destruct (castString
                (withDefault (JStr "website")
                   (withDefault (JStr "website") (NewsletterRoutes.source b))))
      as [so |] eqn:Hso;
      [| destruct (NewsletterRoutes.source b); discriminate].
    unfold Cast. cbn [mbind option_bind]. rewrite Hreq.
    cbn [mbind option_bind]. rewrite Hfree'.
    eexists. split; [reflexivity |]. repeat split. }
  destruct Hnew as (s' & Hnew & Hprops).
  exists l1, l2, s'. split; [reflexivity |].
  split.
  { unfold deleteSubscriber.
    rewrite Hid,
      (findOne_middle (subscriberById (Newsletter._id s)) l1 l2 s Hkeys Hself).
    cbn [negb]. f_equal. now apply deleteOne_middle. }
  split; [| exact Hprops].
  unfold postSubscribers. rewrite Htruthy, Hnone. cbn [negb].
  now rewrite Hnew.
Qed.

End SubscriberDeletion.

(* ------------------------------------------------------------------ *)
(** ** The properties of the other routes on the samples *)
(* ------------------------------------------------------------------ *)

Section OtherRoutesOnSamples.

Import JS Mongoose Http Documents Reference ReferenceMore MoreSamples.

Lemma toggle_active_twice_witness :
  exists l1 l2,
    twoTestimonials = l1 ++ praise :: l2
    /\ TestimonialRoutes.putToggleActive id2 20 twoTestimonials
       = (Json 200
            {| TestimonialRoutes.message := "Testimonial activated successfully";
               TestimonialRoutes.testimonial :=
                 TestimonialRoutes.setFlags (Some true) (Some false) 20 praise |},
          l1 ++ TestimonialRoutes.setFlags (Some true) (Some false) 20 praise :: l2)
    /\ snd (TestimonialRoutes.putToggleActive id2 30
              (snd (TestimonialRoutes.putToggleActive id2 20 twoTestimonials)))
       = l1 ++ TestimonialRoutes.setFlags (Some false) (Some false) 30 praise :: l2.
Proof.
  exact (toggle_active_twice (ids := objectIds) id2 20 30 twoTestimonials praise
           false eq_refl eq_refl eq_refl eq_refl).
Defined.

Lemma toggles_commute_witness :
  exists l1 l2,
    twoTestimonials = l1 ++ praise :: l2
    /\ snd (TestimonialRoutes.putToggleActive id2 20 twoTestimonials)
       = l1 ++ TestimonialRoutes.setFlags (Some true) (Some false) 20 praise :: l2
    /\ snd (TestimonialRoutes.putToggleFeatured id2 20 twoTestimonials)
       = l1 ++ TestimonialRoutes.setFlags (Some false) (Some true) 20 praise :: l2
    /\ snd (TestimonialRoutes.putToggleFeatured id2 30
              (snd (TestimonialRoutes.putToggleActive id2 20 twoTestimonials)))
       = snd (TestimonialRoutes.putToggleActive id2 30
                (snd (TestimonialRoutes.putToggleFeatured id2 20 twoTestimonials)))
    /\ snd (TestimonialRoutes.putToggleFeatured id2 30
              (snd (TestimonialRoutes.putToggleActive id2 20 twoTestimonials)))
       = l1 ++ TestimonialRoutes.setFlags (Some true) (Some true) 30 praise :: l2.
Proof.
  exact (toggles_commute (ids := objectIds) id2 20 30 twoTestimonials praise
           eq_refl eq_refl eq_refl).
Defined.

(** The second testimonial deleted under the capital writing of its
    identifier. *)
Lemma delete_testimonial_witness :
  exists l1 l2,
    twoTestimonials = l1 ++ praise :: l2
    /\ Testimonial._id praise = toLowerCase capitalId2
    /\ TestimonialRoutes.delete capitalId2 twoTestimonials = (Json 200 tt, l1 ++ l2)
    /\ TestimonialRoutes.delete capitalId2 (l1 ++ l2)
       = (Fail 404 "Testimonial not found", l1 ++ l2)
    /\ (forall id',
          validId id' = true -> toLowerCase id' = toLowerCase capitalId2 ->
          TestimonialRoutes.getById id' twoTestimonials = Json 200 praise
          /\ TestimonialRoutes.getById id' (l1 ++ l2)
             = Fail 404 "Testimonial not found")
    /\ forall id', toLowerCase id' <> toLowerCase capitalId2 ->
                   TestimonialRoutes.getById id' (l1 ++ l2)
                   = TestimonialRoutes.getById id' twoTestimonials.
Proof.
  apply (proj1 (delete_testimonial (ids := objectIds) capitalId2 twoTestimonials
                  eq_refl)
           praise).
  - reflexivity.
  - repeat constructor; simpl; intuition discriminate.
Defined.




(** The featured list asked for two testimonials, on a store with three
    that are featured and active, one that is featured and inactive and
    one that is active and not featured: the two most recent of the three
    come back. *)
Lemma featured_testimonials_witness :
  TestimonialRoutes.getFeatured (Some "2") showcase
  = Json 200 [flagged "64b7f0c2a1d3e4f5a6b7c8dd" 3 5 true true;
              flagged "64b7f0c2a1d3e4f5a6b7c8db" 4 3 true true].
Proof.
  rewrite (proj2 (featured_testimonials (tcoll := testimonialCollection)
                    (cur := cursor) (Some "2") showcase)
             2%Z eq_refl ltac:(discriminate) eq_refl).
  vm_compute. reflexivity.
Defined.

Lemma create_submission_witness :
  201%nat = 201%nat
  /\ [ContactSpec.fresh id1] = [] ++ [ContactSpec.fresh id1]
  /\ ContactSubmission.read (ContactSpec.fresh id1) = Some false
  /\ ContactSubmission.replied (ContactSpec.fresh id1) = Some false
  /\ ContactSubmission.name (ContactSpec.fresh id1) <> ""
  /\ ContactSubmission.email (ContactSpec.fresh id1) <> ""
  /\ ContactSubmission.subject (ContactSpec.fresh id1) <> ""
  /\ ContactSubmission.message (ContactSpec.fresh id1) <> ""
  /\ (forall p, ContactSubmission.priority (ContactSpec.fresh id1) = Some p ->
                In p ContactRoutes.priorities)
  /\ forall e, ContactRoutes.email (enquiry (JStr " Ada ") (JStr " Ada@Example.org "))
               = JStr e ->
               ContactSubmission.email (ContactSpec.fresh id1) = toLowerCase (trim e).
Proof.
  exact (proj2 (create_submission (rt := runtime)
                  (enquiry (JStr " Ada ") (JStr " Ada@Example.org ")) id1 10 [])
           201%nat (ContactSpec.fresh id1) [ContactSpec.fresh id1] eq_refl).
Defined.

Lemma replied_then_unread_witness :
  exists l1 l2,
    [ContactSpec.fresh id1; ContactSpec.fresh id2] = l1 ++ ContactSpec.fresh id2 :: l2
    /\ (forall v r,
          castBoolean (withDefault (JBool true) v) = Cast r ->
          exists text,
            ContactRoutes.putRead id2 v 20 [ContactSpec.fresh id1; ContactSpec.fresh id2]
            = (Json 200
                 {| ContactSubmissions.message := text;
                    ContactSubmissions.submission :=
                      ContactRoutes.setRead r 20 (ContactSpec.fresh id2) |},
               l1 ++ ContactRoutes.setRead r 20 (ContactSpec.fresh id2) :: l2)
            /\ ContactSubmission.read (ContactRoutes.setRead r 20 (ContactSpec.fresh id2))
               = r
            /\ ContactSubmission.replied
                 (ContactRoutes.setRead r 20 (ContactSpec.fresh id2))
               = Some false)
    /\ exists s',
         ContactRoutes.putRead id2 (JBool false) 30
           (snd (ContactSubmissions.putReplied id2 (JBool true) 20
                   [ContactSpec.fresh id1; ContactSpec.fresh id2]))
         = (Json 200 {| ContactSubmissions.message := "Submission marked as unread";
                        ContactSubmissions.submission := s' |},
            l1 ++ s' :: l2)
         /\ ContactSubmission.replied s' = Some true
         /\ ContactSubmission.read s' = Some false.
Proof.
  exact (replied_then_unread (ids := objectIds) id2 20 30
           [ContactSpec.fresh id1; ContactSpec.fresh id2] (ContactSpec.fresh id2)
           eq_refl eq_refl).
Defined.

Lemma set_priority_witness :
  exists l1 l2,
    [ContactSpec.fresh id1; ContactSpec.fresh id2] = l1 ++ ContactSpec.fresh id2 :: l2
    /\ ContactRoutes.putPriority id2 (JStr "high") 20
         [ContactSpec.fresh id1; ContactSpec.fresh id2]
       = (Json 200 (ContactRoutes.setPriority "high" 20 (ContactSpec.fresh id2)),
          l1 ++ ContactRoutes.setPriority "high" 20 (ContactSpec.fresh id2) :: l2)
    /\ ContactSubmission.read (ContactRoutes.setPriority "high" 20 (ContactSpec.fresh id2))
       = Some false
    /\ ContactSubmission.replied
         (ContactRoutes.setPriority "high" 20 (ContactSpec.fresh id2))
       = Some false.
Proof.
  apply (proj2 (proj2 (set_priority (ids := objectIds) id2 (JStr "high") 20
                         [ContactSpec.fresh id1; ContactSpec.fresh id2]))
           "high" (ContactSpec.fresh id2)).
  - reflexivity.
  - simpl. tauto.
  - reflexivity.
  - reflexivity.
Defined.

Lemma unsubscribe_then_subscribe_witness :
  exists l1 l2,
    twoReaders = l1 ++ reader :: l2
    /\ NewsletterAdmin.putUnsubscribe id1 20 twoReaders
       = (Json 200 (NewsletterAdmin.unsubscribe 20 reader),
          l1 ++ NewsletterAdmin.unsubscribe 20 reader :: l2)
    /\ Newsletter.unsubscribed (NewsletterAdmin.unsubscribe 20 reader) = Some true
    /\ Newsletter.unsubscribedAt (NewsletterAdmin.unsubscribe 20 reader) = Some 20%Z
    /\ NewsletterRoutes.postSubscribers (NewsletterSpec.subscribe "ada@example.org")
         "fresh" 30 (snd (NewsletterAdmin.putUnsubscribe id1 20 twoReaders))
       = (Json 200 (NewsletterRoutes.resubscribe 30 reader),
          l1 ++ NewsletterRoutes.resubscribe 30 reader :: l2)
    /\ Newsletter.unsubscribed (NewsletterRoutes.resubscribe 30 reader) = Some false
    /\ Newsletter.unsubscribedAt (NewsletterRoutes.resubscribe 30 reader) = None.
Proof.
  apply (unsubscribe_then_subscribe (ids := objectIds) (rt := runtime)
           (NewsletterSpec.subscribe "ada@example.org") "ada@example.org" "fresh"
           20 30 twoReaders reader).
  - reflexivity.
  - discriminate.
  - reflexivity.
  - repeat constructor; simpl; intuition discriminate.
  - reflexivity.
Defined.

Lemma send_never_succeeds_witness :
  NewsletterAdmin.postSend toAll twoReaders []
  = (Fail 500 "Failed to send newsletter", []).
Proof.
  apply (proj2 (proj2 (send_never_succeeds (ids := objectIds) toAll twoReaders []))
           reader).
  - reflexivity.
  - reflexivity.
  - reflexivity.
  - simpl. tauto.
  - reflexivity.
Defined.

Lemma upload_missing_fields_keeps_file_witness :
  exists d',
    NewsletterAdmin.postUpload unnamed (Some march) id2 20 7 disk [issue]
    = (Fail 400 "Name, category, and date are required", d', [issue])
    /\ Disk.files d' !! "uploads/newsletters/newsletter-20-7.pdf"
       = Some "%PDF-1.7"
    /\ Disk.pathExists "uploads/newsletters/newsletter-20-7.pdf" d' = true.
Proof.
  apply (upload_missing_fields_keeps_file (rt := runtime)
           (dates := dates) (pth := path) unnamed march id2 20 7 disk [issue]).
  - reflexivity.
  - reflexivity.
  - reflexivity.
  - left. reflexivity.
Defined.

Lemma non_pdf_upload_rejected_witness :
  Multer.single NewsletterAdmin.upload "pdf" (Some memo) 20 7 disk
  = (inl (Multer.FilterError "Only PDF files are allowed!"), disk)
  /\ NewsletterAdmin.postUpload unnamed (Some memo) id2 20 7 disk [issue]
     = (Fail 500 "Something went wrong!", disk, [issue]).
Proof.
  apply (non_pdf_upload_rejected (rt := runtime)
           (dates := dates) (pth := path) unnamed memo id2 20 7 disk [issue]).
  - reflexivity.
  - discriminate.
Defined.

Lemma delete_upload_witness :
  exists l1 l2 d',
    [issue] = l1 ++ issue :: l2
    /\ NewsletterAdmin.deleteUpload id1 [issue] disk = (Json 200 tt, l1 ++ l2, d')
    /\ (Disk.pathExists "uploads/newsletters/newsletter-1-2.pdf" disk = false ->
        d' = disk)
    /\ (Disk.pathExists "uploads/newsletters/newsletter-1-2.pdf" disk = true ->
        Disk.files d' !! "uploads/newsletters/newsletter-1-2.pdf" = None
        /\ forall k, Fs.under "uploads/newsletters/newsletter-1-2.pdf" k = false ->
                     Disk.files d' !! k = Disk.files disk !! k)
    /\ NewsletterRoutes.getDownload id1 20 (l1 ++ l2) d'
       = (Fail 404 "Newsletter not found", l1 ++ l2).
Proof.
  apply (delete_upload (ids := objectIds) id1 20 [issue] disk issue).
  - reflexivity.
  - reflexivity.
  - repeat constructor; simpl; intuition discriminate.
Defined.

Lemma image_upload_stored_witness :
  exists d',
    Multer.single Blogs.upload "image" (Some photo) 20 7 disk
    = (inr (Some {| Multer.filename := "blog-20-7.png";
                    Multer.path := "uploads/blog-images/blog-20-7.png";
                    Multer.stored_originalname := "team.png";
                    Multer.stored_size := 3 |}), d')
    /\ Disk.files d' !! "uploads/blog-images/blog-20-7.png" = Some "PNG"
    /\ "uploads/blog-images" ∈ Disk.dirs d'
    /\ forall k, k <> "uploads/blog-images/blog-20-7.png" ->
                 Disk.files d' !! k = Disk.files disk !! k.
Proof.
  apply (proj1 (image_upload_stored (pth := path) photo 20 7 disk eq_refl eq_refl)).
  reflexivity.
Defined.

Lemma pages_cover_witness :
  concat (map (fun s => BlogPages.blogsOf
                          (Blogs.get (BlogPages.withPage (BlogSpec.paged "1" "10") s)
                             (map BlogSpec.post (seq 1 25))))
            ["1"; "2"; "3"])
  = BlogPages.matching (BlogSpec.paged "1" "10") (map BlogSpec.post (seq 1 25))
  /\ forall s i, parseInt s = Some (Z.of_nat (S i)) -> (3 <= i)%nat ->
                 isSafeInteger (Z.of_nat (S i) * 10) = true ->
                 BlogPages.blogsOf
                   (Blogs.get (BlogPages.withPage (BlogSpec.paged "1" "10") s)
                      (map BlogSpec.post (seq 1 25)))
                 = [].
Proof.
  apply (pages_cover (txt := blogText) (coll := blogCollection) (cur := cursor)
           (BlogSpec.paged "1" "10") 10 (map BlogSpec.post (seq 1 25))
           ["1"; "2"; "3"] 3).
  - reflexivity.
  - reflexivity.
  - lia.
  - reflexivity.
  - reflexivity.
  - reflexivity.
  - reflexivity.
Defined.

Lemma login_then_verify_witness :
  (exists users' p,
      Auth.login "ada" "s3cret" 1000 [editor true]
      = (Json 200 {| Auth.session_token := Auth.sign id1 "ada" "editor" 1000;
                     Auth.user := p |}, users'))
  /\ AuthVerify.verify
       (Some ("Bearer " ++ AuthVerify.encode (Auth.sign id1 "ada" "editor" 1000))%string)
       2000 [editor true]
     = Json 200 (AuthVerify.Account
                   {| Auth.id := id1;
                      Auth.username := "ada";
                      Auth.email := Some "ada@example.org";
                      Auth.role := "editor";
                      Auth.profile := None |})
  /\ AuthVerify.verify
       (Some ("Bearer " ++ AuthVerify.encode (Auth.sign id1 "ada" "editor" 1000))%string)
       86401000 [editor true]
     = Fail 401 "Invalid token".
Proof.
  destruct (login_then_verify (pol := policy) (codec := jwt) (ids := objectIds)
              "ada" "s3cret" 1000 [editor true] (editor true))
    as (Hlogin & _ & Hfresh & Hstale).
  - discriminate.
  - reflexivity.
  - reflexivity.
  - reflexivity.
  - split; [exact Hlogin | split].
    + apply (Hfresh eq_refl ltac:(discriminate) 2000%Z [editor true] (editor true)).
      * vm_compute. reflexivity.
      * reflexivity.
      * reflexivity.
      * reflexivity.
    + apply (Hstale eq_refl ltac:(discriminate) 86401000%Z [editor true]).
      vm_compute. discriminate.
Defined.

Lemma verify_admin_claims_witness :
  AuthVerify.verify (Some "Bearer admin-user.admin.admin.3600.90000") 3600000
    [editor true]
  = Json 200 (AuthVerify.Claims adminClaims)
  /\ AuthVerify.verify (Some "Bearer admin-user.admin.admin.3600.90000") 3600000 []
     = Json 200 (AuthVerify.Claims adminClaims)
  /\ AuthVerify.verify None 3600000 [editor true] = Fail 401 "No token provided".
Proof.
  apply (verify_admin_claims (codec := jwt) (ids := objectIds)
           "admin-user.admin.admin.3600.90000" adminClaims 3600000 [editor true]).
  - discriminate.
  - reflexivity.
  - vm_compute. reflexivity.
  - reflexivity.
Defined.

Lemma middleware_accepts_witness :
  AuthVerify.authenticateToken (Some "Bearer admin-user.admin.admin.3600.90000")
    3600000
  = inr adminClaims
  /\ AuthVerify.authenticateToken None 3600000
     = inl (Fail 401 "Access token required")
  /\ AuthVerify.authenticateToken (Some "admin-user.admin.admin.3600.90000") 3600000
     = inl (Fail 401 "Access token required").
Proof.
  apply (middleware_accepts (codec := jwt)
           "admin-user.admin.admin.3600.90000" 3600000).
  - discriminate.
  - reflexivity.
Defined.

Lemma contact_stats_consistent_witness :
  exists o o',
    ContactRoutes.getStats 90000001 [ContactSpec.fresh id1] = Json 200 o
    /\ ContactRoutes.getStats 90000001
         (snd (ContactRoutes.post (enquiry (JStr "Bob") (JStr "bob@example.org"))
                 id2 90000000 [ContactSpec.fresh id1]))
       = Json 200 o'
    /\ ContactRoutes.totalSubmissions o' = (ContactRoutes.totalSubmissions o + 1)%Z
    /\ ContactRoutes.unreadSubmissions o' = (ContactRoutes.unreadSubmissions o + 1)%Z
    /\ ContactRoutes.readSubmissions o' = ContactRoutes.readSubmissions o
    /\ ContactRoutes.todaySubmissions o' = (ContactRoutes.todaySubmissions o + 1)%Z.
Proof.
  destruct (contact_stats_consistent (rt := runtime) (clock := utc) 90000001
              [ContactSpec.fresh id1])
    as (o & Ho & _ & _ & _ & _ & _ & _ & Hpost).
  destruct (Hpost (enquiry (JStr "Bob") (JStr "bob@example.org")) id2 90000000%Z
              _ _ _ eq_refl)
    as (o' & Ho' & Htotal & Hunread & Hread & Htoday).
  exists o, o'. repeat split; try assumption.
  apply Htoday. vm_compute. discriminate.
Defined.

Lemma delete_submission_witness :
  exists l1 l2,
    [ContactSpec.fresh id1; ContactSpec.fresh id2] = l1 ++ ContactSpec.fresh id2 :: l2
    /\ ContactRoutes.getById id2 [ContactSpec.fresh id1; ContactSpec.fresh id2]
       = Json 200 (ContactSpec.fresh id2)
    /\ (exists all,
          ContactRoutes.getAll [ContactSpec.fresh id1; ContactSpec.fresh id2]
          = Json 200 all
          /\ Permutation all [ContactSpec.fresh id1; ContactSpec.fresh id2]
          /\ In (ContactSpec.fresh id2) all)
    /\ ContactRoutes.delete id2 [ContactSpec.fresh id1; ContactSpec.fresh id2]
       = (Json 200 tt, l1 ++ l2)
    /\ ContactRoutes.getById id2 (l1 ++ l2)
       = Fail 404 "Contact submission not found"
    /\ exists rest,
         ContactRoutes.getAll (l1 ++ l2) = Json 200 rest
         /\ Permutation rest (l1 ++ l2) /\ ~ In (ContactSpec.fresh id2) rest.
Proof.
  apply (delete_submission (ids := objectIds) (coll := submissionCollection) id2
           [ContactSpec.fresh id1; ContactSpec.fresh id2] (ContactSpec.fresh id2)).
  - reflexivity.
  - reflexivity.
  - repeat constructor; simpl; intuition discriminate.
Defined.

Lemma newsletter_stats_consistent_witness :
  exists o o',
    NewsletterAdmin.getStats twoReaders [] [issue] = Json 200 o
    /\ NewsletterAdmin.getStats
         (snd (NewsletterAdmin.putUnsubscribe id1 20 twoReaders)) [] [issue]
       = Json 200 o'
    /\ NewsletterAdmin.totalSubscribers o' = NewsletterAdmin.totalSubscribers o
    /\ NewsletterAdmin.activeSubscribers o'
       = (NewsletterAdmin.activeSubscribers o - 1)%Z
    /\ NewsletterAdmin.unsubscribedCount o'
       = (NewsletterAdmin.unsubscribedCount o + 1)%Z.
Proof.
  destruct (newsletter_stats_consistent (ids := objectIds) (fmt := formatting)
              twoReaders [] [issue])
    as (o & Ho & _ & _ & _ & _ & _ & _ & _ & _ & Hun).
  destruct (Hun id1 20%Z reader eq_refl eq_refl eq_refl)
    as (o' & Ho' & Htotal & Hactive & Hcount).
  exists o, o'. repeat split; assumption.
Defined.

Lemma delete_then_subscribe_witness :
  exists l1 l2 s',
    twoReaders = l1 ++ reader :: l2
    /\ NewsletterAdmin.deleteSubscriber id1 twoReaders = (Json 200 tt, l1 ++ l2)
    /\ NewsletterRoutes.postSubscribers (NewsletterSpec.subscribe "Ada@Example.org")
         "fresh" 30 (l1 ++ l2)
       = (Json 201 s', (l1 ++ l2) ++ [s'])
    /\ Newsletter._id s' = "fresh"
    /\ Newsletter.email s' = "ada@example.org"
    /\ Newsletter.unsubscribed s' = Some false
    /\ Newsletter.unsubscribedAt s' = None
    /\ Newsletter.createdAt s' = 30%Z
    /\ Newsletter.prefs s' = {| Newsletter.frequency := Some "weekly";
                                Newsletter.categories := [] |}.
Proof.
  apply (delete_then_subscribe (ids := objectIds) (rt := runtime)
           (NewsletterSpec.subscribe "Ada@Example.org") "Ada@Example.org" "fresh"
           30 twoReaders reader).
  - reflexivity.
  - discriminate.
  - reflexivity.
  - discriminate.
  - repeat constructor; simpl; intuition discriminate.
  - repeat constructor; simpl; intuition discriminate.
  - reflexivity.
Defined.

(** The statistics of the four sample testimonials: three are active,
    rated 5, 4 and 3. *)
Example stats_sample :
  TestimonialRoutes.getStats ListingSpec.fourTestimonials
  = Json 200
      {| TestimonialRoutes.totalTestimonials := 4;
         TestimonialRoutes.activeTestimonials := 3;
         TestimonialRoutes.featuredTestimonials := 0;
         TestimonialRoutes.verifiedTestimonials := 0;
         TestimonialRoutes.averageRating := "4.0";
         TestimonialRoutes.ratingDistribution :=
           [(inject_Z 3, 1%Z); (inject_Z 4, 1%Z); (inject_Z 5, 1%Z)] |}.
Proof. reflexivity. Qed.

End OtherRoutesOnSamples.
